(* ===== verification/_CoqProject ===== *)
-Q . S2P
Prelude.v
JsString.v
Effects.v
JsValue.v
Json.v
Platform.v
Indexed.v
RunStore.v
World.v
Composer.v
Generator.v
DateTime.v
Uri.v
Providers.v
Workflow.v
History.v
Next.v
Concurrency.v
Page.v
System.v
