(* ===== verification/Prelude.v ===== *)
(** * A verification development of upthrust, the AI workflow service

    upthrust is a Next.js application.  Its server part is one pipeline,
    [POST] in [src/src/app/api/run_workflow/route.js], which validates a
    JSON request [{prompt, action, location}], records a pending
    [WorkflowRun] document ([src/src/models/WorkFlowRun.js]), asks a text
    generator for a short reply ([callOpenAI]: a deterministic mock or a
    remote chat-completion call), asks one of three data providers
    ([fetchWeather], [fetchGithubTrending], [fetchNews], chosen by the
    action string), composes both answers with a hashtag and updates the
    document.  [GET] in [src/src/app/api/history/route.js] lists the ten
    most recent documents.  The client page [src/src/app/page.js] builds
    the request and renders the answer and the history.

    ** How the code is modelled

    Every handler is a shallow embedding in a state and exception monad
    [M S A = S -> jsres A * S] ([Effects]): [await] is [bind], [throw]
    and a rejected promise are [Throw msg] (the Error's message), a
    [try/catch] is [catch].  The handlers are written against three
    interfaces, so that their theorems hold of every implementation:
    [Fetch] and [Clock] ([Platform]: the network and [new Date()]), and
    [RunStore] ([RunStore]: [dbConnect], [WorkflowRun.create],
    [findByIdAndUpdate], [find().sort().limit(10)]), whose laws
    ([RunStoreLaws], [PlatformFrame]) say what each call does to the
    collection.  [World] is a concrete implementation (a gmap of
    documents, fresh ids, failure and network oracles, an event log) and
    proves the laws; the scenarios of the specification run on it by
    evaluation.  Strings are lists of UTF-16 code units, numbers are
    finite decimals [m * 10^e] with NaN and the infinities, JSON answers
    are [jval]; the JavaScript built-ins the code calls are written out
    from ECMA-262 with V8's error messages.

    ** Layout (one file per component, in dependency order)

    - [Prelude]    this header; the hint databases [upthrust] and
                   [upthrust_rw], the tactics and the generic list lemmas
                   ([drop_while], [prefixb], [infixb]).
    - [JsString]   strings as UTF-16 code units: [trim], [slice],
                   [charAt], [toUpperCase], literal [replace], [join],
                   integer printing and parsing, surrogate pairs.
    - [Effects]    the monad, its laws and the notations of [monad_scope].
    - [JsValue]    JSON values: truthiness, [?.], [??], property reads
                   with their TypeErrors, template conversion, Number
                   printing, StringToNumber, [Math.round].
    - [Json]       [JSON.stringify] and [JSON.parse] (a recursive
                   descent with fuel, the text's length plus one).
    - [Platform]   the environment variables, requests and responses,
                   the [Fetch] and [Clock] interfaces.
    - [Indexed]    sums of weights over lists updated by index, shared
                   by the termination arguments of [Page] and
                   [Concurrency].
    - [RunStore]   Module [RunModel]: the schema ([WorkflowRun]), the
                   cast and validation of [create] ([build_draft]), the
                   pending and finalised documents, the specification of
                   the recent-runs query ([recent_spec]); the classes
                   [RunStore], [RunStoreLaws], [PlatformFrame] and the
                   [frame] lemmas.
    - [World]      the concrete world and its laws; the refinement of
                   [recent_spec] by the sort-and-limit query.
    - [Composer]   step 3 of [POST] (route.js 168-173).
    - [Generator]  [callOpenAI] (route.js 9-48).
    - [DateTime]   [setDate]/[toISOString] of [fetchGithubTrending].
    - [Uri]        [encodeURIComponent].
    - [Providers]  [fetchWeather], [fetchGithubTrending], [fetchNews],
                   [capitalize] and the dispatch of step 2 (route.js
                   50-166).
    - [Workflow]   [POST] (route.js 119-188) and its store theorems.
    - [History]    [GET /api/history].
    - [Next]       what Next.js does between the page and the routes:
                   the app router ([serve]: path and exported method to
                   handler), [req.json()] ([req_json]) and
                   [NextResponse.json(body, { status })] as the text the
                   page's [fetch] receives ([next_json]).
    - [Concurrency] Module [Server]: the two route handlers cut at their
                   [await]s ([handler]: where a handler waits, [segment]:
                   the code between two [await]s), a server of handlers
                   in flight on one collection ([server]), requests that
                   arrive and handlers that resume in any order
                   ([sstep], [sreachable]).
    - [Page]       the client page [page.js] as a transition system: the
                   seven [useState] variables and the promises in flight
                   ([state]), one [step] per user event or settlement of
                   an [await], the [reachable] states, [render].
    - [System]     the page and the routes together.

    ** What the theorems show

    - [Workflow]: from a well-formed store [POST] always answers; the
      collection afterwards is unchanged, has one more pending run, or
      one more run finalised with exactly the texts of the 200 answer;
      a request without prompt or action is answered 400 and touches
      nothing; a body that is not JSON is answered 500; every 200
      answer ends with the action's hashtag and is trimmed; with the
      mock generator and no weather key, every 200 answer to a weather
      request is the trimmed mock reply, the unavailable text and their
      composition (the specification's scenario, for every prompt and
      location).
    - [Composer]: the composed texts case by case, insensitivity to
      surrounding white space, the hashtag suffix, and exactly when the
      step throws.
    - [Generator] and [Providers]: the mock reply's bound (at most 80
      units of snippet), and that the reply to a well-formed prompt is
      well-formed exactly unless the 77-unit cut splits a surrogate
      pair; the missing-key path makes no request; a non-2xx weather
      answer without a top-level [message] (weatherapi.com's nested
      error) is reported as the status text; a non-string location
      throws before the key check; the news and error texts.
    - [World]: the sort-and-limit history query refines its
      specification (at most ten, newest first, nothing newer left out).
    - [Generator]: no code fence survives [clean].
    - [DateTime]: [setDate(getDate() - 7)] moves the local wall clock
      back by seven days, so the trending query's date is the UTC date
      of [now - 7 days] moved by the change of the zone's offset (a
      week and an hour across a daylight-saving change; exactly a week
      in a zone without one).
    - [Page] (by rule induction on [reachable]): at most one submission
      is in flight, exactly one while loading; the action is always an
      option; whatever the network answers, the promises settle and the
      page stops loading (a measure, [weight], decreases with every
      settlement); after a successful run the answer is headed "Weather
      Data" whatever the action; from any state, two history answers
      read in the opposite order leave the older list shown; a 200
      history answer without [runs] makes the rendering throw.
    - [Concurrency]: under every interleaving of requests from a
      well-formed store, each [POST] finds its own run as it left it and
      no two handlers own the same run (by rule induction on
      [sreachable] with the invariant [server_inv]), and a 200 answer's
      run is stored finalised with its texts.
    - [Next]: every answer of [POST] whose texts are strings of code
      units, and every history of at most ten such runs, reaches the page
      as the value the handler built.
    - [System] (the page, the router and the routes together): a
      workflow request the page has in flight reaches [POST] intact and
      is answered 200 or 500; a 200 answer comes with exactly one new run,
      finalised with the answer's texts, and the page then shows exactly
      those texts; a history request reaches [GET], changes nothing, and
      the page then shows the ten most recent runs, newest first, entry
      by entry, without a location.

    Supporting lemmas on the models of the built-ins and on the model's
    own construction, used by the theorems above: [civil_from_days] is
    inverted by [days_from_civil] on all of [Z]; [encodeURIComponent]
    succeeds exactly on well-formed UTF-16 and yields only unreserved
    characters and escapes; [JSON.parse(JSON.stringify(v))] is [v] for
    every value of strings of code units and integers below [10^21];
    [Math.round] is the nearest integer, halves up; cut at its
    [await]s, [POST] (and [GET]) is the handler in one piece; every
    schedule of resumptions has at most [load] steps; [GET] meets the
    recent-runs specification against the store laws.

    ** Bounds and fuel

    Every recursion of the model is structural on a list or a [nat];
    the only fuel is [Page.drain]'s, and [weight] (4, 3, 2, 1 for the
    four kinds of task) is enough fuel for any reachable state
    ([drain_settles]).  [Server.finish] runs one handler with fuel: six
    segments for [POST] and two for [GET] are exactly their [await]s,
    and [weight] (6 down to 0) counts the segments a handler has left,
    so [load], their sum, bounds every schedule ([schedule_bound]).  Integers are unbounded [Z]: the code does no fixed-width
    arithmetic; UTF-16 units are integers in [0, 2^16) ([str_wf]).  The
    local time zone is the [zone] of the environment: an offset for
    every instant and for every local time, as LocalTZA.

    ** What is not modelled

    Network transport, MongoDB's storage engine and Mongoose's connection
    caching ([lib/mongoose], not under [src/]) are not modelled: their observable behaviour enters as an oracle in the
    state (the response of each [fetch], the failure of each store
    call).  [console.error] logging is dropped.  In [page.js], styles,
    icons and [toLocaleString] (locale dependent) are not modelled.
    V8's SyntaxError messages of [JSON.parse] are given as one message,
    and the answers of the external services ([res.json()]) are values, not texts.
    In [Concurrency], the [await]s inside [callOpenAI] and the providers
    are not points of interleaving: they only use the network, which no
    other handler observes.  Each store call is atomic, as the
    specification assumes (atomic create and update by id).  The
    connection promise that [lib/mongoose] caches across requests is not
    modelled.  The run a handler created is ghost state ([owned]).
    Every [fetch] settles: the network is a function of the state, so a
    request that never answers (the code sets no timeout) cannot be
    expressed, and [drain_settles] holds for networks that answer.
    Next.js answers other paths and methods itself (404, 405): that is
    framework code, and [serve] has no handler for them. *)

From Stdlib Require Import ZArith List Lia Bool.
Import ListNotations.

Create HintDb upthrust.
Create Rewrite HintDb upthrust_rw.

(** Inversion that cleans up after itself. *)
Ltac inv H := inversion H; subst; clear H.

(** Case analysis on the first [if] or [match] of the goal, with an
    equation named after the scrutinee. *)
Ltac case_if :=
  match goal with
  | |- context [if ?c then _ else _] => let E := fresh "E" in destruct c eqn:E
  | |- context [match ?c with _ => _ end] => let E := fresh "E" in destruct c eqn:E
  end.

(** [l.length === 0] *)
Definition is_nil {A} (l : list A) : bool := match l with [] => true | _ => false end.

(** ** Dropping a prefix of elements that satisfy a test *)

Section DropWhile.
Context {A : Type} (p : A -> bool).

Fixpoint drop_while (l : list A) : list A :=
  match l with
  | [] => []
  | x :: r => if p x then drop_while r else l
  end.

Definition all_p (l : list A) : Prop := Forall (fun x => p x = true) l.

Lemma drop_while_split l :
  exists pre, l = pre ++ drop_while l /\ all_p pre.
Proof.
  induction l as [|x r [pre [Hr Hpre]]]; simpl.
  - exists []. split; [reflexivity | constructor].
  - destruct (p x) eqn:Hx.
    + exists (x :: pre). simpl. rewrite <- Hr. split; [reflexivity | now constructor].
    + exists []. split; [reflexivity | constructor].
Qed.

Lemma drop_while_head l :
  match drop_while l with [] => True | x :: _ => p x = false end.
Proof.
  induction l as [|x r IH]; simpl; [exact I|].
  destruct (p x) eqn:Hx; [exact IH | exact Hx].
Qed.

Lemma drop_while_all pre l : all_p pre -> drop_while (pre ++ l) = drop_while l.
Proof. induction 1 as [|x r Hx _ IH]; simpl; [reflexivity | now rewrite Hx]. Qed.

Lemma drop_while_idem l : drop_while (drop_while l) = drop_while l.
Proof.
  pose proof (drop_while_head l) as H.
  destruct (drop_while l) as [|x r]; simpl; [reflexivity | now rewrite H].
Qed.

Lemma drop_while_stop x l : p x = false -> drop_while (x :: l) = x :: l.
Proof. intros H. simpl. now rewrite H. Qed.

Lemma drop_while_app_nonempty l r :
  drop_while l <> [] -> drop_while (l ++ r) = drop_while l ++ r.
Proof.
  induction l as [|x l IH]; simpl; [congruence|].
  destruct (p x); [exact IH | reflexivity].
Qed.

Lemma drop_while_nil_all l : drop_while l = [] -> all_p l.
Proof.
  induction l as [|x r IH]; simpl; [constructor|].
  destruct (p x) eqn:Hx; [intros H; constructor; [exact Hx | exact (IH H)] | discriminate].
Qed.

Lemma drop_while_all_nil l : all_p l -> drop_while l = [].
Proof. intros H. rewrite <- (app_nil_r l). now rewrite drop_while_all. Qed.

Lemma all_p_app l r : all_p l -> all_p r -> all_p (l ++ r).
Proof. intros H1 H2. now apply Forall_app. Qed.

Lemma all_p_rev l : all_p l -> all_p (rev l).
Proof. intros H. now apply Forall_rev. Qed.
End DropWhile.

#[export] Hint Resolve all_p_app all_p_rev drop_while_nil_all : upthrust.
#[export] Hint Rewrite @drop_while_idem : upthrust_rw.

(** ** Prefix and infix tests on lists with a boolean equality *)

Section Infix.
Context {A : Type} (eqb : A -> A -> bool).
Hypothesis eqb_spec : forall x y, eqb x y = true <-> x = y.

Fixpoint prefixb (pat l : list A) : bool :=
  match pat, l with
  | [], _ => true
  | _ :: _, [] => false
  | a :: pat', b :: l' => eqb a b && prefixb pat' l'
  end.

Lemma prefixb_spec pat l : prefixb pat l = true <-> exists r, l = pat ++ r.
Proof.
  revert l. induction pat as [|a pat IH]; intros [|b l]; simpl.
  - split; eauto.
  - split; eauto.
  - split; [discriminate | intros [r Hr]; discriminate].
  - rewrite andb_true_iff, eqb_spec, IH. split.
    + intros [-> [r ->]]. eauto.
    + intros [r Hr]. injection Hr as -> ->. eauto.
Qed.

(** [infixb pat l]: [pat] occurs in [l] at some position. *)
Fixpoint infixb (pat l : list A) : bool :=
  prefixb pat l || match l with [] => false | _ :: l' => infixb pat l' end.

Lemma infixb_spec pat l :
  infixb pat l = true <-> exists pre post, l = pre ++ pat ++ post.
Proof.
  induction l as [|b l IH]; simpl; rewrite orb_true_iff, prefixb_spec.
  - split.
    + intros [[r Hr] | H]; [exists [], r; exact Hr | discriminate].
    + intros [[|x pre] [post H]]; simpl in H; [left; eauto | discriminate].
  - rewrite IH. split.
    + intros [[r Hr] | [pre [post Hp]]].
      * exists [], r. exact Hr.
      * exists (b :: pre), post. now rewrite Hp.
    + intros [[|x pre] [post H]]; simpl in H.
      * left. eauto.
      * right. injection H as -> ->. eauto.
Qed.
End Infix.

(** Induction on the length of a list, for recursions that consume more
    than one element at a time. *)
Lemma length_ind {A} (P : list A -> Prop) :
  (forall l, (forall r, length r < length l -> P r) -> P l) -> forall l, P l.
Proof.
  intros H l. remember (length l) as n eqn:E. revert l E.
  induction n as [n IH] using (well_founded_induction lt_wf).
  intros l ->. apply H. intros r Hr. exact (IH _ Hr r eq_refl).
Qed.
