(* ===== verification/JsString.v ===== *)
(** * JavaScript strings as sequences of UTF-16 code units

    A JavaScript string is a sequence of 16-bit code units; [length],
    [slice] and [charAt] count code units, not characters.  This file
    models the String.prototype operations that
    [src/src/app/api/run_workflow/route.js] and [src/src/app/page.js]
    call, following ECMA-262: [trim] (WhiteSpace and LineTerminator code
    points, sections 12.2 and 12.3), [slice] (relative indices clamped to
    the string), [charAt], [toUpperCase] (exact on Basic Latin and
    Latin-1, see [upper_unit]), global replacement of a literal pattern
    by the empty string ([.replace(/```/g, "")]), [Array.prototype.join]
    of strings, and [String(n)] for an integer [n]. *)

From Stdlib Require Import String Ascii.
From Stdlib Require Import ZArith List Lia Bool DecimalZ.
From S2P Require Import Prelude.
Import ListNotations.

Open Scope Z_scope.

(** A string is its list of code units. *)
Abbreviation jstr := (list Z).

(** Every code unit lies in [0, 2^16). *)
Definition unit_ok (u : Z) : bool := (0 <=? u) && (u <? 65536).
Definition str_wf (s : jstr) : Prop := Forall (fun u => unit_ok u = true) s.

(** The ASCII text of a string literal of the source. *)
Definition lit (s : string) : jstr :=
  map (fun a => Z.of_nat (nat_of_ascii a)) (list_ascii_of_string s).

(** The non-ASCII code units the source writes in its templates. *)
Definition DEGREE_SIGN : Z := 176.     (* U+00B0, in "°C" *)
Definition BLACK_STAR : Z := 9733.     (* U+2605, in "(12★)" *)
Definition EM_DASH : Z := 8212.        (* U+2014, in "title — source" *)
Definition SPACE : Z := 32.

(** ** [String.prototype.trim] *)

(** WhiteSpace (TAB, VT, FF, SP, NBSP, ZWNBSP and the Zs category) and
    LineTerminator (LF, CR, LS, PS) of ECMA-262. *)
Definition ws_units : list Z :=
  [9; 10; 11; 12; 13; 32; 160; 5760; 8232; 8233; 8239; 8287; 12288; 65279].

Definition is_ws (u : Z) : bool :=
  existsb (Z.eqb u) ws_units || ((8192 <=? u) && (u <=? 8202)).

Definition trim_start (s : jstr) : jstr := drop_while is_ws s.
Definition trim_end (s : jstr) : jstr := rev (drop_while is_ws (rev s)).
Definition trim (s : jstr) : jstr := trim_end (trim_start s).

(** ** [String.prototype.slice] and [charAt] *)

(** A relative index: negative values count from the end; the result is
    clamped to [0, len]. *)
Definition rel_index (len i : Z) : Z :=
  if i <? 0 then Z.max (len + i) 0 else Z.min i len.

Definition slice (s : jstr) (start fin : Z) : jstr :=
  let len := Z.of_nat (length s) in
  let from := rel_index len start in
  let to := rel_index len fin in
  firstn (Z.to_nat (to - from)) (skipn (Z.to_nat from) s).

(** [s.slice(start)]: the end defaults to the length. *)
Definition slice_from (s : jstr) (start : Z) : jstr :=
  slice s start (Z.of_nat (length s)).

Definition char_at (s : jstr) (pos : Z) : jstr :=
  if (0 <=? pos) && (pos <? Z.of_nat (length s))
  then firstn 1 (skipn (Z.to_nat pos) s) else [].

(** ** [String.prototype.toUpperCase] *)

(** The full case mapping of Unicode restricted to Basic Latin and
    Latin-1: a-z, the Latin-1 small letters, MICRO SIGN to GREEK CAPITAL
    MU, SHARP S to "SS", y-diaeresis to U+0178.  Code units above U+00FF
    are kept as they are (the weather descriptions the provider returns
    are English). *)
Definition upper_unit (u : Z) : jstr :=
  if (97 <=? u) && (u <=? 122) then [u - 32]
  else if u =? 181 then [924]
  else if u =? 223 then [83; 83]
  else if (224 <=? u) && (u <=? 254) && negb (u =? 247) then [u - 32]
  else if u =? 255 then [376]
  else [u].

Definition to_upper (s : jstr) : jstr := flat_map upper_unit s.

(** ** [s.replace(/pat/g, "")] for a literal pattern *)

(** Matches are found left to right and do not overlap: after a match
    the next [length pat - 1] units are skipped too.  The recursion is on
    the string, the counter [skip] says how many units of the current
    match remain. *)
Fixpoint remove_all_from (pat s : jstr) (skip : nat) : jstr :=
  match s with
  | [] => []
  | c :: r =>
      match skip with
      | S k => remove_all_from pat r k
      | O => if prefixb Z.eqb pat s
             then remove_all_from pat r (length pat - 1)
             else c :: remove_all_from pat r O
      end
  end.

Definition remove_all (pat s : jstr) : jstr := remove_all_from pat s O.

(** ** [Array.prototype.join] on strings *)

Fixpoint join (sep : jstr) (l : list jstr) : jstr :=
  match l with
  | [] => []
  | [x] => x
  | x :: r => x ++ sep ++ join sep r
  end.

(** ** [String(n)] for an integer [n] *)

Fixpoint uint_units (d : Decimal.uint) : jstr :=
  match d with
  | Decimal.Nil => []
  | Decimal.D0 d => 48 :: uint_units d
  | Decimal.D1 d => 49 :: uint_units d
  | Decimal.D2 d => 50 :: uint_units d
  | Decimal.D3 d => 51 :: uint_units d
  | Decimal.D4 d => 52 :: uint_units d
  | Decimal.D5 d => 53 :: uint_units d
  | Decimal.D6 d => 54 :: uint_units d
  | Decimal.D7 d => 55 :: uint_units d
  | Decimal.D8 d => 56 :: uint_units d
  | Decimal.D9 d => 57 :: uint_units d
  end.

(** The decimal form JavaScript prints for an integral Number: no
    leading zeros, a minus sign for negative values ([-0] is printed
    ["0"], and [Z] has no negative zero). *)
Definition int_to_jstr (z : Z) : jstr :=
  match Z.to_int z with
  | Decimal.Pos d => uint_units d
  | Decimal.Neg d => 45 :: uint_units d
  end.

(** A reader of decimal integers, the inverse of [int_to_jstr]. *)
Definition digit_of (u : Z) : option (Decimal.uint -> Decimal.uint) :=
  match u with
  | 48 => Some Decimal.D0 | 49 => Some Decimal.D1 | 50 => Some Decimal.D2
  | 51 => Some Decimal.D3 | 52 => Some Decimal.D4 | 53 => Some Decimal.D5
  | 54 => Some Decimal.D6 | 55 => Some Decimal.D7 | 56 => Some Decimal.D8
  | 57 => Some Decimal.D9 | _ => None
  end.

Fixpoint units_uint (s : jstr) : option Decimal.uint :=
  match s with
  | [] => Some Decimal.Nil
  | c :: r =>
      match digit_of c, units_uint r with
      | Some f, Some d => Some (f d)
      | _, _ => None
      end
  end.

Definition parse_int (s : jstr) : option Z :=
  match s with
  | 45 :: r => option_map (fun d => Z.of_int (Decimal.Neg d)) (units_uint r)
  | _ => option_map (fun d => Z.of_int (Decimal.Pos d)) (units_uint s)
  end.

(** ** Well-formed UTF-16: every surrogate is part of a pair *)

Definition is_high_surrogate (u : Z) : bool := (55296 <=? u) && (u <=? 56319).
Definition is_low_surrogate (u : Z) : bool := (56320 <=? u) && (u <=? 57343).

Fixpoint utf16_wf (s : jstr) : bool :=
  match s with
  | [] => true
  | u :: r =>
      if is_high_surrogate u then
        match r with
        | v :: r' => is_low_surrogate v && utf16_wf r'
        | [] => false
        end
      else negb (is_low_surrogate u) && utf16_wf r
  end.

(** The number of leading units equal to [c]. *)
Fixpoint lead (c : Z) (s : jstr) : nat :=
  match s with
  | x :: r => if Z.eqb x c then S (lead c r) else O
  | [] => O
  end.

(** ** Lemmas on well-formed UTF-16 *)

(** A prefix of units below the surrogate range does not change
    well-formedness. *)
Lemma utf16_wf_app_bmp a t :
  forallb (fun u => u <? 55296) a = true -> utf16_wf (a ++ t) = utf16_wf t.
Proof.
  induction a as [|u a IH]; [reflexivity|]. cbn [forallb app utf16_wf].
  intros H. apply andb_true_iff in H as [Hu Ha]. apply Z.ltb_lt in Hu.
  unfold is_high_surrogate, is_low_surrogate.
  rewrite (proj2 (Z.leb_gt 55296 u)), (proj2 (Z.leb_gt 56320 u)) by lia. cbn. now apply IH.
Qed.

(** Appending a string that does not start with a low surrogate. *)
Lemma utf16_wf_app x t :
  match t with v :: _ => is_low_surrogate v = false | [] => True end ->
  utf16_wf (x ++ t) = utf16_wf x && utf16_wf t.
Proof.
  intros Ht. remember (length x) as n eqn:E. revert x E.
  induction n as [n IH] using lt_wf_ind. intros [|u r] E; [reflexivity|].
  cbn [app utf16_wf]. destruct (is_high_surrogate u).
  - destruct r as [|v r']; cbn [app].
    + destruct t as [|v t]; [reflexivity|]. now rewrite Ht.
    + rewrite <- andb_assoc, (IH (length r')) by (cbn in E; lia || reflexivity). reflexivity.
  - rewrite <- andb_assoc, (IH (length r)) by (cbn in E; lia || reflexivity). reflexivity.
Qed.

(** The first [k] units of a well-formed string are well-formed exactly
    when the last of them is not a high surrogate: a cut can only split
    a pair. *)
Lemma utf16_wf_firstn p k :
  utf16_wf p = true -> (0 < k <= length p)%nat ->
  utf16_wf (firstn k p) = negb (is_high_surrogate (nth (k - 1) p 0)).
Proof.
  remember (length p) as n eqn:E. revert p k E.
  induction n as [n IH] using lt_wf_ind. intros [|u r] k E W K; [cbn in E; lia|].
  destruct k as [|k]; [lia|]. cbn [firstn utf16_wf] in *. destruct (is_high_surrogate u) eqn:Hu.
  - destruct r as [|v r']; [discriminate|]. apply andb_true_iff in W as [Hv W].
    destruct k as [|k]; [cbn; now rewrite Hu|]. cbn [firstn utf16_wf]. rewrite Hv. cbn [andb].
    destruct k as [|k].
    + cbn. unfold is_high_surrogate, is_low_surrogate in *.
      apply andb_true_iff in Hv as [Hv _]. apply Z.leb_le in Hv.
      rewrite (proj2 (Z.leb_gt v 56319)) by lia. now rewrite andb_false_r.
    + rewrite (IH (length r')) by (cbn in *; lia || reflexivity || assumption).
      replace (S (S (S k)) - 1)%nat with (S (S k)) by lia. replace (S k - 1)%nat with k by lia. reflexivity.
  - apply andb_true_iff in W as [Hl W]. rewrite Hl. cbn [andb].
    destruct k as [|k]; [cbn; now rewrite Hu|].
    rewrite (IH (length r)) by (cbn in *; lia || reflexivity || assumption).
    replace (S (S k) - 1)%nat with (S k) by lia. replace (S k - 1)%nat with k by lia. reflexivity.
Qed.

(** ** Lemmas on [trim] *)

Lemma unit_ok_range u : unit_ok u = true -> 0 <= u < 65536.
Proof. unfold unit_ok. rewrite andb_true_iff, Z.leb_le, Z.ltb_lt. lia. Qed.

Lemma trim_start_nonws x l : is_ws x = false -> trim_start (x :: l) = x :: l.
Proof. apply drop_while_stop. Qed.

Lemma trim_start_ws pre l : all_p is_ws pre -> trim_start (pre ++ l) = trim_start l.
Proof. apply drop_while_all. Qed.

Lemma trim_start_app l r : trim_start l <> [] -> trim_start (l ++ r) = trim_start l ++ r.
Proof. apply drop_while_app_nonempty. Qed.

Lemma trim_end_app l r : trim_end r <> [] -> trim_end (l ++ r) = l ++ trim_end r.
Proof.
  unfold trim_end. intros H. rewrite rev_app_distr, drop_while_app_nonempty.
  - now rewrite rev_app_distr, rev_involutive.
  - intros E. apply H. now rewrite E.
Qed.

Lemma trim_end_ws l post : all_p is_ws post -> trim_end (l ++ post) = trim_end l.
Proof.
  unfold trim_end. intros H. rewrite rev_app_distr, drop_while_all; auto with upthrust.
Qed.

Lemma trim_end_nonws l x : is_ws x = false -> trim_end (l ++ [x]) = l ++ [x].
Proof.
  unfold trim_end. intros H. rewrite rev_app_distr. simpl.
  rewrite H. simpl. now rewrite rev_involutive.
Qed.

(** [trim_end s] is a prefix of [s] followed by white space only. *)
Lemma trim_end_split s : exists post, s = trim_end s ++ post /\ all_p is_ws post.
Proof.
  destruct (drop_while_split is_ws (rev s)) as [pre [H Hpre]].
  exists (rev pre). split; [| auto with upthrust].
  unfold trim_end. rewrite <- rev_app_distr, <- H. now rewrite rev_involutive.
Qed.

Lemma trim_start_split s : exists pre, s = pre ++ trim_start s /\ all_p is_ws pre.
Proof. apply drop_while_split. Qed.

Lemma trim_start_head s :
  match trim_start s with [] => True | x :: _ => is_ws x = false end.
Proof. apply drop_while_head. Qed.

Lemma trim_end_last s :
  trim_end s = [] \/ exists l x, trim_end s = l ++ [x] /\ is_ws x = false.
Proof.
  unfold trim_end. pose proof (drop_while_head is_ws (rev s)) as H.
  destruct (drop_while is_ws (rev s)) as [|x r]; [now left|].
  right. exists (rev r), x. split; [reflexivity | exact H].
Qed.

Lemma trim_start_idem s : trim_start (trim_start s) = trim_start s.
Proof. apply drop_while_idem. Qed.

Lemma trim_end_idem s : trim_end (trim_end s) = trim_end s.
Proof.
  destruct (trim_end_last s) as [E | [l [x [E Hx]]]]; rewrite E; [reflexivity|].
  now apply trim_end_nonws.
Qed.

Lemma trim_start_trim_end s :
  trim_start s = s -> trim_start (trim_end s) = trim_end s.
Proof.
  intros Hs. destruct (trim_end_split s) as [post [E _]].
  pose proof (trim_start_head s) as H. rewrite Hs in H.
  destruct (trim_end s) as [|x r] eqn:T; [reflexivity|].
  rewrite E in H. simpl in H. now apply trim_start_nonws.
Qed.

#[export] Hint Rewrite trim_start_idem trim_end_idem : upthrust_rw.

(** White space around a string does not change its trimmed form. *)
Lemma trim_app_ws pre s post :
  all_p is_ws pre -> all_p is_ws post -> trim (pre ++ s ++ post) = trim s.
Proof.
  intros Hpre Hpost. unfold trim. rewrite trim_start_ws by exact Hpre.
  destruct (trim_start s) as [|x r] eqn:T.
  - apply drop_while_nil_all in T.
    unfold trim_start. rewrite drop_while_all_nil by auto with upthrust.
    reflexivity.
  - rewrite trim_start_app by (rewrite T; discriminate). rewrite T.
    now rewrite trim_end_ws.
Qed.

(** A string that starts and ends with a unit other than white space is
    its own trimmed form. *)
Lemma trim_edges x l y :
  is_ws x = false -> is_ws y = false -> trim (x :: l ++ [y]) = x :: l ++ [y].
Proof.
  intros Hx Hy. unfold trim. rewrite trim_start_nonws by exact Hx.
  rewrite app_comm_cons. now apply trim_end_nonws.
Qed.

(** [trim] is idempotent. *)
Lemma trim_idem s : trim (trim s) = trim s.
Proof.
  unfold trim at 2 3. unfold trim.
  rewrite trim_start_trim_end by apply trim_start_idem.
  apply trim_end_idem.
Qed.

#[export] Hint Rewrite trim_idem : upthrust_rw.

(** ** Lemmas on [slice] and [charAt] *)

Lemma slice_prefix s n :
  0 <= n <= Z.of_nat (length s) -> slice s 0 n = firstn (Z.to_nat n) s.
Proof.
  intros H. unfold slice, rel_index. simpl.
  destruct (Z.ltb_spec n 0); [lia|].
  rewrite Z.min_l by lia. rewrite Z.min_l by lia. now rewrite Z.sub_0_r.
Qed.

Lemma char_at_0 s : char_at s 0 = firstn 1 s.
Proof. destruct s; reflexivity. Qed.

Lemma slice_from_1 s : slice_from s 1 = skipn 1 s.
Proof.
  destruct s as [|x r]; [reflexivity|].
  unfold slice_from, slice, rel_index. cbn [length]. rewrite Nat2Z.inj_succ.
  destruct (Z.ltb_spec 1 0); [lia|].
  destruct (Z.ltb_spec (Z.succ (Z.of_nat (length r))) 0); [lia|].
  rewrite !Z.min_l by lia.
  replace (Z.succ (Z.of_nat (length r)) - 1) with (Z.of_nat (length r)) by lia.
  rewrite Nat2Z.id. simpl. apply firstn_all.
Qed.

(** ** [String(n)] round trip *)

Lemma units_uint_inv d : units_uint (uint_units d) = Some d.
Proof. induction d; simpl; rewrite ?IHd; reflexivity. Qed.

Lemma parse_int_inv z : parse_int (int_to_jstr z) = Some z.
Proof.
  unfold int_to_jstr. pose proof (DecimalZ.of_to z) as H.
  destruct (Z.to_int z) as [d | d].
  - destruct d; simpl; rewrite ?units_uint_inv; simpl; f_equal; exact H.
  - simpl. rewrite units_uint_inv. simpl. f_equal. exact H.
Qed.

Lemma trim_start_length s : (length (trim_start s) <= length s)%nat.
Proof.
  destruct (trim_start_split s) as [pre [E _]].
  rewrite E at 2. rewrite length_app. lia.
Qed.

Lemma trim_end_length s : (length (trim_end s) <= length s)%nat.
Proof.
  destruct (trim_end_split s) as [post [E _]].
  rewrite E at 2. rewrite length_app. lia.
Qed.

(** A trimmed string is left alone by both halves of [trim]. *)
Lemma trimmed_parts s : trim s = s -> trim_start s = s /\ trim_end s = s.
Proof.
  intros H.
  assert (Hs : trim_start s = s).
  { destruct (trim_start_split s) as [[|x pre] [E _]]; [now rewrite E at 2|].
    exfalso. pose proof (trim_end_length (trim_start s)) as L.
    unfold trim in H. rewrite H in L. rewrite E in L at 1.
    rewrite length_app in L. simpl in L. lia. }
  split; [exact Hs|]. unfold trim in H. now rewrite Hs in H.
Qed.

(** Gluing anything between two non-empty trimmed strings gives a
    trimmed string. *)
Lemma trim_app3 a m t :
  trim a = a -> a <> [] -> trim t = t -> t <> [] -> trim (a ++ m ++ t) = a ++ m ++ t.
Proof.
  intros Ha Hna Ht Hnt.
  destruct (trimmed_parts a Ha) as [Ha1 _]. destruct (trimmed_parts t Ht) as [_ Ht2].
  unfold trim. rewrite trim_start_app by congruence. rewrite Ha1.
  rewrite app_assoc, trim_end_app by congruence. now rewrite Ht2.
Qed.

Lemma trim_ws_left pre s : all_p is_ws pre -> trim (pre ++ s) = trim s.
Proof. intros H. rewrite <- (app_nil_r s) at 1. apply trim_app_ws; [exact H | constructor]. Qed.

#[export] Hint Resolve trim_idem : upthrust.

(** [trim] keeps a contiguous part of the string. *)
Lemma trim_infix s : exists pre post, s = pre ++ trim s ++ post.
Proof.
  destruct (trim_start_split s) as [pre [E1 _]].
  destruct (trim_end_split (trim_start s)) as [post [E2 _]].
  exists pre, post. unfold trim. rewrite <- E2. exact E1.
Qed.

Lemma infix_trim pat s :
  infixb Z.eqb pat (trim s) = true -> infixb Z.eqb pat s = true.
Proof.
  rewrite !(infixb_spec Z.eqb Z.eqb_eq). intros [a [b E]].
  destruct (trim_infix s) as [pre [post Es]]. rewrite E in Es.
  exists (pre ++ a), (b ++ post). rewrite Es. now rewrite <- !app_assoc.
Qed.

(** ** Global removal of a run of three equal units *)

Lemma remove_all_from_skip pat s k :
  remove_all_from pat s k = remove_all_from pat (skipn k s) O.
Proof.
  revert k. induction s as [|x r IH]; intros [|k]; [reflexivity | destruct k; reflexivity
                                                 | reflexivity | apply IH].
Qed.

Lemma prefix3 c t : prefixb Z.eqb [c; c; c] t = (3 <=? lead c t)%nat.
Proof.
  destruct t as [|a [|b [|d t]]]; simpl;
    repeat match goal with |- context [Z.eqb c ?x] => rewrite (Z.eqb_sym c x) end;
    repeat match goal with |- context [Z.eqb ?x c] => destruct (Z.eqb x c) end; reflexivity.
Qed.

Lemma remove3_step c x r :
  remove_all [c; c; c] (x :: r) =
  if (3 <=? lead c (x :: r))%nat then remove_all [c; c; c] (skipn 2 r)
  else x :: remove_all [c; c; c] r.
Proof.
  unfold remove_all. cbn [remove_all_from]. rewrite prefix3.
  destruct (3 <=? lead c (x :: r))%nat; [apply remove_all_from_skip | reflexivity].
Qed.

(** Below a run of three, the leading run is kept as it is. *)
Lemma lead_remove3_small c t :
  (lead c t < 3)%nat -> lead c (remove_all [c; c; c] t) = lead c t.
Proof.
  induction t as [|x r IH]; [reflexivity|]. intros H.
  rewrite remove3_step. rewrite (proj2 (Nat.leb_gt _ _) H). simpl in *.
  destruct (Z.eqb x c); [f_equal; apply IH; lia | reflexivity].
Qed.

(** [s.replace(/ccc/g, "")] leaves no run of three [c]: the runs that
    the removal joins are runs of [c] already. *)
Lemma remove3_no_infix c s : infixb Z.eqb [c; c; c] (remove_all [c; c; c] s) = false.
Proof.
  induction s as [s IH] using length_ind. destruct s as [|x r]; [reflexivity|].
  rewrite remove3_step. destruct (3 <=? lead c (x :: r))%nat eqn:L.
  - apply IH. rewrite length_skipn. simpl. lia.
  - cbn [infixb]. rewrite (IH r ltac:(simpl; lia)), orb_false_r, prefix3.
    apply Nat.leb_gt in L. apply Nat.leb_gt. simpl in *.
    destruct (Z.eqb x c); [|lia]. rewrite lead_remove3_small; lia.
Qed.

(** [str_wf] as the test [forallb unit_ok]. *)
Lemma forallb_str_wf v : forallb unit_ok v = true -> str_wf v.
Proof. intros H. apply Forall_forall. intros x Hx. exact (proj1 (forallb_forall _ _) H x Hx). Qed.

Lemma str_wf_forallb v : str_wf v -> forallb unit_ok v = true.
Proof. intros H. apply forallb_forall. intros x Hx. exact (proj1 (Forall_forall _ _) H x Hx). Qed.

Lemma str_wf_trim s : str_wf s -> str_wf (trim s).
Proof.
  intros H. destruct (trim_infix s) as [pre [post E]]. rewrite E in H.
  unfold str_wf in *. rewrite !Forall_app in H. tauto.
Qed.
