(* ===== verification/Effects.v ===== *)
(** * Async JavaScript as a state and exception monad

    Every [async] function of [route.js] either resolves with a value or
    rejects with an [Error] whose [message] the callers read
    ([aiErr.message], [apiErr.message], [err.message]).  [jsres A] is that
    outcome; [M S A] threads a state [S] (the store, the network log)
    through the awaits.  [try { .. } catch (e) { .. }] is [catch],
    [.catch(() => d)] on a promise is [recover]. *)

From Stdlib Require Import ZArith List.
From S2P Require Import Prelude JsString.
Import ListNotations.

Inductive jsres (A : Type) : Type :=
| Ok (a : A)
| Throw (msg : jstr).
Arguments Ok {A} a.
Arguments Throw {A} msg.

Definition M (S A : Type) : Type := S -> jsres A * S.

Section Monad.
Context {S : Type}.

Definition ret {A} (a : A) : M S A := fun s => (Ok a, s).

Definition bind {A B} (c : M S A) (k : A -> M S B) : M S B :=
  fun s => match c s with
           | (Ok a, s') => k a s'
           | (Throw e, s') => (Throw e, s')
           end.

Definition throw {A} (msg : jstr) : M S A := fun s => (Throw msg, s).

(** [try { c } catch (e) { h(e.message) }] *)
Definition catch {A} (c : M S A) (h : jstr -> M S A) : M S A :=
  fun s => match c s with
           | (Ok a, s') => (Ok a, s')
           | (Throw e, s') => h e s'
           end.

(** [await p.catch(() => d)] *)
Definition recover {A} (c : M S A) (d : A) : M S A := catch c (fun _ => ret d).

(** A pure outcome lifted into the monad. *)
Definition lift {A} (r : jsres A) : M S A := fun s => (r, s).

Lemma bind_ret_l {A B} (a : A) (k : A -> M S B) s : bind (ret a) k s = k a s.
Proof. reflexivity. Qed.

Lemma bind_ret_r {A} (c : M S A) s : bind c ret s = c s.
Proof. unfold bind. destruct (c s) as [[a|e] s']; reflexivity. Qed.

Lemma bind_assoc {A B C} (c : M S A) (k : A -> M S B) (k' : B -> M S C) s :
  bind (bind c k) k' s = bind c (fun a => bind (k a) k') s.
Proof. unfold bind. destruct (c s) as [[a|e] s']; reflexivity. Qed.

Lemma bind_throw {A B} e (k : A -> M S B) s : bind (throw e) k s = (Throw e, s).
Proof. reflexivity. Qed.

Lemma catch_ret {A} (a : A) h s : catch (ret a) h s = (Ok a, s).
Proof. reflexivity. Qed.

Lemma catch_throw {A} e (h : jstr -> M S A) s : catch (throw e) h s = h e s.
Proof. reflexivity. Qed.

(** A computation that never throws. *)
Definition total {A} (c : M S A) : Prop :=
  forall s, exists a s', c s = (Ok a, s').

(** A handler that never throws makes [catch] total. *)
Lemma catch_total {A} (c : M S A) h :
  (forall e, total (h e)) -> total (catch c h).
Proof.
  intros Hh s. unfold catch. destruct (c s) as [[a|e] s']; [eauto | apply Hh].
Qed.

(** Every value a computation returns satisfies [Q], whatever the state. *)
Definition returns {A} (Q : A -> Prop) (c : M S A) : Prop :=
  forall s a s', c s = (Ok a, s') -> Q a.

Lemma returns_ret {A} (Q : A -> Prop) a : Q a -> returns Q (ret a).
Proof. intros HQ s a' s' [= <- _]. exact HQ. Qed.

Lemma returns_bind {A B} (Q : B -> Prop) (c : M S A) (k : A -> M S B) :
  (forall a, returns Q (k a)) -> returns Q (bind c k).
Proof.
  intros Hk s b s'. unfold bind. destruct (c s) as [[a|e] s1]; [apply Hk | discriminate].
Qed.

Lemma returns_catch {A} (Q : A -> Prop) (c : M S A) h :
  returns Q c -> (forall e, returns Q (h e)) -> returns Q (catch c h).
Proof.
  intros Hc Hh s a s'. unfold catch. destruct (c s) as [[a'|e] s1] eqn:E.
  - intros [= <- <-]. exact (Hc _ _ _ E).
  - apply Hh.
Qed.
End Monad.

Declare Scope monad_scope.
Delimit Scope monad_scope with monad.
Notation "x <- c ;; k" := (bind c (fun x => k))
  (at level 100, c at next level, k at level 200, right associativity) : monad_scope.
Notation "c ;; k" := (bind c (fun _ => k))
  (at level 100, k at level 200, right associativity) : monad_scope.

#[export] Hint Rewrite @bind_ret_l @bind_throw @catch_ret @catch_throw : upthrust_rw.
#[export] Hint Resolve catch_total returns_ret returns_bind returns_catch : upthrust.
