(* ===== verification/JsValue.v ===== *)
(** * JavaScript values of the JSON fragment

    The request body and every provider response enter [route.js]
    through [res.json()] or [req.json()], so the values the code inspects
    are JSON values: [null], booleans, numbers, strings, arrays, objects.
    [undefined] is [None] of [option jval].  This file models what the
    code does with them: truthiness ([if (!key)], [a || b]), nullish
    coalescing [a ?? b], optional chaining [a?.b], property reads [a.b]
    (a TypeError with V8's message on [null]/[undefined]), conversion in a
    template literal [`${a}`] (Number::toString of ECMA-262 6.1.6.1.20),
    [ToNumber] on strings (StringToNumber, 7.1.4.1.1) and [Math.round].

    Numbers are decimals [m * 10^e] (the literal a JSON text writes).
    Number::toString prints the shortest decimal that reads back as the
    same double; for a decimal of at most 15 significant digits in the
    double range that decimal is the literal itself, which is the case
    [num_str] implements.  Rounding of longer literals to a double is not
    modelled. *)

From Stdlib Require Import String Ascii.
From Stdlib Require Import ZArith List Lia Bool.
From S2P Require Import Prelude JsString Effects.
Import ListNotations.

Open Scope Z_scope.

(** ** Values *)

Inductive jnum : Type :=
| NFin (m e : Z)          (** the finite value [m * 10^e] *)
| NNaN
| NInf (neg : bool).

Inductive jval : Type :=
| JNull
| JBool (b : bool)
| JNum (n : jnum)
| JStr (s : jstr)
| JArr (l : list jval)
| JObj (fields : list (jstr * jval)).

Definition jstr_eqb (a b : jstr) : bool :=
  if list_eq_dec Z.eq_dec a b then true else false.

Lemma jstr_eqb_spec a b : jstr_eqb a b = true <-> a = b.
Proof. unfold jstr_eqb. destruct (list_eq_dec Z.eq_dec a b); split; congruence. Qed.

(** [a === "lit"] on a JavaScript value. *)
Definition is_str (u : option jval) (s : jstr) : bool :=
  match u with Some (JStr t) => jstr_eqb t s | _ => false end.

(** ** Truthiness, [||], [??], [?.] *)

Definition num_truthy (n : jnum) : bool :=
  match n with NFin m _ => negb (m =? 0) | NNaN => false | NInf _ => true end.

Definition truthy (u : option jval) : bool :=
  match u with
  | None | Some JNull => false
  | Some (JBool b) => b
  | Some (JNum n) => num_truthy n
  | Some (JStr s) => negb (is_nil s)
  | Some (JArr _) | Some (JObj _) => true
  end.

(** [a || b] *)
Definition or_else (a b : option jval) : option jval := if truthy a then a else b.

Definition nullish (u : option jval) : bool :=
  match u with None | Some JNull => true | _ => false end.

(** [a ?? b] *)
Definition coalesce (a b : option jval) : option jval := if nullish a then b else a.

(** The canonical array index a property key denotes, if any. *)
Definition array_index (k : jstr) : option nat :=
  match parse_int k with
  | Some i => if (0 <=? i) && jstr_eqb (int_to_jstr i) k then Some (Z.to_nat i) else None
  | None => None
  end.

(** JSON.parse keeps the last of duplicated keys. *)
Fixpoint assoc_last (k : jstr) (fs : list (jstr * jval)) : option jval :=
  match fs with
  | [] => None
  | (k', v) :: r =>
      match assoc_last k r with
      | Some w => Some w
      | None => if jstr_eqb k k' then Some v else None
      end
  end.

(** The data properties of a non-nullish value: [length] and indices of
    strings and arrays, own properties of objects.  The methods of the
    prototypes are functions, handled by the operations that call them. *)
Definition get (v : jval) (k : jstr) : option jval :=
  match v with
  | JStr s =>
      if jstr_eqb k (lit "length") then Some (JNum (NFin (Z.of_nat (length s)) 0))
      else match array_index k with
           | Some i => option_map (fun u => JStr [u]) (nth_error s i)
           | None => None
           end
  | JArr l =>
      if jstr_eqb k (lit "length") then Some (JNum (NFin (Z.of_nat (length l)) 0))
      else match array_index k with Some i => nth_error l i | None => None end
  | JObj fs => assoc_last k fs
  | _ => None
  end.

(** [a?.k] *)
Definition opt_get (u : option jval) (k : jstr) : option jval :=
  match u with
  | None | Some JNull => None
  | Some v => get v k
  end.

(** V8's message for a property read on [null] or [undefined]. *)
Definition read_error (what : jstr) (k : jstr) : jstr :=
  lit "Cannot read properties of " ++ what ++ lit " (reading '" ++ k ++ lit "')".

(** [a.k] *)
Definition read (u : option jval) (k : jstr) : jsres (option jval) :=
  match u with
  | None => Throw (read_error (lit "undefined") k)
  | Some JNull => Throw (read_error (lit "null") k)
  | Some v => Ok (get v k)
  end.

(** V8's message for a call of something that is not a function. *)
Definition not_a_function (callee : jstr) : jstr := callee ++ lit " is not a function".

(** ** Number::toString *)

Definition digits_of_pos (m : Z) : jstr := int_to_jstr m.

(** The decimal of a positive [m * 10^e], following the four cases of
    Number::toString: [n] is the position of the decimal point relative
    to the significant digits [ds]. *)
Definition pos_num_str (m e : Z) : jstr :=
  let ds0 := digits_of_pos m in
  let ds := rev (drop_while (Z.eqb 48) (rev ds0)) in
  let k := Z.of_nat (length ds) in
  let n := e + Z.of_nat (length ds0) in
  if (k <=? n) && (n <=? 21) then ds ++ repeat 48 (Z.to_nat (n - k))
  else if (0 <? n) && (n <=? 21) then
    firstn (Z.to_nat n) ds ++ [46] ++ skipn (Z.to_nat n) ds
  else if (-6 <? n) && (n <=? 0) then
    lit "0." ++ repeat 48 (Z.to_nat (- n)) ++ ds
  else
    let mant := if k =? 1 then ds else firstn 1 ds ++ [46] ++ skipn 1 ds in
    mant ++ [101] ++ (if 0 <=? n - 1 then [43] else [45]) ++ int_to_jstr (Z.abs (n - 1)).

Definition num_str (n : jnum) : jstr :=
  match n with
  | NNaN => lit "NaN"
  | NInf false => lit "Infinity"
  | NInf true => lit "-Infinity"
  | NFin m e =>
      if m =? 0 then lit "0"
      else if m <? 0 then 45 :: pos_num_str (- m) e
      else pos_num_str m e
  end.

(** ** Template literal conversion [`${v}`] *)

(** Arrays print as [join(",")] with [null] elements empty; objects as
    "[object Object]". *)
Fixpoint val_str (v : jval) : jstr :=
  match v with
  | JNull => lit "null"
  | JBool b => if b then lit "true" else lit "false"
  | JNum n => num_str n
  | JStr s => s
  | JArr l => join (lit ",") (map (fun w => match w with JNull => [] | _ => val_str w end) l)
  | JObj _ => lit "[object Object]"
  end.

Definition tmpl (u : option jval) : jstr :=
  match u with None => lit "undefined" | Some v => val_str v end.

(** ** StringToNumber *)

Definition is_digit (u : Z) : bool := (48 <=? u) && (u <=? 57).

Fixpoint span_digits (s : jstr) : jstr * jstr :=
  match s with
  | c :: r => if is_digit c then let (d, t) := span_digits r in (c :: d, t) else ([], s)
  | [] => ([], [])
  end.

Definition digits_value (ds : jstr) : Z := fold_left (fun acc d => acc * 10 + (d - 48)) ds 0.

(** The value of a digit in base [b] (0-9, a-z, A-Z). *)
Definition radix_digit (b u : Z) : option Z :=
  let v := if is_digit u then u - 48
           else if (97 <=? u) && (u <=? 122) then u - 87
           else if (65 <=? u) && (u <=? 90) then u - 55 else b in
  if v <? b then Some v else None.

Fixpoint radix_value (b acc : Z) (s : jstr) : option Z :=
  match s with
  | [] => Some acc
  | c :: r => match radix_digit b c with
              | Some v => radix_value b (acc * b + v) r
              | None => None
              end
  end.

(** StrUnsignedDecimalLiteral: [Infinity], or digits with an optional
    fraction and an optional exponent, at least one digit before the
    exponent. *)
Definition unsigned_decimal (neg : bool) (s : jstr) : jnum :=
  if jstr_eqb s (lit "Infinity") then NInf neg else
  let (ip, r1) := span_digits s in
  let '(fp, r2) := match r1 with 46 :: r => span_digits r | _ => ([], r1) end in
  let m := digits_value (ip ++ fp) in
  let m := if neg then - m else m in
  if is_nil (ip ++ fp) then NNaN else
  match r2 with
  | [] => NFin m (- Z.of_nat (length fp))
  | x :: r3 =>
      if (x =? 101) || (x =? 69) then
        let '(eneg, r4) := match r3 with
                           | 43 :: t => (false, t) | 45 :: t => (true, t) | _ => (false, r3) end in
        let (ed, r5) := span_digits r4 in
        if is_nil ed || negb (is_nil r5) then NNaN
        else let ev := digits_value ed in
             NFin m ((if eneg then - ev else ev) - Z.of_nat (length fp))
      else NNaN
  end.

Definition string_to_number (s : jstr) : jnum :=
  match trim s with
  | [] => NFin 0 0
  | 48 :: x :: r =>
      let base := if (x =? 120) || (x =? 88) then 16
                  else if (x =? 111) || (x =? 79) then 8
                  else if (x =? 98) || (x =? 66) then 2 else 0 in
      if base =? 0 then unsigned_decimal false (48 :: x :: r)
      else if is_nil r then NNaN
      else match radix_value base 0 r with Some v => NFin v 0 | None => NNaN end
  | 43 :: t => unsigned_decimal false t
  | 45 :: t => unsigned_decimal true t
  | t => unsigned_decimal false t
  end.

Definition to_number (u : option jval) : jnum :=
  match u with
  | None => NNaN
  | Some JNull => NFin 0 0
  | Some (JBool b) => NFin (if b then 1 else 0) 0
  | Some (JNum n) => n
  | Some (JStr s) => string_to_number s
  | Some (JArr l) => string_to_number (val_str (JArr l))
  | Some (JObj _) => NNaN
  end.

(** ** [Math.round]: the integer closest to [x], halves rounded up *)

Definition round_num (n : jnum) : jnum :=
  match n with
  | NFin m e =>
      if 0 <=? e then NFin (m * 10 ^ e) 0
      else let d := 10 ^ (- e) in NFin ((2 * m + d) / (2 * d)) 0
  | x => x
  end.

Definition math_round (u : option jval) : jnum := round_num (to_number u).

(** [x > k] for a Number [x] and an integer [k] (false on NaN). *)
Definition num_gt (n : jnum) (k : Z) : bool :=
  match n with
  | NFin m e => if 0 <=? e then k <? m * 10 ^ e else k * 10 ^ (- e) <? m
  | NNaN => false
  | NInf neg => negb neg
  end.

(** ** [Math.round] is the nearest integer, halves rounded up *)

Lemma div_half_up_bound m d :
  0 < d -> 2 * ((2 * m + d) / (2 * d) * d) - d <= 2 * m < 2 * ((2 * m + d) / (2 * d) * d) + d.
Proof.
  intros Hd.
  pose proof (Z.div_mod (2 * m + d) (2 * d) ltac:(lia)) as Hdm.
  pose proof (Z.mod_pos_bound (2 * m + d) (2 * d) ltac:(lia)) as Hb.
  set (q := (2 * m + d) / (2 * d)) in *. set (r := (2 * m + d) mod (2 * d)) in *.
  lia.
Qed.

(** [Math.round] (of the temperature, route.js line 69) of a finite decimal [m * 10^e] with [e < 0] is the
    integer [r] with [r - 1/2 <= x < r + 1/2]: the nearest integer, a
    half rounded towards +infinity ([Math.round(-2.5) = -2]). *)
Theorem round_num_nearest m e :
  e < 0 ->
  exists r, math_round (Some (JNum (NFin m e))) = NFin r 0 /\
    2 * (r * 10 ^ (- e)) - 10 ^ (- e) <= 2 * m < 2 * (r * 10 ^ (- e)) + 10 ^ (- e).
Proof.
  intros He. unfold math_round; simpl. destruct (Z.leb_spec 0 e) as [H|H]; [lia|].
  set (d := 10 ^ (- e)).
  assert (Hd : 0 < d) by (apply Z.pow_pos_nonneg; lia).
  eexists. split; [reflexivity|]. now apply div_half_up_bound.
Qed.

Lemma round_num_nearest_witness :
  -1 < 0 /\
  exists r, math_round (Some (JNum (NFin (-25) (-1)))) = NFin r 0 /\
    2 * (r * 10 ^ 1) - 10 ^ 1 <= 2 * (-25) < 2 * (r * 10 ^ 1) + 10 ^ 1.
Proof. split; [lia | exact (round_num_nearest (-25) (-1) ltac:(lia))]. Defined.
