(* ===== verification/Json.v ===== *)
(** * [JSON.stringify] and [JSON.parse]

    The page sends [JSON.stringify(payload)] (page.js line 45) and the
    route reads it back with [req.json()] (route.js line 122), which is
    [JSON.parse] of the body text; [callOpenAI] sends
    [JSON.stringify(body)] (route.js line 35).

    [stringify] follows SerializeJSONProperty of ECMA-262 (25.5.2): [null],
    booleans, finite numbers by Number::toString and other numbers as
    [null], strings by QuoteJSONString (the short escapes, [\u00XX] for
    the other control characters, [\uXXXX] for a lone surrogate, in
    lower-case hexadecimal), arrays and objects without white space.
    Objects are the lists of their own properties (a JavaScript object
    has no duplicated key).

    [parse] is the JSON grammar of ECMA-404 read by a recursive descent
    with fuel (one unit per value, element or member; the length of the
    text plus one is enough).  V8's SyntaxError messages quote the
    offending token and text; the model gives every syntax error the one
    message [json_error].  [-0] reads as [0], the only number the model
    does not distinguish.

    The round trip [parse_stringify] holds of every value accepted by
    [json_ok]: strings of code units (lone surrogates included) and
    integer numbers below [10^21], the numbers Number::toString prints
    without an exponent; [jsize] bounds the fuel [parse] needs. *)

From Stdlib Require Import String.
From Stdlib Require Import ZArith List Lia Bool.
From Stdlib Require DecimalPos.
From S2P Require Import Prelude JsString Effects JsValue.
Import ListNotations.

Open Scope Z_scope.

Module Json.

(** ** [JSON.stringify] *)

Definition hex_lower (n : Z) : Z := if n <? 10 then 48 + n else 87 + n.

(** [\uXXXX] of a code unit. *)
Definition unicode_escape (u : Z) : jstr :=
  [92; 117; hex_lower (u / 4096); hex_lower ((u / 256) mod 16);
   hex_lower ((u / 16) mod 16); hex_lower (u mod 16)].

(** The escape of a code unit that is not a surrogate. *)
Definition quote_unit (u : Z) : jstr :=
  if u =? 8 then [92; 98] else if u =? 9 then [92; 116] else if u =? 10 then [92; 110]
  else if u =? 12 then [92; 102] else if u =? 13 then [92; 114]
  else if u =? 34 then [92; 34] else if u =? 92 then [92; 92]
  else if u <? 32 then unicode_escape u else [u].

(** QuoteJSONString without its quotes: a surrogate pair is kept, a
    lone surrogate is escaped. *)
Fixpoint quote_units (s : jstr) : jstr :=
  match s with
  | [] => []
  | u :: r =>
      if is_high_surrogate u then
        match r with
        | v :: r' => if is_low_surrogate v then u :: v :: quote_units r'
                     else unicode_escape u ++ quote_units r
        | [] => unicode_escape u
        end
      else if is_low_surrogate u then unicode_escape u ++ quote_units r
      else quote_unit u ++ quote_units r
  end.

Definition quote (s : jstr) : jstr := [34] ++ quote_units s ++ [34].

Fixpoint stringify (v : jval) : jstr :=
  match v with
  | JNull => lit "null"
  | JBool b => if b then lit "true" else lit "false"
  | JNum n => match n with NFin _ _ => num_str n | _ => lit "null" end
  | JStr s => quote s
  | JArr l => [91] ++ join [44] (map stringify l) ++ [93]
  | JObj fs => [123] ++ join [44] (map (fun kv => quote (fst kv) ++ [58] ++ stringify (snd kv)) fs)
               ++ [125]
  end.

(** ** [JSON.parse] *)

Definition is_json_ws (u : Z) : bool := (u =? 9) || (u =? 10) || (u =? 13) || (u =? 32).

Definition skip_ws (s : jstr) : jstr := drop_while is_json_ws s.

Definition hex_value (u : Z) : option Z :=
  if (48 <=? u) && (u <=? 57) then Some (u - 48)
  else if (65 <=? u) && (u <=? 70) then Some (u - 55)
  else if (97 <=? u) && (u <=? 102) then Some (u - 87)
  else None.

Definition hex4_value (a b c d : Z) : option Z :=
  match hex_value a, hex_value b, hex_value c, hex_value d with
  | Some x, Some y, Some z, Some w => Some (((x * 16 + y) * 16 + z) * 16 + w)
  | _, _, _, _ => None
  end.

(** The unit a short escape [\c] stands for. *)
Definition short_escape (c : Z) : option Z :=
  if c =? 34 then Some 34 else if c =? 92 then Some 92 else if c =? 47 then Some 47
  else if c =? 98 then Some 8 else if c =? 102 then Some 12 else if c =? 110 then Some 10
  else if c =? 114 then Some 13 else if c =? 116 then Some 9 else None.

Definition cons_fst {A B} (x : A) (o : option (list A * B)) : option (list A * B) :=
  match o with Some (l, r) => Some (x :: l, r) | None => None end.

(** The characters of a string after its opening quote, up to and
    without its closing quote. *)
Fixpoint parse_chars (s : jstr) : option (jstr * jstr) :=
  match s with
  | [] => None
  | u :: r =>
      if u =? 34 then Some ([], r)
      else if u =? 92 then
        match r with
        | [] => None
        | c :: r1 =>
            match short_escape c with
            | Some e => cons_fst e (parse_chars r1)
            | None =>
                if c =? 117 then
                  match r1 with
                  | a :: b :: c' :: d :: r' =>
                      match hex4_value a b c' d with
                      | Some e => cons_fst e (parse_chars r')
                      | None => None
                      end
                  | _ => None
                  end
                else None
            end
        end
      else if u <? 32 then None
      else cons_fst u (parse_chars r)
  end.

(** A number: [-]? ([0] | [1-9][0-9]* ) ([.][0-9]+)? ([eE][+-]?[0-9]+)? *)
Definition parse_number (s : jstr) : option (jval * jstr) :=
  let '(neg, s1) := match s with 45 :: t => (true, t) | _ => (false, s) end in
  let (ip, s2) := span_digits s1 in
  match ip with
  | [] => None
  | 48 :: _ :: _ => None
  | _ =>
      let '(fp, s3, okf) :=
        match s2 with
        | 46 :: t => let (fd, t') := span_digits t in (fd, t', negb (is_nil fd))
        | _ => ([], s2, true)
        end in
      let '(ev, s4, oke) :=
        match s3 with
        | x :: t =>
            if (x =? 101) || (x =? 69) then
              let '(en, t1) := match t with 43 :: u => (false, u) | 45 :: u => (true, u)
                                          | _ => (false, t) end in
              let (ed, t2) := span_digits t1 in
              ((if en then - digits_value ed else digits_value ed), t2, negb (is_nil ed))
            else (0, s3, true)
        | [] => (0, s3, true)
        end in
      if okf && oke then
        let m := digits_value (ip ++ fp) in
        Some (JNum (NFin (if neg then - m else m) (ev - Z.of_nat (length fp))), s4)
      else None
  end.

Fixpoint parse_value (fuel : nat) (s : jstr) : option (jval * jstr) :=
  match fuel with
  | O => None
  | S f =>
      match skip_ws s with
      | 110 :: 117 :: 108 :: 108 :: r => Some (JNull, r)
      | 116 :: 114 :: 117 :: 101 :: r => Some (JBool true, r)
      | 102 :: 97 :: 108 :: 115 :: 101 :: r => Some (JBool false, r)
      | 34 :: r => match parse_chars r with Some (t, r') => Some (JStr t, r') | None => None end
      | 91 :: r =>
          match skip_ws r with
          | 93 :: r' => Some (JArr [], r')
          | _ => match parse_elems f r with Some (l, r') => Some (JArr l, r') | None => None end
          end
      | 123 :: r =>
          match skip_ws r with
          | 125 :: r' => Some (JObj [], r')
          | _ => match parse_members f r with Some (l, r') => Some (JObj l, r') | None => None end
          end
      | t => parse_number t
      end
  end
with parse_elems (fuel : nat) (s : jstr) : option (list jval * jstr) :=
  match fuel with
  | O => None
  | S f =>
      match parse_value f s with
      | Some (v, r) =>
          match skip_ws r with
          | 44 :: r' => cons_fst v (parse_elems f r')
          | 93 :: r' => Some ([v], r')
          | _ => None
          end
      | None => None
      end
  end
with parse_members (fuel : nat) (s : jstr) : option (list (jstr * jval) * jstr) :=
  match fuel with
  | O => None
  | S f =>
      match skip_ws s with
      | 34 :: r =>
          match parse_chars r with
          | Some (k, r1) =>
              match skip_ws r1 with
              | 58 :: r2 =>
                  match parse_value f r2 with
                  | Some (v, r3) =>
                      match skip_ws r3 with
                      | 44 :: r4 => cons_fst (k, v) (parse_members f r4)
                      | 125 :: r4 => Some ([(k, v)], r4)
                      | _ => None
                      end
                  | None => None
                  end
              | _ => None
              end
          | None => None
          end
      | _ => None
      end
  end.

Definition json_error : jstr := lit "Unexpected token in JSON".

(** [JSON.parse(text)]: one value, surrounded by white space only. *)
Definition parse (text : jstr) : jsres jval :=
  match parse_value (S (length text)) text with
  | Some (v, r) => if is_nil (skip_ws r) then Ok v else Throw json_error
  | None => Throw json_error
  end.

(** An object whose properties are strings, as the page's payload. *)
Definition strings_obj (fs : list (jstr * jstr)) : jval :=
  JObj (map (fun kv => (fst kv, JStr (snd kv))) fs).

Definition strings_wf (fs : list (jstr * jstr)) : Prop :=
  Forall (fun kv => str_wf (fst kv) /\ str_wf (snd kv)) fs.

(** ** Values [JSON.stringify] writes and [JSON.parse] reads back

    Strings of code units (paired or lone surrogates alike) and the
    integers below [10^21], which Number::toString prints without an
    exponent: the values the handlers answer with. *)

Fixpoint json_ok (v : jval) : bool :=
  match v with
  | JNull | JBool _ => true
  | JNum (NFin m e) => (e =? 0) && (Z.abs m <? 10 ^ 21)
  | JNum _ => false
  | JStr s => forallb unit_ok s
  | JArr l => forallb json_ok l
  | JObj fs => forallb (fun kv => forallb unit_ok (fst kv) && json_ok (snd kv)) fs
  end.

Fixpoint jsize (v : jval) : nat :=
  match v with
  | JArr l => S (list_sum (map (fun x => S (jsize x)) l))
  | JObj fs => S (list_sum (map (fun kv => let '(_, x) := kv in S (jsize x)) fs))
  | _ => 1%nat
  end.

Definition jval_ind' (P : jval -> Prop) (fnull : P JNull) (fbool : forall b, P (JBool b))
  (fnum : forall n, P (JNum n)) (fstr : forall s, P (JStr s))
  (farr : forall l, Forall P l -> P (JArr l))
  (fobj : forall fs, Forall (fun kv => P (snd kv)) fs -> P (JObj fs)) : forall v, P v :=
  fix F v :=
    match v with
    | JNull => fnull
    | JBool b => fbool b
    | JNum n => fnum n
    | JStr s => fstr s
    | JArr l => farr l ((fix G (l : list jval) : Forall P l :=
                           match l with
                           | [] => Forall_nil _
                           | x :: r => Forall_cons _ (F x) (G r)
                           end) l)
    | JObj fs => fobj fs ((fix G (fs : list (jstr * jval)) : Forall (fun kv => P (snd kv)) fs :=
                             match fs with
                             | [] => Forall_nil _
                             | (k, x) :: r => @Forall_cons _ (fun kv => P (snd kv)) (k, x) r (F x) (G r)
                             end) fs)
    end.


(** A member [k:v] of an object, as [stringify] writes it. *)
Definition member (kv : jstr * jval) : jstr := quote (fst kv) ++ [58] ++ stringify (snd kv).

(** What may follow a number in the text [stringify] writes: the end, a
    comma, [\]] or [}]. *)
Definition num_end (R : jstr) : bool :=
  match R with [] => true | c :: _ => (c =? 44) || (c =? 93) || (c =? 125) end.

(** The text of a value, followed by what may follow a value, reads back
    as the value with enough fuel. *)
Definition reads_back (v : jval) : Prop :=
  forall f R, json_ok v = true -> (jsize v < f)%nat -> num_end R = true ->
              parse_value f (stringify v ++ R) = Some (v, R).

(** ** Lemmas *)

Lemma hex_value_lower n : 0 <= n < 16 -> hex_value (hex_lower n) = Some n.
Proof.
  intros H. unfold hex_lower, hex_value.
  destruct (Z.ltb_spec n 10);
    repeat match goal with |- context [?a <=? ?b] => destruct (Z.leb_spec a b) end;
    cbn [andb]; first [f_equal; lia | exfalso; lia].
Qed.

Lemma hex_digits_value u :
  0 <= u < 65536 ->
  hex4_value (hex_lower (u / 4096)) (hex_lower ((u / 256) mod 16))
             (hex_lower ((u / 16) mod 16)) (hex_lower (u mod 16)) = Some u.
Proof.
  intros H. unfold hex4_value.
  assert (B1 : 0 <= u / 4096 < 16) by (split; [apply Z.div_pos | apply Z.div_lt_upper_bound]; lia).
  rewrite !hex_value_lower by (first [exact B1 | apply Z.mod_pos_bound; lia]).
  f_equal.
  pose proof (Z.div_mod u 16 ltac:(lia)). pose proof (Z.div_mod (u / 16) 16 ltac:(lia)).
  pose proof (Z.div_mod (u / 256) 16 ltac:(lia)).
  assert (E1 : u / 16 / 16 = u / 256) by (rewrite Z.div_div by lia; reflexivity).
  assert (E2 : u / 256 / 16 = u / 4096) by (rewrite Z.div_div by lia; reflexivity).
  rewrite E1 in *. rewrite E2 in *. lia.
Qed.

Lemma parse_chars_unicode u rest :
  0 <= u < 65536 -> parse_chars (unicode_escape u ++ rest) = cons_fst u (parse_chars rest).
Proof.
  intros H. change (parse_chars (unicode_escape u ++ rest)) with
    (match hex4_value (hex_lower (u / 4096)) (hex_lower ((u / 256) mod 16))
                      (hex_lower ((u / 16) mod 16)) (hex_lower (u mod 16)) with
     | Some e => cons_fst e (parse_chars rest) | None => None end).
  now rewrite hex_digits_value.
Qed.

Lemma parse_chars_raw u rest :
  32 <= u -> u <> 34 -> u <> 92 -> parse_chars (u :: rest) = cons_fst u (parse_chars rest).
Proof.
  intros H1 H2 H3. simpl. rewrite (proj2 (Z.eqb_neq _ _) H2), (proj2 (Z.eqb_neq _ _) H3).
  now rewrite (proj2 (Z.ltb_ge _ _) H1).
Qed.

Lemma parse_chars_quote_unit u rest :
  0 <= u < 65536 -> parse_chars (quote_unit u ++ rest) = cons_fst u (parse_chars rest).
Proof.
  intros H. unfold quote_unit.
  repeat match goal with
         | |- context [if ?x =? ?c then _ else _] => destruct (Z.eqb_spec x c); [subst; reflexivity|]
         end.
  destruct (Z.ltb_spec u 32); [now apply parse_chars_unicode|].
  now apply parse_chars_raw.
Qed.

Lemma surrogate_raw u :
  is_high_surrogate u = true \/ is_low_surrogate u = true -> 32 <= u /\ u <> 34 /\ u <> 92.
Proof.
  unfold is_high_surrogate, is_low_surrogate. rewrite !andb_true_iff, !Z.leb_le. lia.
Qed.

Lemma parse_chars_quote s rest :
  str_wf s -> parse_chars (quote_units s ++ 34 :: rest) = Some (s, rest).
Proof.
  induction s as [s IH] using length_ind. intros Hs.
  destruct s as [|u t]; [reflexivity|]. apply Forall_cons_iff in Hs as [Hu Ht].
  pose proof (unit_ok_range u Hu) as Ru. cbn [quote_units].
  destruct (is_high_surrogate u) eqn:Hh.
  - destruct (surrogate_raw u (or_introl Hh)) as [A [B C]].
    destruct t as [|v t'].
    + cbv beta iota. rewrite parse_chars_unicode by exact Ru. reflexivity.
    + apply Forall_cons_iff in Ht as [Hv Ht'].
      destruct (is_low_surrogate v) eqn:Lv.
      * destruct (surrogate_raw v (or_intror Lv)) as [A' [B' C']].
        cbv beta iota. cbn [app]. rewrite parse_chars_raw, parse_chars_raw by assumption.
        rewrite (IH t' ltac:(simpl; lia) Ht'). reflexivity.
      * cbv beta iota. rewrite <- app_assoc, parse_chars_unicode by exact Ru.
        rewrite (IH (v :: t') ltac:(simpl; lia) ltac:(constructor; assumption)). reflexivity.
  - destruct (is_low_surrogate u) eqn:L; cbv beta iota;
      rewrite <- app_assoc;
      [rewrite parse_chars_unicode by exact Ru | rewrite parse_chars_quote_unit by exact Ru];
      rewrite (IH t ltac:(simpl; lia) Ht); reflexivity.
Qed.

Lemma skip_ws_cons u s : is_json_ws u = false -> skip_ws (u :: s) = u :: s.
Proof. intros H. unfold skip_ws. simpl. now rewrite H. Qed.

Lemma parse_value_quote f X : parse_value (S f) (34 :: X) =
  match parse_chars X with Some (t, r') => Some (JStr t, r') | None => None end.
Proof. reflexivity. Qed.

Lemma parse_value_brace f X : parse_value (S f) (123 :: X) =
  match skip_ws X with
  | 125 :: r' => Some (JObj [], r')
  | _ => match parse_members f X with Some (l, r') => Some (JObj l, r') | None => None end
  end.
Proof. reflexivity. Qed.

Lemma parse_members_quote f X : parse_members (S f) (34 :: X) =
  match parse_chars X with
  | Some (k, r1) =>
      match skip_ws r1 with
      | 58 :: r2 =>
          match parse_value f r2 with
          | Some (v, r3) =>
              match skip_ws r3 with
              | 44 :: r4 => cons_fst (k, v) (parse_members f r4)
              | 125 :: r4 => Some ([(k, v)], r4)
              | _ => None
              end
          | None => None
          end
      | _ => None
      end
  | None => None
  end.
Proof. reflexivity. Qed.

(** ** Integers: what [stringify] prints, [parse_number] reads back *)

Lemma uint_units_fold d acc :
  fold_left (fun acc d => acc * 10 + (d - 48)) (uint_units d) acc =
  acc * 10 ^ Z.of_N (DecimalPos.Unsigned.usize d) + Z.of_N (DecimalPos.Unsigned.of_lu (Decimal.rev d)).
Proof.
  revert acc. induction d; intros acc; cbn [uint_units fold_left DecimalPos.Unsigned.usize];
    [simpl; lia|..];
    cbn [Decimal.rev Decimal.revapp]; rewrite DecimalPos.Unsigned.of_lu_revapp, IHd;
    cbn [DecimalPos.Unsigned.of_lu]; rewrite N2Z.inj_succ, Z.pow_succ_r by lia;
    rewrite N2Z.inj_add, N2Z.inj_mul, N2Z.inj_pow; remember (10 ^ Z.of_N (DecimalPos.Unsigned.usize d)) as X; remember (Z.of_N (DecimalPos.Unsigned.of_lu (Decimal.rev d))) as V; simpl Z.of_N; nia.
Qed.

Lemma digits_value_int n : 0 <= n -> digits_value (int_to_jstr n) = n.
Proof.
  intros Hn. unfold int_to_jstr, digits_value. destruct n as [|p|p]; [reflexivity| |lia].
  cbn [Z.to_int]. rewrite uint_units_fold, <- DecimalPos.Unsigned.of_uint_alt, DecimalPos.Unsigned.of_to. lia.
Qed.

Lemma uint_units_digits d : forallb is_digit (uint_units d) = true.
Proof. induction d; cbn [uint_units forallb]; rewrite ?IHd; reflexivity. Qed.

Lemma usize_nzhead d : (DecimalPos.Unsigned.usize (Decimal.nzhead d) <= DecimalPos.Unsigned.usize d)%N.
Proof. induction d; cbn [Decimal.nzhead DecimalPos.Unsigned.usize]; lia. Qed.

(** The decimal digits of a positive number do not start with [0]. *)
Lemma to_uint_head p : match Pos.to_uint p with Decimal.Nil | Decimal.D0 _ => False | _ => True end.
Proof.
  pose proof (DecimalPos.Unsigned.to_of (Pos.to_uint p)) as E. rewrite DecimalPos.Unsigned.of_to in E.
  change (N.to_uint (Npos p)) with (Pos.to_uint p) in E. pose proof (DecimalPos.Unsigned.of_to p) as O.
  destruct (Pos.to_uint p) as [|x|x|x|x|x|x|x|x|x|x] eqn:Ep; try exact I; [discriminate O|].
  unfold Decimal.unorm in E. cbn [Decimal.nzhead] in E. pose proof (usize_nzhead x) as L.
  destruct (Decimal.nzhead x) eqn:N; [injection E as ->; discriminate O|..];
    rewrite <- E in L; cbn [DecimalPos.Unsigned.usize] in L; lia.
Qed.

Lemma span_digits_cons c r :
  span_digits (c :: r) = if is_digit c then let (d, t) := span_digits r in (c :: d, t) else ([], c :: r).
Proof. reflexivity. Qed.

Lemma span_digits_app ds R :
  forallb is_digit ds = true -> match R with c :: _ => is_digit c = false | [] => True end ->
  span_digits (ds ++ R) = (ds, R).
Proof.
  intros Hd HR. induction ds as [|c ds IH].
  - destruct R as [|c R]; [reflexivity|]. change ([] ++ c :: R) with (c :: R). now rewrite span_digits_cons, HR.
  - apply andb_true_iff in Hd as [Hc Hd]. change ((c :: ds) ++ R) with (c :: ds ++ R). rewrite span_digits_cons, Hc, (IH Hd). reflexivity.
Qed.

Lemma parse_number_int m R :
  num_end R = true -> parse_number (int_to_jstr m ++ R) = Some (JNum (NFin m 0), R).
Proof.
  intros HR.
  assert (HR' : match R with [] => True | c :: _ => c = 44 \/ c = 93 \/ c = 125 end)
    by (destruct R; [exact I|]; cbn in HR; rewrite !orb_true_iff, !Z.eqb_eq in HR; tauto).
  assert (Hsp : forall c ds, is_digit c = true -> span_digits (c :: uint_units ds ++ R) = (c :: uint_units ds, R)).
  { intros c ds Hc. apply (span_digits_app (c :: uint_units ds)); [cbn; rewrite Hc; apply uint_units_digits|].
    destruct R; [exact I|]. destruct HR' as [-> | [-> | ->]]; reflexivity. }
  destruct m as [|p|p]; [destruct R as [|c R]; [reflexivity|]; destruct HR' as [-> | [-> | ->]]; reflexivity| |];
    pose proof (digits_value_int (Zpos p) ltac:(lia)) as V; pose proof (to_uint_head p) as Hh;
    unfold int_to_jstr in *; cbn [Z.to_int] in *;
    destruct (Pos.to_uint p) as [|x|x|x|x|x|x|x|x|x|x]; try contradiction;
    cbn [uint_units] in *; unfold parse_number; rewrite <- ?app_comm_cons;
    rewrite Hsp by reflexivity;
    destruct R as [|c R]; try destruct HR' as [-> | [-> | ->]];
    cbn -[digits_value]; rewrite List.app_nil_r, V; reflexivity.
Qed.

Lemma digits_fold l acc :
  fold_left (fun acc d => acc * 10 + (d - 48)) l acc =
  acc * 10 ^ Z.of_nat (length l) + fold_left (fun acc d => acc * 10 + (d - 48)) l 0.
Proof.
  revert acc. induction l as [|x l IH]; intros acc; cbn [fold_left length]; [lia|].
  rewrite (IH (acc * 10 + (x - 48))), (IH (0 * 10 + (x - 48))).
  rewrite Nat2Z.inj_succ, Z.pow_succ_r by lia. nia.
Qed.

Lemma digits_fold_nonneg l acc :
  forallb is_digit l = true -> 0 <= acc -> 0 <= fold_left (fun acc d => acc * 10 + (d - 48)) l acc.
Proof.
  revert acc. induction l as [|x l IH]; intros acc Hl Ha; cbn [fold_left]; [exact Ha|].
  cbn [forallb] in Hl. apply andb_true_iff in Hl as [Hx Hl].
  unfold is_digit in Hx. apply andb_true_iff in Hx as [Hx _]. apply Z.leb_le in Hx.
  apply IH; [exact Hl | lia].
Qed.

(** The digits of a positive integer: a first digit [1]-[9], then digits. *)
Lemma int_lead m :
  0 < m -> exists c t, int_to_jstr m = c :: t /\ 49 <= c <= 57 /\ forallb is_digit t = true.
Proof.
  intros Hm. destruct m as [|p|p]; try lia. pose proof (to_uint_head p) as Hh.
  unfold int_to_jstr. cbn [Z.to_int].
  destruct (Pos.to_uint p); try contradiction;
    (eexists _, _; split; [reflexivity | split; [lia | apply uint_units_digits]]).
Qed.

Lemma int_length m : 0 < m < 10 ^ 21 -> (length (int_to_jstr m) <= 21)%nat.
Proof.
  intros Hm. destruct (int_lead m ltac:(lia)) as (c & t & E & Hc & Ht).
  pose proof (digits_value_int m ltac:(lia)) as V. rewrite E in V.
  unfold digits_value in V. cbn [fold_left] in V. rewrite digits_fold in V.
  pose proof (digits_fold_nonneg t 0 Ht ltac:(lia)) as N.
  assert (P : 10 ^ Z.of_nat (length t) < 10 ^ 21) by nia.
  apply Z.pow_lt_mono_r_iff in P; [|lia|lia]. rewrite E. cbn [length]. lia.
Qed.

Lemma all_zeros_repeat l : all_p (Z.eqb 48) l -> l = repeat 48 (length l).
Proof.
  induction 1 as [|x l Hx _ IH]; [reflexivity|]. apply Z.eqb_eq in Hx. cbn. now rewrite <- Hx, <- IH.
Qed.

(** Dropping the trailing zeros and putting them back. *)
Lemma strip_zeros l :
  let ds := rev (drop_while (Z.eqb 48) (rev l)) in
  (length ds <= length l)%nat /\ ds ++ repeat 48 (length l - length ds) = l.
Proof.
  cbn zeta. destruct (drop_while_split (Z.eqb 48) (rev l)) as [pre [E P]].
  remember (drop_while (Z.eqb 48) (rev l)) as dw eqn:Hdw. clear Hdw.
  apply (f_equal (@rev Z)) in E. rewrite rev_involutive, rev_app_distr in E. subst l.
  rewrite length_app, !length_rev.
  rewrite (all_zeros_repeat (rev pre)) by (unfold all_p in *; now apply Forall_rev).
  rewrite length_rev. split; [lia|]. f_equal. f_equal. lia.
Qed.

Lemma pos_num_str_int m : 0 < m < 10 ^ 21 -> pos_num_str m 0 = int_to_jstr m.
Proof.
  intros Hm. pose proof (int_length m Hm) as L.
  unfold pos_num_str, digits_of_pos.
  destruct (strip_zeros (int_to_jstr m)) as [K E]. cbn zeta in K, E.
  set (ds := rev (drop_while (Z.eqb 48) (rev (int_to_jstr m)))) in *.
  replace ((Z.of_nat (length ds) <=? 0 + Z.of_nat (length (int_to_jstr m))) &&
           (0 + Z.of_nat (length (int_to_jstr m)) <=? 21)) with true
    by (symmetry; apply andb_true_iff; split; apply Z.leb_le; lia).
  rewrite <- E at 2. f_equal. f_equal. lia.
Qed.

Lemma num_str_int m : Z.abs m < 10 ^ 21 -> num_str (NFin m 0) = int_to_jstr m.
Proof.
  intros Hm. unfold num_str. destruct m as [|p|p]; [reflexivity| |]; cbn [Z.eqb Z.ltb Z.compare].
  - apply pos_num_str_int. lia.
  - rewrite pos_num_str_int by lia. reflexivity.
Qed.

(** ** The first unit of a printed value *)

Ltac int_cases m :=
  destruct m as [|p|p];
  [ | pose proof (to_uint_head p); unfold int_to_jstr; cbn [Z.to_int];
      destruct (Pos.to_uint p); try contradiction
    | pose proof (to_uint_head p); unfold int_to_jstr; cbn [Z.to_int];
      destruct (Pos.to_uint p); try contradiction ];
  reflexivity.

Lemma parse_value_int f m R : parse_value (S f) (int_to_jstr m ++ R) = parse_number (int_to_jstr m ++ R).
Proof. int_cases m. Qed.

Lemma open_array_int f m Y :
  parse_value (S f) (91 :: int_to_jstr m ++ Y) =
  match parse_elems f (int_to_jstr m ++ Y) with Some (l, r') => Some (JArr l, r') | None => None end.
Proof. int_cases m. Qed.

Lemma stringify_num n : json_ok (JNum n) = true -> exists m, n = NFin m 0 /\ Z.abs m < 10 ^ 21.
Proof.
  destruct n as [m e| |]; cbn [json_ok]; try discriminate. rewrite andb_true_iff, Z.eqb_eq, Z.ltb_lt.
  intros [-> H]. eauto.
Qed.

(** An array opens with a value, not with [\]]. *)
Lemma open_array f x Y :
  json_ok x = true ->
  parse_value (S f) (91 :: stringify x ++ Y) =
  match parse_elems f (stringify x ++ Y) with Some (l, r') => Some (JArr l, r') | None => None end.
Proof.
  intros Hx. destruct x as [|[]|n|s|l|fs]; [reflexivity | reflexivity | reflexivity | |
                                          reflexivity | reflexivity | reflexivity].
  destruct (stringify_num n Hx) as [m [-> Hm]]. cbn [stringify]. rewrite num_str_int by exact Hm.
  apply open_array_int.
Qed.

(** ** Reading back arrays, objects and values *)

Lemma parse_elems_S f s :
  parse_elems (S f) s =
  match parse_value f s with
  | Some (v, r) =>
      match skip_ws r with
      | 44 :: r' => cons_fst v (parse_elems f r')
      | 93 :: r' => Some ([v], r')
      | _ => None
      end
  | None => None
  end.
Proof. reflexivity. Qed.

Lemma join_cons2 (sep x y : jstr) l : join sep (x :: y :: l) = x ++ sep ++ join sep (y :: l).
Proof. reflexivity. Qed.

Lemma open_array' f x l Y :
  json_ok x = true ->
  parse_value (S f) (91 :: join [44] (map stringify (x :: l)) ++ Y) =
  match parse_elems f (join [44] (map stringify (x :: l)) ++ Y) with
  | Some (l', r') => Some (JArr l', r') | None => None end.
Proof.
  intros Hx. destruct l as [|y l]; cbn [map]; [apply open_array, Hx|].
  rewrite join_cons2, <- app_assoc. apply open_array, Hx.
Qed.

Lemma open_object f kv fs Y :
  parse_value (S f) (123 :: join [44] (map member (kv :: fs)) ++ Y) =
  match parse_members f (join [44] (map member (kv :: fs)) ++ Y) with
  | Some (l, r') => Some (JObj l, r') | None => None end.
Proof. destruct kv, fs; reflexivity. Qed.

Lemma parse_elems_ok l :
  Forall reads_back l -> forallb json_ok l = true ->
  forall f R, l <> [] -> (list_sum (map (fun x => S (jsize x)) l) < f)%nat -> num_end R = true ->
  parse_elems f (join [44] (map stringify l) ++ 93 :: R) = Some (l, R).
Proof.
  induction 1 as [|x l Px Pl IH]; intros Hok f R Hne Hf HR; [contradiction|].
  cbn [forallb] in Hok. apply andb_true_iff in Hok as [Hx Hl].
  cbn [map list_sum fold_right] in Hf. destruct f as [|f]; [lia|]. rewrite parse_elems_S.
  destruct l as [|y l].
  - cbn [map join]. rewrite (Px f (93 :: R)) by (reflexivity || assumption || lia). reflexivity.
  - cbn [map]. rewrite join_cons2, <- !app_assoc.
    rewrite (Px f _) by (reflexivity || assumption || (cbn [map list_sum fold_right] in Hf; lia)).
    change ([44] ++ ?X) with (44 :: X). rewrite skip_ws_cons by reflexivity. cbv beta iota.
    cbn [map] in IH. rewrite IH by (reflexivity || assumption || discriminate || (cbn [map list_sum fold_right] in *; lia)).
    reflexivity.
Qed.

Lemma member_app k v X :
  member (k, v) ++ X = 34 :: quote_units k ++ 34 :: 58 :: stringify v ++ X.
Proof. unfold member, quote. cbn [fst snd]. rewrite <- !app_assoc. reflexivity. Qed.

Lemma parse_members_ok fs :
  Forall (fun kv => reads_back (snd kv)) fs ->
  forallb (fun kv => forallb unit_ok (fst kv) && json_ok (snd kv)) fs = true ->
  forall f R, fs <> [] ->
  (list_sum (map (fun kv => let '(_, x) := kv in S (jsize x)) fs) < f)%nat -> num_end R = true ->
  parse_members f (join [44] (map member fs) ++ 125 :: R) = Some (fs, R).
Proof.
  induction 1 as [|[k v] fs Pv Pfs IH]; intros Hok f R Hne Hf HR; [contradiction|].
  cbn [forallb fst snd] in Hok, Pv. apply andb_true_iff in Hok as [Hkv Hfs].
  apply andb_true_iff in Hkv as [Hk Hv].
  cbn [map list_sum fold_right] in Hf. destruct f as [|f]; [lia|].
  destruct fs as [|kv2 fs].
  - cbn [map join]. rewrite member_app, parse_members_quote, parse_chars_quote by (apply forallb_str_wf; exact Hk).
    cbv beta iota. rewrite skip_ws_cons by reflexivity. cbv beta iota.
    rewrite (Pv f (125 :: R)) by (reflexivity || assumption || (cbn [map list_sum fold_right] in Hf; lia)).
    rewrite skip_ws_cons by reflexivity. reflexivity.
  - cbn [map]. rewrite join_cons2, <- !app_assoc, member_app, parse_members_quote,
      parse_chars_quote by (apply forallb_str_wf; exact Hk).
    cbv beta iota. rewrite skip_ws_cons by reflexivity. cbv beta iota.
    rewrite (Pv f _) by (reflexivity || assumption || (cbn [map list_sum fold_right] in Hf; lia)).
    change ([44] ++ ?X) with (44 :: X). rewrite skip_ws_cons by reflexivity. cbv beta iota.
    cbn [map] in IH. rewrite IH by (reflexivity || assumption || discriminate ||
                                    (cbn [map list_sum fold_right] in *; lia)).
    reflexivity.
Qed.

Lemma reads_back_all v : reads_back v.
Proof.
  induction v as [| b | n | s | l IH | fs IH] using jval_ind'; intros f R Hok Hf HR;
    (destruct f as [|f]; [cbn in Hf; lia|]).
  - reflexivity.
  - destruct b; reflexivity.
  - destruct (stringify_num n Hok) as [m [-> Hm]]. cbn [stringify].
    rewrite num_str_int by exact Hm. rewrite parse_value_int. now apply parse_number_int.
  - cbn [stringify]. unfold quote. rewrite <- !app_assoc. cbn [app].
    rewrite parse_value_quote, parse_chars_quote by (apply forallb_str_wf; exact Hok). reflexivity.
  - destruct l as [|x l]; [reflexivity|]. cbn [stringify json_ok forallb] in Hok |- *.
    pose proof Hok as Hall. apply andb_true_iff in Hok as [Hx _].
    rewrite <- !app_assoc. cbn [app]. rewrite open_array' by exact Hx.
    rewrite (parse_elems_ok (x :: l) IH Hall f R) by (discriminate || assumption || (cbn [jsize] in Hf; lia)).
    reflexivity.
  - destruct fs as [|kv fs]; [reflexivity|]. cbn [stringify json_ok] in Hok |- *.
    fold member. rewrite <- !app_assoc. cbn [app]. rewrite open_object.
    rewrite (parse_members_ok (kv :: fs) IH Hok f R) by (discriminate || assumption || (cbn [jsize] in Hf; lia)).
    reflexivity.
Qed.

Lemma int_nonempty m : int_to_jstr m <> [].
Proof.
  destruct m as [|p|p]; [discriminate| |discriminate].
  destruct (int_lead (Zpos p) ltac:(lia)) as (c & t & -> & _). discriminate.
Qed.

Lemma join_length (sep : jstr) L :
  L <> [] -> (length (join sep L) + length sep = list_sum (map (fun s => length s + length sep) L))%nat.
Proof.
  induction L as [|x [|y L] IH]; intros Hne; [contradiction | cbn; lia|].
  rewrite join_cons2, !length_app. cbn [map list_sum fold_right] in *.
  specialize (IH ltac:(discriminate)). lia.
Qed.

Lemma list_sum_le {A} (f g : A -> nat) l :
  Forall (fun x => f x <= g x)%nat l -> (list_sum (map f l) <= list_sum (map g l))%nat.
Proof. induction 1; simpl in *; lia. Qed.

Lemma jsize_length v : json_ok v = true -> (jsize v <= length (stringify v))%nat.
Proof.
  induction v as [| b | n | s | l IH | fs IH] using jval_ind'; intros Hok.
  - cbn. lia.
  - destruct b; cbn; lia.
  - destruct (stringify_num n Hok) as [m [-> Hm]]. cbn [stringify jsize].
    rewrite num_str_int by exact Hm. destruct (int_to_jstr m) eqn:E; [now destruct (int_nonempty m) | cbn; lia].
  - cbn [stringify jsize]. unfold quote. rewrite !length_app. cbn. lia.
  - destruct l as [|x l]; [cbn; lia|]. cbn [stringify jsize json_ok] in Hok |- *.
    rewrite !length_app. pose proof (join_length [44] (map stringify (x :: l)) ltac:(discriminate)) as J.
    rewrite map_map in J. cbn [length] in J |- *.
    assert (Le : (list_sum (map (fun x => S (jsize x)) (x :: l)) <=
                  list_sum (map (fun x => length (stringify x) + 1) (x :: l)))%nat).
    { apply list_sum_le. apply Forall_forall. intros y Hy.
      pose proof (proj1 (Forall_forall _ _) IH y Hy (proj1 (forallb_forall _ _) Hok y Hy)).
      cbv beta in *. lia. }
    lia.
  - destruct fs as [|kv fs]; [cbn; lia|]. cbn [stringify jsize json_ok] in Hok |- *. fold member.
    rewrite !length_app. pose proof (join_length [44] (map member (kv :: fs)) ltac:(discriminate)) as J.
    rewrite map_map in J. cbn [length] in J |- *.
    assert (Le : (list_sum (map (fun kv => let '(_, x) := kv in S (jsize x)) (kv :: fs)) <=
                  list_sum (map (fun kv => length (member kv) + 1) (kv :: fs)))%nat).
    { apply list_sum_le. apply Forall_forall. intros [k y] Hy.
      pose proof (proj1 (forallb_forall _ _) Hok (k, y) Hy) as Hky.
      pose proof (proj1 (Forall_forall _ _) IH (k, y) Hy) as Iy.
      apply andb_true_iff in Hky as [_ Hy']. cbn [snd] in Iy. specialize (Iy Hy').
      unfold member, quote. cbn [fst snd]. rewrite !length_app. cbn [length]. lia. }
    lia.
Qed.

(** ** Properties *)

(** [JSON.parse(JSON.stringify(v))] gives back every value whose
    strings are strings of code units (escapes, control characters,
    paired and lone surrogates) and whose numbers are integers below
    [10^21], at any depth of arrays and objects: the payload the page
    sends, and every answer the routes send back. *)
Theorem parse_stringify v : json_ok v = true -> parse (stringify v) = Ok v.
Proof.
  intros H. unfold parse. pose proof (jsize_length v H) as L.
  pose proof (reads_back_all v (S (length (stringify v))) [] H ltac:(lia) eq_refl) as E.
  rewrite app_nil_r in E. rewrite E. reflexivity.
Qed.

Lemma parse_stringify_witness :
  json_ok (JObj [(lit "total", JNum (NFin 2 0));
                 (lit "runs", JArr [JObj [(lit "prompt", JStr [34; 92; 10; 1; 55357; 97])];
                                    JNull; JBool false; JNum (NFin (-120) 0); JArr []])]) = true /\
  parse (stringify (JObj [(lit "total", JNum (NFin 2 0));
                          (lit "runs", JArr [JObj [(lit "prompt", JStr [34; 92; 10; 1; 55357; 97])];
                                             JNull; JBool false; JNum (NFin (-120) 0); JArr []])])) =
    Ok (JObj [(lit "total", JNum (NFin 2 0));
              (lit "runs", JArr [JObj [(lit "prompt", JStr [34; 92; 10; 1; 55357; 97])];
                                 JNull; JBool false; JNum (NFin (-120) 0); JArr []])]).
Proof. split; [vm_compute; reflexivity | apply parse_stringify; vm_compute; reflexivity]. Defined.

Lemma strings_obj_ok fs : strings_wf fs -> json_ok (strings_obj fs) = true.
Proof.
  induction 1 as [|[k v] fs [Hk Hv] _ IH]; [reflexivity|]. cbn [strings_obj map json_ok forallb fst snd] in *.
  rewrite !str_wf_forallb by assumption. exact IH.
Qed.

(** The page's payload, an object of strings, reads back. *)
Corollary parse_stringify_strings fs :
  strings_wf fs -> parse (stringify (strings_obj fs)) = Ok (strings_obj fs).
Proof. intros H. apply parse_stringify, strings_obj_ok, H. Qed.

End Json.
