(* ===== verification/Platform.v ===== *)
(** * The platform the route handlers run on

    [process.env] (read-only during a request), the [fetch] API and the
    clock.  The handlers of [route.js] are written against two
    interfaces, [Fetch] and [Clock]: a class of state types that can
    perform a request, and one that can read [Date.now()].  The concrete
    world of [World] implements both with an oracle and a log. *)

From Stdlib Require Import String.
From Stdlib Require Import ZArith List.
From S2P Require Import Prelude JsString Effects JsValue.
Import ListNotations.

Open Scope Z_scope.

(** The server's local time zone (Node takes it from [TZ]), as the two
    readings of ECMA-262's LocalTZA, in milliseconds: [utc_offset t] is
    the offset in effect at the instant [t] (LocalTZA(t, true), used by
    LocalTime), [local_offset lt] the offset chosen for the local time
    [lt] (LocalTZA(lt, false), used by UTC; it settles the local times a
    daylight-saving change skips or repeats).  Both vary with the date in
    a zone with daylight saving. *)
Record zone : Type := mkZone {
  utc_offset : Z -> Z;
  local_offset : Z -> Z
}.

(** A zone without daylight saving. *)
Definition fixed_zone (off : Z) : zone := mkZone (fun _ => off) (fun _ => off).

(** [process.env]: every variable is a string or [undefined]; [TZ] is
    the local time zone. *)
Record env : Type := mkEnv {
  DEFAULT_CITY : option jstr;
  USE_MOCK_AI : option jstr;
  OPENAI_API_KEY : option jstr;
  WEATHER_API_KEY : option jstr;
  GITHUB_TOKEN : option jstr;
  NEWSAPI_KEY : option jstr;
  TZ : zone
}.

(** Truthiness of an environment variable: set and not empty. *)
Definition env_set (v : option jstr) : bool :=
  match v with Some (_ :: _) => true | _ => false end.

(** The value of an environment variable, or [undefined]. *)
Definition env_val (v : option jstr) : option jval := option_map JStr v.

(** A request as [fetch(url, init)] receives it.  [rq_body] is the value
    handed to [JSON.stringify]. *)
Record request : Type := mkRequest {
  rq_url : jstr;
  rq_method : jstr;
  rq_headers : list (jstr * jstr);
  rq_body : option jval
}.

Definition get_request (url : jstr) (headers : list (jstr * jstr)) : request :=
  mkRequest url (lit "GET") headers None.

(** A response: its status and what [res.json()] and [res.text()] give
    (each may reject, e.g. on a body that is not JSON). *)
Record response : Type := mkResponse {
  rs_status : Z;
  rs_json : jsres jval;
  rs_text : jsres jstr
}.

(** [res.ok] *)
Definition res_ok (r : response) : bool := (200 <=? rs_status r) && (rs_status r <=? 299).

(** [await fetch(rq)]: resolves with a response or rejects (network
    failure, DNS, TLS, ...). *)
Class Fetch (S : Type) := fetch : request -> M S response.

(** [Date.now()], in milliseconds since the epoch. *)
Class Clock (S : Type) := date_now : M S Z.

(** [await res.json()] and [await res.text()] *)
Definition res_json {S} (r : response) : M S jval := lift (rs_json r).
Definition res_text {S} (r : response) : M S jstr := lift (rs_text r).
