(* ===== verification/Indexed.v ===== *)
(** * Lists of tasks updated by index

    The page's promises in flight ([Page]) and the server's handlers in
    flight ([Concurrency]) are lists read with [!!], updated with
    [<[n := x]>], removed with [delete] and extended at the end.  The
    termination arguments of both sum a weight over such a list; these
    are the facts about the sum they share. *)

From Stdlib Require Import List Lia.
From stdpp Require Import list.

Section Sums.
Local Open Scope nat_scope.
Context {A : Type} (f : A -> nat).

Lemma sum_delete l n x :
  l !! n = Some x -> sum_list_with f (delete n l) + f x = sum_list_with f l.
Proof.
  revert n. induction l as [|y l IH]; intros [|n] H; simpl in *; try discriminate.
  - injection H as ->. lia.
  - specialize (IH n H). lia.
Qed.

Lemma sum_insert l n x y :
  l !! n = Some x -> sum_list_with f (<[n := y]> l) + f x = sum_list_with f l + f y.
Proof.
  revert n. induction l as [|z l IH]; intros [|n] H; simpl in *; try discriminate.
  - injection H as ->. lia.
  - specialize (IH n H). lia.
Qed.

Lemma sum_app_single l t : sum_list_with f (l ++ [t]) = sum_list_with f l + f t.
Proof. rewrite sum_list_with_app. simpl. lia. Qed.
(** A positive sum has an element of positive weight. *)
Lemma sum_pos l : 0 < sum_list_with f l -> exists n x, l !! n = Some x /\ 0 < f x.
Proof.
  induction l as [|y l IH]; simpl; [lia|]. intros H.
  destruct (f y) eqn:E.
  - destruct (IH ltac:(lia)) as [n [x [Hx Hp]]]. now exists (S n), x.
  - exists 0, y. split; [reflexivity | lia].
Qed.
End Sums.
