(* ===== verification/RunStore.v ===== *)
(** * The persisted entity and the store interface

    [src/src/models/WorkFlowRun.js] declares the Mongoose schema of a run:
    [prompt] and [action] are required Strings, [ai_response],
    [api_response] and [final_result] Strings defaulting to [""],
    [created_at] a Date.  [WorkflowRun.create] casts the values it is
    given to the schema's types and validates them before the document
    is inserted with a fresh [_id].

    The handlers use the collection through four calls: [dbConnect()],
    [WorkflowRun.create], [WorkflowRun.findByIdAndUpdate] and
    [WorkflowRun.find({}).sort({created_at: -1}).limit(10)].  The class
    [RunStore] is that interface, with an abstraction [store_runs] of the
    collection as a finite map from ids to documents; [RunStoreLaws] says
    what each call promises (a fresh id on create, an update of that one
    document, the ten most recent documents, nothing changed on failure).
    The handlers are proved against the laws; [World] implements the
    interface and discharges them.

    Mongoose's cast and validation are not part of the repository; they
    are modelled from Mongoose's documented behaviour (String cast of
    numbers, booleans and of objects with a string [_id]; CastError for
    arrays and other objects; [required] rejects [undefined], [null] and
    [""]).  The text of Mongoose's error messages is given in its shape,
    without the inspected value. *)

From Stdlib Require Import String.
From Stdlib Require Import ZArith List Lia Bool.
From stdpp Require Import gmap sorting.
From S2P Require Import Prelude JsString Effects JsValue Platform.

Open Scope Z_scope.

Module RunModel.

Record WorkflowRun : Type := mkRun {
  id : N;
  prompt : jstr;
  action : jstr;
  ai_response : jstr;
  api_response : jstr;
  final_result : jstr;
  created_at : Z
}.

(** The document [create] receives, after cast and validation. *)
Record draft : Type := mkDraft {
  d_prompt : jstr;
  d_action : jstr;
  d_created_at : Z
}.

(** The pending document: the three response fields are [""]. *)
Definition pending (d : draft) (i : N) : WorkflowRun :=
  mkRun i (d_prompt d) (d_action d) [] [] [] (d_created_at d).

(** The finalisation of [findByIdAndUpdate(id, {ai_response,
    api_response, final_result})]. *)
Definition finalize (a b f : jstr) (r : WorkflowRun) : WorkflowRun :=
  mkRun (id r) (prompt r) (action r) a b f (created_at r).

Definition cast_error (path : jstr) : jstr :=
  lit "Cast to string failed at path " ++ [34] ++ path ++ [34].

Definition required_error (path : jstr) : jstr :=
  lit "Path `" ++ path ++ lit "` is required.".

(** Mongoose's String cast: [None] leaves the path unset. *)
Definition cast_string (path : jstr) (v : option jval) : jsres (option jstr) :=
  match v with
  | None | Some JNull => Ok None
  | Some (JStr s) => Ok (Some s)
  | Some (JNum n) => Ok (Some (num_str n))
  | Some (JBool b) => Ok (Some (if b then lit "true" else lit "false"))
  | Some (JObj fs) =>
      match assoc_last (lit "_id") fs with
      | Some (JStr ((_ :: _) as s)) => Ok (Some s)
      | _ => Throw (cast_error path)
      end
  | Some (JArr _) => Throw (cast_error path)
  end.

(** The error of one required String path, if any, and its value. *)
Definition check_required (path : jstr) (v : option jval) : jstr + jstr :=
  match cast_string path v with
  | Throw e => inl e
  | Ok (Some ((_ :: _) as s)) => inr s
  | Ok _ => inl (required_error path)
  end.

(** [new WorkflowRun({...}).validate()]: errors are reported in the
    schema's order of paths. *)
Definition build_draft (p a : option jval) (now : Z) : jsres draft :=
  match check_required (lit "prompt") p, check_required (lit "action") a with
  | inr ps, inr as_ => Ok (mkDraft ps as_ now)
  | inl e, inr _ => Throw (lit "WorkflowRun validation failed: prompt: " ++ e)
  | inr _, inl e => Throw (lit "WorkflowRun validation failed: action: " ++ e)
  | inl e1, inl e2 =>
      Throw (lit "WorkflowRun validation failed: prompt: " ++ e1 ++ lit ", action: " ++ e2)
  end.

(** [created_at] descending. *)
Definition newer (a b : WorkflowRun) : Prop := created_at b <= created_at a.

#[export] Instance newer_dec : RelDecision newer.
Proof. intros a b. unfold newer. apply Z.le_dec. Defined.

(** What [find({}).sort({created_at: -1}).limit(10)] promises: at most
    ten stored documents, without repetition, newest first, and no
    stored document left out is newer than one listed. *)
Definition recent_spec (m : gmap N WorkflowRun) (l : list WorkflowRun) : Prop :=
  NoDup l /\
  (forall r, r ∈ l -> m !! id r = Some r) /\
  Sorted newer l /\
  (length l <= 10)%nat /\
  (forall r, m !! id r = Some r -> r ∉ l ->
     length l = 10%nat /\ forall x, x ∈ l -> created_at r <= created_at x).

(** A store keeps each document under its own id. *)
Definition keyed (m : gmap N WorkflowRun) : Prop := map_Forall (fun k r => id r = k) m.

Lemma keyed_lookup m k r : keyed m -> m !! k = Some r -> id r = k.
Proof. intros Hk Hr. exact (Hk k r Hr). Qed.

End RunModel.

Import RunModel.

(** The collection as the handlers use it. *)
Class RunStore (S : Type) := {
  store_runs : S -> gmap N WorkflowRun;
  db_connect : M S unit;
  run_create : draft -> M S N;
  run_update : N -> jstr -> jstr -> jstr -> M S unit;
  run_find_recent : M S (list WorkflowRun)
}.

(** What each call promises about the collection, for a store in a
    well-formed state ([store_wf]), which every call preserves. *)
Class RunStoreLaws (S : Type) `{RunStore S} := {
  store_wf : S -> Prop;
  wf_keyed : forall s, store_wf s -> keyed (store_runs s);
  connect_law : forall s, store_wf s ->
    store_runs (snd (db_connect s)) = store_runs s /\ store_wf (snd (db_connect s));
  create_law : forall d s, store_wf s ->
    store_wf (snd (run_create d s)) /\
    match run_create d s with
    | (Ok i, s') => store_runs s !! i = None /\
                    store_runs s' = <[i := pending d i]> (store_runs s)
    | (Throw _, s') => store_runs s' = store_runs s
    end;
  update_law : forall i a b f s, store_wf s ->
    store_wf (snd (run_update i a b f s)) /\
    match run_update i a b f s with
    | (Ok _, s') => store_runs s' = alter (finalize a b f) i (store_runs s)
    | (Throw _, s') => store_runs s' = store_runs s
    end;
  find_law : forall s, store_wf s ->
    store_wf (snd (run_find_recent s)) /\
    store_runs (snd (run_find_recent s)) = store_runs s /\
    match run_find_recent s with
    | (Ok l, _) => recent_spec (store_runs s) l
    | (Throw _, _) => True
    end
}.

(** A computation that leaves the collection alone. *)
Definition frame {S A} `{RunStoreLaws S} (c : M S A) : Prop :=
  forall s, store_wf s -> store_runs (snd (c s)) = store_runs s /\ store_wf (snd (c s)).

(** The network and the clock do not touch the collection. *)
Class PlatformFrame (S : Type) `{RunStoreLaws S} `{Fetch S} `{Clock S} := {
  fetch_frame : forall rq, frame (fetch rq);
  clock_frame : frame date_now
}.

Section Frame.
Context {S : Type} `{RunStoreLaws S}.

Lemma frame_ret {A} (a : A) : frame (ret a).
Proof. intros s Hs. split; [reflexivity | exact Hs]. Qed.

Lemma frame_throw {A} e : frame (@throw S A e).
Proof. intros s Hs. split; [reflexivity | exact Hs]. Qed.

Lemma frame_lift {A} (r : jsres A) : frame (lift r).
Proof. intros s Hs. split; [reflexivity | exact Hs]. Qed.

Lemma frame_bind {A B} (c : M S A) (k : A -> M S B) :
  frame c -> (forall a, frame (k a)) -> frame (bind c k).
Proof.
  intros Hc Hk s Hs. unfold bind. destruct (Hc s Hs) as [E W].
  destruct (c s) as [[a|e] s']; simpl in *; [| split; assumption].
  destruct (Hk a s' W) as [E' W']. split; [congruence | exact W'].
Qed.

Lemma frame_catch {A} (c : M S A) h :
  frame c -> (forall e, frame (h e)) -> frame (catch c h).
Proof.
  intros Hc Hh s Hs. unfold catch. destruct (Hc s Hs) as [E W].
  destruct (c s) as [[a|e] s']; simpl in *; [split; assumption|].
  destruct (Hh e s' W) as [E' W']. split; [congruence | exact W'].
Qed.

Lemma frame_if {A} (b : bool) (c1 c2 : M S A) : frame c1 -> frame c2 -> frame (if b then c1 else c2).
Proof. destruct b; auto. Qed.
End Frame.

#[export] Hint Resolve frame_ret frame_throw frame_lift frame_bind frame_catch frame_if : upthrust.
