(* ===== verification/World.v ===== *)
(** * A concrete world: MongoDB collection, network and clock

    The state the route handlers run in.  The collection is a finite map
    from [_id]s to documents; [create] takes an id that is not in use
    (ObjectIds are unique), [findByIdAndUpdate] alters one document (and
    does nothing when the id is gone), [find().sort({created_at: -1})
    .limit(10)] sorts the documents newest first and keeps ten.  Which
    store call fails, and with which message, is an oracle ([w_fail]),
    as is the answer of the network to each request ([w_net]).  Every
    call is recorded in [w_log], in order.

    [world_laws] proves that this implementation satisfies the laws of
    [RunStore]: the sort-and-limit query meets [recent_spec] (a
    refinement of the specification by the implementation), and the
    network and clock leave the collection alone. *)

From Stdlib Require Import String.
From Stdlib Require Import ZArith List Lia Bool.
From stdpp Require Import gmap sorting.
From S2P Require Import Prelude JsString Effects JsValue Platform RunStore.
Import RunModel.

Open Scope Z_scope.

Module World.

Inductive db_op : Type := OpConnect | OpCreate | OpUpdate | OpFind.

Inductive event : Type :=
| EvConnect
| EvCreate (i : option N)
| EvUpdate (i : N)
| EvFind
| EvFetch (rq : request).

Record world : Type := mkWorld {
  w_runs : gmap N WorkflowRun;
  w_fail : db_op -> option jstr;
  w_net : request -> jsres response;
  w_now : Z;
  w_log : list event
}.

Definition log (ev : event) (w : world) : world :=
  mkWorld (w_runs w) (w_fail w) (w_net w) (w_now w) (w_log w ++ [ev]).

Definition set_runs (m : gmap N WorkflowRun) (w : world) : world :=
  mkWorld m (w_fail w) (w_net w) (w_now w) (w_log w).

(** [find({}).sort({created_at: -1}).limit(10)] *)
Definition recent (m : gmap N WorkflowRun) : list WorkflowRun :=
  take 10 (merge_sort newer (map_to_list m).*2).

#[export] Instance world_fetch : Fetch world :=
  fun rq w => (w_net w rq, log (EvFetch rq) w).

#[export] Instance world_clock : Clock world := fun w => (Ok (w_now w), w).

Definition connect (w : world) : jsres unit * world :=
  match w_fail w OpConnect with
  | Some e => (Throw e, log EvConnect w)
  | None => (Ok tt, log EvConnect w)
  end.

Definition create (d : draft) (w : world) : jsres N * world :=
  match w_fail w OpCreate with
  | Some e => (Throw e, log (EvCreate None) w)
  | None =>
      let i := fresh (dom (w_runs w)) in
      (Ok i, log (EvCreate (Some i)) (set_runs (<[i := pending d i]> (w_runs w)) w))
  end.

Definition update (i : N) (a b f : jstr) (w : world) : jsres unit * world :=
  match w_fail w OpUpdate with
  | Some e => (Throw e, log (EvUpdate i) w)
  | None => (Ok tt, log (EvUpdate i) (set_runs (alter (finalize a b f) i (w_runs w)) w))
  end.

Definition find_recent (w : world) : jsres (list WorkflowRun) * world :=
  match w_fail w OpFind with
  | Some e => (Throw e, log EvFind w)
  | None => (Ok (recent (w_runs w)), log EvFind w)
  end.

#[export] Instance world_store : RunStore world := {|
  store_runs := w_runs;
  db_connect := connect;
  run_create := create;
  run_update := update;
  run_find_recent := find_recent
|}.

(** ** Fixtures for the scenarios of the specification *)

(** Mock generator forced, no provider keys, UTC. *)
Definition env_mock : env := mkEnv None (Some (lit "true")) None None None None (fixed_zone 0).

(** An empty collection on a network that is down, at 2025-11-09T01:00Z. *)
Definition world0 : world :=
  mkWorld ∅ (fun _ => None) (fun _ => Throw (lit "fetch failed")) 1762650000000 [].

(** A remote generator and a GitHub token, UTC. *)
Definition env_remote : env :=
  mkEnv None None (Some (lit "sk-test")) None (Some (lit "ghp")) (Some (lit "nk")) (fixed_zone 0).

(** A network that answers every request with a 500 and a text body. *)
Definition resp_500 : response := mkResponse 500 (Ok (JObj [])) (Ok (lit "upstream down")).

Definition world_http500 : world :=
  mkWorld ∅ (fun _ => None) (fun _ => Ok resp_500) 1762650000000 [].

(** Two runs created in the same millisecond. *)
Definition twins : gmap N WorkflowRun :=
  <[1%N := mkRun 1 (lit "a") (lit "news") [] [] [] 1000]>
    (<[2%N := mkRun 2 (lit "b") (lit "news") [] [] [] 1000]> ∅).

(** ** The query meets its specification *)

Lemma StronglySorted_take {A} (R : relation A) n l :
  StronglySorted R l -> StronglySorted R (take n l).
Proof.
  revert l. induction n as [|n IH]; intros [|x l] H; simpl; [constructor .. |].
  inversion H as [|? ? Hl Hx]; subst. constructor; [now apply IH | now apply Forall_take].
Qed.

Lemma StronglySorted_app_rel {A} (R : relation A) l1 l2 x y :
  StronglySorted R (l1 ++ l2) -> x ∈ l1 -> y ∈ l2 -> R x y.
Proof.
  induction l1 as [|z l1 IH]; simpl; intros H Hx Hy; [set_solver|].
  inversion H as [|? ? Hl Hz]; subst. apply elem_of_cons in Hx as [-> | Hx]; [|now apply IH].
  rewrite Forall_app in Hz. destruct Hz as [_ Hz]. rewrite list_elem_of_In in Hy.
  exact (proj1 (List.Forall_forall _ _) Hz y Hy).
Qed.

Lemma elem_of_take_l {A} (x : A) n l : x ∈ take n l -> x ∈ l.
Proof. intros H. rewrite <- (take_drop n l). apply elem_of_app. now left. Qed.

Lemma NoDup_take {A} n (l : list A) : NoDup l -> NoDup (take n l).
Proof. intros H. rewrite <- (take_drop n l) in H. rewrite NoDup_app in H. tauto. Qed.

#[export] Instance newer_trans : Transitive newer.
Proof. intros a b c; unfold newer; lia. Qed.

#[export] Instance newer_total : Total newer.
Proof. intros a b; unfold newer; lia. Qed.

Lemma keyed_values_elem m r : keyed m -> r ∈ (map_to_list m).*2 -> m !! id r = Some r.
Proof.
  intros Hk Hr. apply list_elem_of_fmap in Hr as [[k r'] [-> Hin]].
  apply elem_of_map_to_list in Hin. simpl. now rewrite (keyed_lookup _ _ _ Hk Hin).
Qed.

Lemma keyed_values_NoDup m : keyed m -> NoDup (map_to_list m).*2.
Proof.
  intros Hk. apply (NoDup_fmap_1 id). rewrite <- list_fmap_compose.
  replace (id ∘ snd <$> map_to_list m) with ((map_to_list m).*1)
    ; [apply NoDup_fst_map_to_list|].
  apply list_fmap_ext. intros i [k r] Hin. apply list_elem_of_lookup_2 in Hin.
  apply elem_of_map_to_list in Hin. simpl. now rewrite (keyed_lookup _ _ _ Hk Hin).
Qed.

(** The sort-and-limit implementation refines [recent_spec]. *)
Lemma recent_spec_holds m : keyed m -> recent_spec m (recent m).
Proof.
  intros Hk. unfold recent.
  set (l := merge_sort newer (map_to_list m).*2).
  assert (Hp : l ≡ₚ (map_to_list m).*2) by apply merge_sort_Permutation.
  assert (Hs : StronglySorted newer l) by (apply StronglySorted_merge_sort; apply _).
  assert (Hin : forall r, r ∈ l <-> r ∈ (map_to_list m).*2) by (intros r; now rewrite Hp).
  split; [|split; [|split; [|split]]].
  - apply NoDup_take. rewrite Hp. now apply keyed_values_NoDup.
  - intros r Hr. apply keyed_values_elem; [exact Hk|]. apply Hin.
    eapply elem_of_take_l. exact Hr.
  - apply StronglySorted_Sorted, StronglySorted_take, Hs.
  - rewrite length_take. lia.
  - intros r Hr Hnot.
    assert (Hrl : r ∈ l).
    { apply Hin. apply list_elem_of_fmap. exists (id r, r). split; [reflexivity|].
      now apply elem_of_map_to_list. }
    assert (Hd : r ∈ drop 10 l).
    { rewrite <- (take_drop 10 l) in Hrl. apply elem_of_app in Hrl as [?|?]; [contradiction|done]. }
    split.
    + apply list_elem_of_lookup_1 in Hd as [i Hi]. apply lookup_lt_Some in Hi.
      rewrite length_drop in Hi. rewrite length_take. lia.
    + intros x Hx. apply (StronglySorted_app_rel newer (take 10 l) (drop 10 l));
        [now rewrite take_drop | exact Hx | exact Hd].
Qed.

(** ** The laws *)

Definition world_wf (w : world) : Prop := keyed (w_runs w).

Lemma keyed_insert_fresh m d : keyed m -> keyed (<[fresh (dom m) := pending d (fresh (dom m))]> m).
Proof.
  intros Hk. apply map_Forall_insert_2; [reflexivity | exact Hk].
Qed.

Lemma keyed_alter m i a b f : keyed m -> keyed (alter (finalize a b f) i m).
Proof.
  intros Hk k r Hr. rewrite lookup_alter in Hr.
  destruct (decide (i = k)) as [<-|Hne].
  - destruct (m !! i) as [r'|] eqn:E; simpl in Hr; [|discriminate].
    injection Hr as <-. simpl. exact (keyed_lookup _ _ _ Hk E).
  - exact (keyed_lookup _ _ _ Hk Hr).
Qed.

Lemma fresh_not_in (m : gmap N WorkflowRun) : m !! fresh (dom m) = None.
Proof. apply not_elem_of_dom, is_fresh. Qed.

Lemma world_connect_law s : world_wf s ->
  w_runs (snd (connect s)) = w_runs s /\ world_wf (snd (connect s)).
Proof. intros Hs. unfold connect. destruct (w_fail s OpConnect); split; auto. Qed.

Lemma world_create_law d s : world_wf s ->
  world_wf (snd (create d s)) /\
  match create d s with
  | (Ok i, s') => w_runs s !! i = None /\ w_runs s' = <[i := pending d i]> (w_runs s)
  | (Throw _, s') => w_runs s' = w_runs s
  end.
Proof.
  intros Hs. unfold create. destruct (w_fail s OpCreate); simpl; [split; auto|].
  split; [now apply keyed_insert_fresh|]. split; [apply fresh_not_in | reflexivity].
Qed.

Lemma world_update_law i a b f s : world_wf s ->
  world_wf (snd (update i a b f s)) /\
  match update i a b f s with
  | (Ok _, s') => w_runs s' = alter (finalize a b f) i (w_runs s)
  | (Throw _, s') => w_runs s' = w_runs s
  end.
Proof.
  intros Hs. unfold update. destruct (w_fail s OpUpdate); simpl; [split; auto|].
  split; [now apply keyed_alter | reflexivity].
Qed.

Lemma world_find_law s : world_wf s ->
  world_wf (snd (find_recent s)) /\ w_runs (snd (find_recent s)) = w_runs s /\
  match find_recent s with
  | (Ok l, _) => recent_spec (w_runs s) l
  | (Throw _, _) => True
  end.
Proof.
  intros Hs. unfold find_recent. destruct (w_fail s OpFind); simpl; [auto|].
  split; [exact Hs|]. split; [reflexivity|]. now apply recent_spec_holds.
Qed.

#[export] Instance world_laws : RunStoreLaws world := {|
  store_wf := world_wf;
  wf_keyed := fun s Hs => Hs;
  connect_law := world_connect_law;
  create_law := world_create_law;
  update_law := world_update_law;
  find_law := world_find_law
|}.

#[export] Instance world_frame : PlatformFrame world.
Proof. split; [intros rq s Hs | intros s Hs]; split; solve [reflexivity | exact Hs]. Qed.

(** ** Properties of the query *)

(** C14: the query of the concrete store (sort newest first, keep ten)
    meets [recent_spec] on every keyed collection. *)
Theorem recent_refines m : keyed m -> recent_spec m (recent m).
Proof. apply recent_spec_holds. Qed.

Lemma recent_refines_witness : keyed twins /\ recent_spec twins (recent twins).
Proof.
  assert (K : keyed twins) by (unfold keyed; refine (bool_decide_unpack _ _); vm_compute; exact I).
  split; [exact K | apply recent_refines; exact K].
Defined.

(** The order is not strict: two runs created in the same
    millisecond are both listed with equal [created_at]. *)
Theorem recent_ties :
  map created_at (recent twins) = [1000; 1000].
Proof. vm_compute. reflexivity. Qed.

End World.
