(* ===== verification/Composer.v ===== *)
(** * The composer: step 3 of the pipeline

    Lines 168-173 of [src/src/app/api/run_workflow/route.js]:
    {v
      const hashtag = action === "weather" ? "#weather"
                    : action === "github" ? "#opensource" : "#news";
      const ai_trim = ai_response?.trim?.() ?? "";
      const api_trim = api_response?.trim?.() ?? "";
      const final_result = `${ai_trim} ${api_trim} ${hashtag}`.trim();
    v}
    [combine] is the whole step; it throws only when a response is an
    object with a [trim] property that is not a function (the call
    [api_response?.trim?.()] then raises a TypeError). *)

From Stdlib Require Import String.
From Stdlib Require Import ZArith List Lia Bool.
From S2P Require Import Prelude JsString Effects JsValue.
Import ListNotations.

Open Scope Z_scope.

Module Composer.

Definition hashtag (action : option jval) : jstr :=
  if is_str action (lit "weather") then lit "#weather"
  else if is_str action (lit "github") then lit "#opensource"
  else lit "#news".

(** [x?.trim?.() ?? ""] where [name] is the source text of [x].  A
    string has the method; [null] and [undefined] stop the chain; numbers,
    booleans and arrays have no [trim]; an object has one only as an own
    property, and calling a non-function throws. *)
Definition trim_response (name : jstr) (x : option jval) : jsres jstr :=
  match x with
  | Some (JStr s) => Ok (trim s)
  | Some (JObj fs) =>
      if nullish (assoc_last (lit "trim") fs) then Ok []
      else Throw (not_a_function (name ++ lit "?.trim"))
  | _ => Ok []
  end.

Definition final_result (ai_trim api_trim tag : jstr) : jstr :=
  trim (ai_trim ++ [SPACE] ++ api_trim ++ [SPACE] ++ tag).

(** The step: the trimmed AI text, the trimmed provider text, the final
    message. *)
Definition combine (ai_response : jstr) (api_response : option jval) (action : option jval)
  : jsres (jstr * jstr * jstr) :=
  let tag := hashtag action in
  match trim_response (lit "ai_response") (Some (JStr ai_response)) with
  | Throw e => Throw e
  | Ok ai_trim =>
      match trim_response (lit "api_response") api_response with
      | Throw e => Throw e
      | Ok api_trim => Ok (ai_trim, api_trim, final_result ai_trim api_trim tag)
      end
  end.

(** ** Lemmas *)

Lemma hashtag_cases action :
  hashtag action = lit "#weather" \/ hashtag action = lit "#opensource"
  \/ hashtag action = lit "#news".
Proof. unfold hashtag. repeat case_if; auto. Qed.

Lemma hashtag_trimmed action : trim (hashtag action) = hashtag action /\ hashtag action <> [].
Proof.
  destruct (hashtag_cases action) as [-> | [-> | ->]]; split;
    solve [reflexivity | discriminate].
Qed.

Lemma trim_response_trimmed name x s : trim_response name x = Ok s -> trim s = s.
Proof.
  destruct x as [[| | | t | | fs]|]; simpl; intros H; try (injection H as <-; reflexivity).
  - injection H as <-. apply trim_idem.
  - destruct (nullish _); [injection H as <-; reflexivity | discriminate].
Qed.

(** The final message on each branch, from trimmed inputs. *)
Lemma final_result_cases a b tag :
  trim a = a -> trim b = b -> trim tag = tag -> tag <> [] ->
  final_result a b tag =
    match a, b with
    | [], [] => tag
    | [], _ => b ++ [SPACE] ++ tag
    | _, _ => a ++ [SPACE] ++ b ++ [SPACE] ++ tag
    end.
Proof.
  intros Ha Hb Ht Hnt. unfold final_result.
  destruct a as [|x a]; [destruct b as [|y b]|].
  - change ([] ++ [SPACE] ++ [] ++ [SPACE] ++ tag) with ([SPACE; SPACE] ++ tag).
    rewrite trim_ws_left by (repeat constructor). exact Ht.
  - change ([] ++ [SPACE] ++ (y :: b) ++ [SPACE] ++ tag)
      with ([SPACE] ++ (y :: b) ++ [SPACE] ++ tag).
    rewrite trim_ws_left by (repeat constructor).
    apply trim_app3; congruence.
  - assert (E : (x :: a) ++ [SPACE] ++ b ++ [SPACE] ++ tag
                 = (x :: a) ++ ([SPACE] ++ b ++ [SPACE]) ++ tag)
      by now rewrite <- !app_assoc.
    rewrite E, trim_app3 by congruence. now rewrite <- E.
Qed.

Lemma trim_response_str name s : trim_response name (Some (JStr s)) = Ok (trim s).
Proof. reflexivity. Qed.

(** ** Properties *)

(** C4: on string responses the step never fails, and its three results
    are the trimmed AI text, the trimmed provider text and, depending on
    which of them is empty, ["ai api #tag"], ["api #tag"] or ["#tag"]
    (an empty provider text leaves two spaces between the AI text and
    the tag). *)
Theorem combine_spec ai api action :
  combine ai (Some (JStr api)) action =
    Ok (trim ai, trim api,
        match trim ai, trim api with
        | [], [] => hashtag action
        | [], b => b ++ [SPACE] ++ hashtag action
        | a, b => a ++ [SPACE] ++ b ++ [SPACE] ++ hashtag action
        end).
Proof.
  unfold combine. rewrite !trim_response_str. f_equal. f_equal.
  destruct (hashtag_trimmed action) as [Ht Hnt].
  rewrite final_result_cases by auto using trim_idem.
  destruct (trim ai), (trim api); reflexivity.
Qed.

(** C12: white space around either response does not change the step's
    results ([compose("  hi  ", "  there  ", a) = compose("hi", "there", a)]). *)
Theorem combine_ws_insensitive pre ai post pre' api post' action :
  all_p is_ws pre -> all_p is_ws post -> all_p is_ws pre' -> all_p is_ws post' ->
  combine (pre ++ ai ++ post) (Some (JStr (pre' ++ api ++ post'))) action =
  combine ai (Some (JStr api)) action.
Proof. intros. rewrite !combine_spec, !trim_app_ws by assumption. reflexivity. Qed.

Lemma combine_final ai api action a b f :
  combine ai api action = Ok (a, b, f) ->
  (exists p, f = p ++ hashtag action) /\ trim f = f.
Proof.
  unfold combine. rewrite trim_response_str.
  destruct (trim_response _ api) as [b'|e] eqn:Hb; [|discriminate].
  intros H. injection H as <- <- <-.
  apply trim_response_trimmed in Hb.
  destruct (hashtag_trimmed action) as [Ht Hnt].
  split; [| apply trim_idem].
  rewrite final_result_cases by auto using trim_idem.
  destruct (trim ai), b'; eexists; [now rewrite app_nil_l | now rewrite app_assoc
    | rewrite !app_assoc; reflexivity | rewrite !app_assoc; reflexivity].
Qed.

Lemma combine_ws_insensitive_witness :
  all_p is_ws [SPACE; SPACE] /\
  combine ([SPACE; SPACE] ++ lit "hi" ++ [SPACE; SPACE])
    (Some (JStr ([SPACE; SPACE] ++ lit "there" ++ [SPACE; SPACE]))) (Some (JStr (lit "weather"))) =
  combine (lit "hi") (Some (JStr (lit "there"))) (Some (JStr (lit "weather"))).
Proof.
  split; [repeat constructor|].
  apply combine_ws_insensitive; repeat constructor.
Defined.

(** C13: whenever the step succeeds, the final message ends with the
    hashtag of the action (["#weather"] for ["weather"], ["#opensource"]
    for ["github"], ["#news"] otherwise) and has no white space at
    either end. *)
Theorem combine_hashtag ai api action a b f :
  combine ai api action = Ok (a, b, f) ->
  (exists p, f = p ++ hashtag action) /\ trim f = f.
Proof. apply combine_final. Qed.

Lemma combine_hashtag_witness :
  combine (lit " hi ") (Some (JStr (lit "there"))) (Some (JStr (lit "github"))) =
    Ok (lit "hi", lit "there", lit "hi there #opensource") /\
  (exists p, lit "hi there #opensource" = p ++ hashtag (Some (JStr (lit "github")))) /\
  trim (lit "hi there #opensource") = lit "hi there #opensource".
Proof.
  split; [reflexivity|].
  apply (combine_hashtag (lit " hi ") (Some (JStr (lit "there"))) (Some (JStr (lit "github")))
           (lit "hi") (lit "there")); reflexivity.
Defined.

(** C27: the step throws exactly when the provider's answer is an object
    with an own [trim] property that is neither [null] nor [undefined];
    the error is V8's ["api_response?.trim is not a function"]. *)
Theorem combine_throws ai api action e :
  combine ai api action = Throw e <->
  (exists fs, api = Some (JObj fs) /\ nullish (assoc_last (lit "trim") fs) = false) /\
  e = lit "api_response?.trim is not a function".
Proof.
  unfold combine. rewrite trim_response_str.
  destruct api as [[| | | s | l | fs]|]; simpl;
    try (split; [discriminate | intros [[fs [H _]] _]; discriminate]).
  destruct (nullish (assoc_last (lit "trim") fs)) eqn:N; split.
  - discriminate.
  - intros [[fs' [H H']] _]. injection H as <-. congruence.
  - intros H. injection H as <-. split; [eauto | reflexivity].
  - intros [_ ->]. reflexivity.
Qed.

End Composer.
