(* ===== verification/Generator.v ===== *)
(** * The text generator: [callOpenAI]

    Lines 8-48 of [src/src/app/api/run_workflow/route.js].  The mode is
    chosen from the environment: the mock when [USE_MOCK_AI === "true"]
    or [OPENAI_API_KEY] is unset or empty, the remote chat completion
    otherwise.  The mock truncates the prompt to 77 code units plus
    ["..."] when it is longer than 80; the remote call POSTs to
    OpenRouter, throws ["OpenAI error: <status> <body>"] on a non-2xx
    status, reads [choices[0].message.content] (or [choices[0].text]) and
    removes code fences.

    The prompt is the raw request value (a string for every request the
    page sends; the store's cast also admits numbers, booleans and objects
    with a string [_id]), so [callOpenAI] takes an [option jval]. *)

From Stdlib Require Import String.
From Stdlib Require Import ZArith List Lia Bool.
From S2P Require Import Prelude JsString Effects JsValue Platform RunStore World.
Import World.
Import ListNotations.

Open Scope Z_scope.

Module Generator.

Definition use_mock (e : env) : bool :=
  match USE_MOCK_AI e with Some v => jstr_eqb v (lit "true") | None => false end
  || negb (env_set (OPENAI_API_KEY e)).

(** [prompt.length > 80 ? prompt.slice(0, 77) + "..." : prompt], then
    the template [`${short}`]. *)
Definition mock_short (prompt : option jval) : jsres jstr :=
  match read prompt (lit "length") with
  | Throw e => Throw e
  | Ok len =>
      if num_gt (to_number len) 80 then
        match prompt with
        | Some (JStr s) => Ok (slice s 0 77 ++ lit "...")
        | Some (JArr l) => Ok (val_str (JArr (firstn 77 l)) ++ lit "...")
        | _ => Throw (not_a_function (lit "prompt.slice"))
        end
      else Ok (tmpl prompt)
  end.

Definition mock_reply (prompt : option jval) : jsres jstr :=
  match mock_short prompt with
  | Ok short => Ok (lit "Quick thought: " ++ short)
  | Throw e => Throw e
  end.

Definition ENDPOINT : jstr := lit "https://openrouter.ai/api/v1/chat/completions".
Definition MODEL : jstr := lit "mistralai/mistral-small-3.2-24b-instruct:free".
Definition SYSTEM_PROMPT : jstr :=
  lit "You are a concise assistant. Produces tweet-sized outputs (<= 20 words).".

Definition request_body (prompt : option jval) : jval :=
  JObj [(lit "model", JStr MODEL);
        (lit "messages",
          JArr [JObj [(lit "role", JStr (lit "system")); (lit "content", JStr SYSTEM_PROMPT)];
                JObj [(lit "role", JStr (lit "user"));
                      (lit "content", JStr (lit "Write a short tweet based on: " ++ tmpl prompt))]]);
        (lit "max_tokens", JNum (NFin 60 0));
        (lit "temperature", JNum (NFin 7 (-1)))].

Definition openai_request (e : env) (prompt : option jval) : request :=
  mkRequest ENDPOINT (lit "POST")
    [(lit "Content-Type", lit "application/json");
     (lit "Authorization", lit "Bearer " ++ tmpl (env_val (OPENAI_API_KEY e)))]
    (Some (request_body prompt)).

(** [json?.choices?.[0]?.message?.content ?? json?.choices?.[0]?.text ?? ""] *)
Definition completion_text (json : jval) : option jval :=
  let c0 := opt_get (opt_get (Some json) (lit "choices")) (lit "0") in
  coalesce (coalesce (opt_get (opt_get c0 (lit "message")) (lit "content"))
                     (opt_get c0 (lit "text")))
           (Some (JStr [])).

Definition FENCE_JSON : jstr := lit "```json".
Definition FENCE : jstr := lit "```".

(** [msg.replace(/```json/g, "").replace(/```/g, "").trim()], then
    [.trim()] again on return. *)
Definition clean (msg : option jval) : jsres jstr :=
  match msg with
  | Some (JStr m) => Ok (trim (trim (remove_all FENCE (remove_all FENCE_JSON m))))
  | _ => Throw (not_a_function (lit "msg.replace"))
  end.

(** The error thrown on a non-2xx status. *)
Definition openai_error (status : Z) (text : jstr) : jstr :=
  lit "OpenAI error: " ++ num_str (NFin status 0) ++ lit " " ++ text.

Section WithFetch.
Context {S : Type} `{Fetch S}.
Local Open Scope monad_scope.

Definition callOpenAI (e : env) (prompt : option jval) : M S jstr :=
  if use_mock e then lift (mock_reply prompt)
  else
    res <- fetch (openai_request e prompt) ;;
    if negb (res_ok res) then
      text <- res_text res ;;
      throw (openai_error (rs_status res) text)
    else
      json <- res_json res ;;
      lift (clean (completion_text json)).
End WithFetch.

(** ** Lemmas *)

Lemma mock_reply_str s :
  mock_reply (Some (JStr s)) =
  Ok (lit "Quick thought: " ++
      (if 80 <? Z.of_nat (length s) then firstn 77 s ++ lit "..." else s)).
Proof.
  unfold mock_reply, mock_short. simpl. rewrite Z.mul_1_r.
  destruct (Z.ltb_spec 80 (Z.of_nat (length s))) as [H|H]; [|reflexivity].
  rewrite slice_prefix by lia. reflexivity.
Qed.

(** ** Properties *)

(** C15: the mock reply to a string prompt is ["Quick thought: "]
    followed by a snippet of at most 80 code units: the prompt itself
    when it has at most 80 units, otherwise its first 77 units and
    ["..."], exactly 80 units. *)
Theorem mock_reply_snippet s :
  exists snip, mock_reply (Some (JStr s)) = Ok (lit "Quick thought: " ++ snip) /\
    (length snip <= 80)%nat /\
    (if (length s <=? 80)%nat then snip = s
     else snip = firstn 77 s ++ lit "..." /\ length snip = 80%nat).
Proof.
  rewrite mock_reply_str.
  destruct (Z.ltb_spec 80 (Z.of_nat (length s))) as [H|H]; eexists; split; try reflexivity.
  - assert (L : length (firstn 77 s ++ lit "...") = 80%nat)
      by (rewrite length_app, length_firstn, Nat.min_l by lia; reflexivity).
    destruct (Nat.leb_spec (length s) 80); [lia|]. rewrite L. split; [lia | split; reflexivity].
  - destruct (Nat.leb_spec (length s) 80); [split; [lia | reflexivity] | lia].
Qed.

(** In mock mode ([USE_MOCK_AI] is ["true"], or no API key) the
    generator makes no request and leaves the state as it was. *)
Theorem callOpenAI_mock {S} `{Fetch S} e prompt (st : S) :
  use_mock e = true -> callOpenAI e prompt st = (mock_reply prompt, st).
Proof. intros Hm. unfold callOpenAI. now rewrite Hm. Qed.

Lemma callOpenAI_mock_witness :
  Generator.use_mock env_mock = true /\
  callOpenAI env_mock (Some (JStr (lit "today"))) world0 =
    (mock_reply (Some (JStr (lit "today"))), world0).
Proof. split; [reflexivity | apply callOpenAI_mock; reflexivity]. Defined.

(** C30: the mock's truncation counts UTF-16 code units, so it can cut
    a surrogate pair: the reply to a well-formed prompt is well-formed
    unless the prompt is longer than 80 units and its 77th unit is a high
    surrogate, in which case the reply has a lone high surrogate before
    ["..."]. *)
Theorem mock_reply_splits_surrogate p :
  utf16_wf p = true ->
  exists r, mock_reply (Some (JStr p)) = Ok r /\
    utf16_wf r = (if 80 <? Z.of_nat (length p) then negb (is_high_surrogate (nth 76 p 0)) else true).
Proof.
  intros W. eexists. split; [apply mock_reply_str|].
  rewrite utf16_wf_app_bmp by reflexivity.
  destruct (Z.ltb_spec 80 (Z.of_nat (length p))) as [L|L]; [|exact W].
  rewrite utf16_wf_app by reflexivity. rewrite utf16_wf_firstn by (assumption || lia).
  apply andb_true_r.
Qed.

Lemma mock_reply_splits_surrogate_witness :
  utf16_wf (repeat 97 76 ++ [55357; 56832] ++ repeat 97 10) = true /\
  exists r, mock_reply (Some (JStr (repeat 97 76 ++ [55357; 56832] ++ repeat 97 10))) = Ok r /\
    utf16_wf r = false.
Proof.
  assert (W : utf16_wf (repeat 97 76 ++ [55357; 56832] ++ repeat 97 10) = true) by (vm_compute; reflexivity).
  split; [exact W|].
  destruct (mock_reply_splits_surrogate _ W) as [r [E H]]. exists r. split; [exact E|].
  rewrite H. vm_compute. reflexivity.
Defined.

(** C16: in remote mode a non-2xx response makes the generator throw
    ["OpenAI error: <status> <body>"], after reading the body once. *)
Theorem callOpenAI_http_error {S} `{Fetch S} e prompt (st st' : S) r body :
  use_mock e = false ->
  fetch (openai_request e prompt) st = (Ok r, st') ->
  res_ok r = false -> rs_text r = Ok body ->
  callOpenAI e prompt st = (Throw (openai_error (rs_status r) body), st').
Proof.
  intros Hm Hf Hok Ht. unfold callOpenAI, bind, res_text, lift, throw.
  rewrite Hm, Hf, Hok, Ht. reflexivity.
Qed.

Lemma callOpenAI_http_error_witness :
  use_mock env_remote = false /\
  callOpenAI env_remote (Some (JStr (lit "today"))) world_http500 =
    (Throw (openai_error 500 (lit "upstream down")),
     snd (fetch (openai_request env_remote (Some (JStr (lit "today")))) world_http500)).
Proof.
  split; [reflexivity|].
  apply (callOpenAI_http_error env_remote (Some (JStr (lit "today"))) world_http500 _ resp_500);
    reflexivity.
Defined.


(** C17: no code fence survives [clean]: after the global removal of
    ["```json"] and ["```"] and the trims, the reply contains no
    ["```"]. *)
Theorem clean_no_fence msg t :
  clean msg = Ok t -> infixb Z.eqb FENCE t = false.
Proof.
  destruct msg as [[| | | m | |]|]; simpl; try discriminate. intros H. injection H as <-.
  apply not_true_is_false. intros Ht.
  apply infix_trim, infix_trim in Ht.
  change FENCE with [96; 96; 96] in Ht. rewrite remove3_no_infix in Ht. discriminate.
Qed.

Lemma clean_no_fence_witness :
  clean (Some (JStr (lit "```json ````hi`` ```"))) = Ok (lit "`hi``") /\
  infixb Z.eqb FENCE (lit "`hi``") = false.
Proof.
  assert (E : clean (Some (JStr (lit "```json ````hi`` ```"))) = Ok (lit "`hi``"))
    by (vm_compute; reflexivity).
  split; [exact E | exact (clean_no_fence _ _ E)].
Defined.

End Generator.
