(* ===== verification/DateTime.v ===== *)
(** * The calendar arithmetic of [Date]

    [fetchGithubTrending] (route.js lines 78-80) computes
    {v
      const d = new Date(); d.setDate(d.getDate() - 7);
      const since = d.toISOString().slice(0, 10);
    v}
    A time value is a number of milliseconds since 1970-01-01T00:00Z.
    [setDate] works on local time (ECMA-262 21.4.4.24: MakeDay of the
    local year and month and the new date, at the same time of day);
    [toISOString] prints the UTC calendar date and time and throws a
    RangeError when the time value is outside +-8.64e15 ms.  The local
    time of [t] is [t + utc_offset z t] (LocalTime) and a local time
    [lt] is the instant [lt - local_offset z lt] (UTC), for the zone [z]
    of [Platform.env]; in a zone with daylight saving both offsets depend
    on the date.

    The proleptic Gregorian calendar is computed by the day-count
    algorithms [days_from_civil] and [civil_from_days] (eras of 400 years
    = 146097 days). *)

From Stdlib Require Import String.
From Stdlib Require Import ZArith List Lia Bool.
From S2P Require Import Prelude JsString Effects JsValue Platform.
Import ListNotations.

Open Scope Z_scope.

Module DateTime.

Definition ms_per_day : Z := 86400000.
Definition max_time : Z := 8640000000000000.

(** Days since 1970-01-01 of year [y], month [m] (1-12), day [d]; a day
    outside the month counts on into the next or previous months, as
    MakeDay does. *)
Definition days_from_civil (y m d : Z) : Z :=
  let y' := if m <=? 2 then y - 1 else y in
  let era := y' / 400 in
  let yoe := y' - era * 400 in
  let mp := if 2 <? m then m - 3 else m + 9 in
  let doy := (153 * mp + 2) / 5 + d - 1 in
  let doe := yoe * 365 + yoe / 4 - yoe / 100 + doy in
  era * 146097 + doe - 719468.

(** Year, month (1-12) and day (1-31) of a day number. *)
Definition civil_from_days (z : Z) : Z * Z * Z :=
  let z := z + 719468 in
  let era := z / 146097 in
  let doe := z - era * 146097 in
  let yoe := (doe - doe / 1460 + doe / 36524 - doe / 146096) / 365 in
  let doy := doe - (365 * yoe + yoe / 4 - yoe / 100) in
  let mp := (5 * doy + 2) / 153 in
  let d := doy - (153 * mp + 2) / 5 + 1 in
  let m := if mp <? 10 then mp + 3 else mp - 9 in
  let y := yoe + era * 400 in
  (if m <=? 2 then y + 1 else y, m, d).

(** LocalTime(t) and UTC(lt) of ECMA-262 21.4.1.25-26. *)
Definition local_time (z : zone) (t : Z) : Z := t + utc_offset z t.
Definition utc (z : zone) (lt : Z) : Z := lt - local_offset z lt.

(** [d.setDate(d.getDate() - k)] on the time value [t] in the zone [z]
    (21.4.4.20): MakeDay of the local year, month and date minus [k], at
    the same local time of day, converted back by UTC. *)
Definition set_date_minus (t : Z) (z : zone) (k : Z) : Z :=
  let lt := local_time z t in
  let day := lt / ms_per_day in
  let tod := lt mod ms_per_day in
  let '(y, m, d) := civil_from_days day in
  let newday := days_from_civil y m 1 + (d - k) - 1 in
  utc z (newday * ms_per_day + tod).

(** A non-negative number in decimal, left-padded with zeros. *)
Definition pad (w : nat) (n : Z) : jstr :=
  let ds := int_to_jstr n in repeat 48 (w - length ds) ++ ds.

Definition iso_string (t : Z) : jstr :=
  let day := t / ms_per_day in
  let tod := t mod ms_per_day in
  let '(y, mo, d) := civil_from_days day in
  let year := if (0 <=? y) && (y <=? 9999) then pad 4 y
              else (if y <? 0 then [45] else [43]) ++ pad 6 (Z.abs y) in
  year ++ [45] ++ pad 2 mo ++ [45] ++ pad 2 d ++ lit "T" ++
  pad 2 (tod / 3600000) ++ [58] ++ pad 2 ((tod / 60000) mod 60) ++ [58] ++
  pad 2 ((tod / 1000) mod 60) ++ [46] ++ pad 3 (tod mod 1000) ++ lit "Z".

(** [d.toISOString()]: a RangeError on an invalid date. *)
Definition to_iso_string (t : Z) : jsres jstr :=
  if Z.abs t <=? max_time then Ok (iso_string t) else Throw (lit "Invalid time value").

(** The [since] date of the trending query at time [now]. *)
Definition github_since (now : Z) (z : zone) : jsres jstr :=
  match to_iso_string (set_date_minus now z 7) with
  | Ok s => Ok (slice s 0 10)
  | Throw e => Throw e
  end.

(** A zone with New York's daylight-saving change of 2025-03-09 (EST,
    UTC-5, until 07:00Z; EDT, UTC-4, after; the skipped local hour read
    as EST). *)
Definition new_york_2025 : zone :=
  mkZone (fun t => if t <? 1741503600000 then -18000000 else -14400000)
         (fun lt => if lt <? 1741489200000 then -18000000 else -14400000).

(** ** The day-count algorithms invert each other *)

Ltac div_facts x k :=
  pose proof (Z.div_mod x k ltac:(lia)); pose proof (Z.mod_pos_bound x k ltac:(lia)).

Lemma yoe_bounds doe : 0 <= doe < 146097 ->
  0 <= (doe - doe / 1460 + doe / 36524 - doe / 146096) / 365 <= 399.
Proof.
  intros H. div_facts doe 1460. div_facts doe 36524. div_facts doe 146096.
  set (X := doe - doe / 1460 + doe / 36524 - doe / 146096). div_facts X 365. subst X. lia.
Qed.

Lemma doy_bounds doe : 0 <= doe < 146097 ->
  let yoe := (doe - doe / 1460 + doe / 36524 - doe / 146096) / 365 in
  0 <= doe - (365 * yoe + yoe / 4 - yoe / 100) <= 365.
Proof.
  intros H yoe. div_facts doe 1460. div_facts doe 36524. div_facts doe 146096.
  set (X := doe - doe / 1460 + doe / 36524 - doe / 146096) in *. div_facts X 365.
  div_facts yoe 4. div_facts yoe 100. subst yoe X. lia.
Qed.

(** [days_from_civil] on the year, month and day [civil_from_days]
    builds from an era, a year of the era and a March-based month. *)
Lemma days_from_civil_parts era yoe mp d :
  0 <= yoe <= 399 -> 0 <= mp <= 11 ->
  days_from_civil (yoe + era * 400 + (if mp <? 10 then 0 else 1))
                  (if mp <? 10 then mp + 3 else mp - 9) d =
  era * 146097 + (yoe * 365 + yoe / 4 - yoe / 100 + ((153 * mp + 2) / 5 + d - 1)) - 719468.
Proof.
  intros Hy Hm. unfold days_from_civil.
  assert (E : (yoe + era * 400) / 400 = era)
    by (rewrite Z.div_add by lia; rewrite Z.div_small by lia; lia).
  destruct (Z.ltb_spec mp 10) as [L|L].
  - rewrite (proj2 (Z.leb_gt _ _)) by lia. rewrite (proj2 (Z.ltb_lt 2 _)) by lia.
    rewrite Z.add_0_r, E. replace (yoe + era * 400 - era * 400) with yoe by lia.
    replace (mp + 3 - 3) with mp by lia. reflexivity.
  - rewrite (proj2 (Z.leb_le _ 2)) by lia. rewrite (proj2 (Z.ltb_ge 2 _)) by lia.
    replace (yoe + era * 400 + 1 - 1) with (yoe + era * 400) by lia. rewrite E.
    replace (yoe + era * 400 - era * 400) with yoe by lia.
    replace (mp - 9 + 9) with mp by lia. reflexivity.
Qed.

(** A day of the month counts on linearly. *)
Lemma days_from_civil_day y m d :
  days_from_civil y m d = days_from_civil y m 1 + (d - 1).
Proof. unfold days_from_civil. lia. Qed.

(** Every day number is recovered from the calendar date
    [civil_from_days] gives it: [days_from_civil] inverts it on all of
    [Z], so the date [toISOString] prints names the day of the time
    value. *)
Theorem civil_from_days_roundtrip z :
  let '(y, m, d) := civil_from_days z in days_from_civil y m d = z.
Proof.
  unfold civil_from_days.
  set (era := (z + 719468) / 146097).
  set (doe := z + 719468 - era * 146097).
  assert (Hd : 0 <= doe < 146097) by (div_facts (z + 719468) 146097; subst doe era; lia).
  pose proof (yoe_bounds doe Hd) as Hy. pose proof (doy_bounds doe Hd) as Hdy. cbv zeta in Hdy.
  set (yoe := (doe - doe / 1460 + doe / 36524 - doe / 146096) / 365) in *.
  set (doy := doe - (365 * yoe + yoe / 4 - yoe / 100)) in *.
  assert (Hm : 0 <= (5 * doy + 2) / 153 <= 11) by (div_facts (5 * doy + 2) 153; lia).
  set (mp := (5 * doy + 2) / 153) in *.
  replace (if (if mp <? 10 then mp + 3 else mp - 9) <=? 2 then yoe + era * 400 + 1
           else yoe + era * 400)
    with (yoe + era * 400 + (if mp <? 10 then 0 else 1))
    by (destruct (Z.ltb_spec mp 10); [rewrite (proj2 (Z.leb_gt _ _)) by lia
                                      | rewrite (proj2 (Z.leb_le _ 2)) by lia]; lia).
  rewrite days_from_civil_parts by lia. lia.
Qed.

(** [d.setDate(d.getDate() - k)] moves the local wall clock back by
    exactly [k] days: the result is UTC of the local time [k] days
    earlier. *)
Lemma set_date_minus_local t z k :
  set_date_minus t z k = utc z (local_time z t - k * ms_per_day).
Proof.
  unfold set_date_minus.
  pose proof (civil_from_days_roundtrip (local_time z t / ms_per_day)) as R.
  destruct (civil_from_days (local_time z t / ms_per_day)) as [[y m] d].
  cbv beta iota zeta in R |- *. rewrite days_from_civil_day in R. f_equal.
  unfold ms_per_day in *. div_facts (local_time z t) 86400000. lia.
Qed.

(** ** Properties *)

(** C20: the [since] date of the trending query is the UTC calendar date
    of the instant whose local wall clock reads seven days before [now]'s:
    the instant [now - 7 days] moved by the change of offset between the
    two local times.  Across a daylight-saving change the window is seven
    days plus or minus the hour, and [since] can be the next UTC day. *)
Theorem github_since_local_week now z :
  let t := now - 7 * ms_per_day + (utc_offset z now - local_offset z (local_time z now - 7 * ms_per_day)) in
  Z.abs t <= max_time ->
  github_since now z = Ok (slice (iso_string t) 0 10).
Proof.
  intros t H. unfold github_since, to_iso_string. rewrite set_date_minus_local.
  replace (utc z (local_time z now - 7 * ms_per_day)) with t by (subst t; unfold utc, local_time; lia).
  apply Z.leb_le in H. now rewrite H.
Qed.

(** At 2025-03-11T23:30Z in that zone the query asks for repositories
    created after 2025-03-05, not 2025-03-04: the local week back is
    seven days and one hour. *)
Lemma github_since_local_week_witness :
  Z.abs (1741735800000 - 7 * ms_per_day +
         (utc_offset new_york_2025 1741735800000 -
          local_offset new_york_2025 (local_time new_york_2025 1741735800000 - 7 * ms_per_day))) <= max_time /\
  github_since 1741735800000 new_york_2025 = Ok (lit "2025-03-05").
Proof.
  split; [vm_compute; discriminate|].
  rewrite (github_since_local_week 1741735800000 new_york_2025) by (vm_compute; discriminate).
  vm_compute. reflexivity.
Defined.

(** In a zone without daylight saving the instant moves by exactly seven
    days, so [since] is the UTC date a week ago. *)
Corollary github_since_fixed now off :
  Z.abs (now - 7 * ms_per_day) <= max_time ->
  github_since now (fixed_zone off) = Ok (slice (iso_string (now - 7 * ms_per_day)) 0 10).
Proof.
  intros H. rewrite github_since_local_week; cbn [utc_offset local_offset fixed_zone];
    rewrite ?Z.sub_diag, ?Z.add_0_r; [reflexivity | exact H].
Qed.

End DateTime.
