(* ===== verification/Uri.v ===== *)
(** * [encodeURIComponent]

    [fetchGithubTrending] (route.js line 82) encodes its search query
    with [encodeURIComponent] (ECMA-262 19.2.6.5, Encode): the
    unreserved characters [A-Z a-z 0-9 - _ . ! ~ * ' ( )] stay, every
    other code point is written as the percent-encoded bytes of its UTF-8
    form with upper-case hex digits, and a lone surrogate is a URIError
    ("URI malformed").  [fetchWeather] does not encode its [q] parameter:
    [Providers] keeps the raw city text in the URL. *)

From Stdlib Require Import String.
From Stdlib Require Import ZArith List Lia Bool.
From S2P Require Import Prelude JsString Effects.
Import ListNotations.

Open Scope Z_scope.

Module Uri.

Definition uri_mark : jstr := lit "-_.!~*'()".

Definition unreserved (u : Z) : bool :=
  ((65 <=? u) && (u <=? 90)) || ((97 <=? u) && (u <=? 122)) ||
  ((48 <=? u) && (u <=? 57)) || existsb (Z.eqb u) uri_mark.

Definition hex_digit (n : Z) : Z := if n <? 10 then 48 + n else 55 + n.

Definition pct (b : Z) : jstr := [37; hex_digit (b / 16); hex_digit (b mod 16)].

Definition utf8_bytes (cp : Z) : list Z :=
  if cp <? 128 then [cp]
  else if cp <? 2048 then [192 + cp / 64; 128 + cp mod 64]
  else if cp <? 65536 then [224 + cp / 4096; 128 + (cp / 64) mod 64; 128 + cp mod 64]
  else [240 + cp / 262144; 128 + (cp / 4096) mod 64; 128 + (cp / 64) mod 64; 128 + cp mod 64].

Definition encode_cp (cp : Z) : jstr := flat_map pct (utf8_bytes cp).

Definition uri_malformed : jstr := lit "URI malformed".

Fixpoint encode_uri_component (s : jstr) : jsres jstr :=
  match s with
  | [] => Ok []
  | u :: r =>
      if unreserved u then
        match encode_uri_component r with Ok t => Ok (u :: t) | Throw e => Throw e end
      else if is_low_surrogate u then Throw uri_malformed
      else if is_high_surrogate u then
        match r with
        | v :: r' =>
            if is_low_surrogate v then
              let cp := (u - 55296) * 1024 + (v - 56320) + 65536 in
              match encode_uri_component r' with
              | Ok t => Ok (encode_cp cp ++ t)
              | Throw e => Throw e
              end
            else Throw uri_malformed
        | [] => Throw uri_malformed
        end
      else match encode_uri_component r with
           | Ok t => Ok (encode_cp u ++ t)
           | Throw e => Throw e
           end
  end.

(** The characters an encoded component consists of. *)
Definition url_safe (u : Z) : bool := unreserved u || (u =? 37).

(** ** Lemmas *)

Lemma hex_digit_unreserved n : 0 <= n < 16 -> unreserved (hex_digit n) = true.
Proof.
  intros H. unfold hex_digit, unreserved. destruct (Z.ltb_spec n 10).
  - rewrite (proj2 (Z.leb_le 48 _)), (proj2 (Z.leb_le _ 57)) by lia.
    rewrite andb_true_r, !orb_true_r. reflexivity.
  - rewrite (proj2 (Z.leb_le 65 _)), (proj2 (Z.leb_le _ 90)) by lia. reflexivity.
Qed.

Lemma pct_safe b : 0 <= b < 256 -> forallb url_safe (pct b) = true.
Proof.
  intros H. unfold pct. simpl. unfold url_safe.
  rewrite (hex_digit_unreserved (b / 16)), (hex_digit_unreserved (b mod 16))
    by (first [apply Z.mod_pos_bound | split; [apply Z.div_pos | apply Z.div_lt_upper_bound]]; lia).
  reflexivity.
Qed.

Lemma utf8_bytes_range cp :
  0 <= cp < 1114112 -> Forall (fun b => 0 <= b < 256) (utf8_bytes cp).
Proof.
  intros H. unfold utf8_bytes.
  pose proof (Z.mod_pos_bound cp 64 ltac:(lia)).
  pose proof (Z.mod_pos_bound (cp / 64) 64 ltac:(lia)).
  pose proof (Z.mod_pos_bound (cp / 4096) 64 ltac:(lia)).
  assert (0 <= cp / 64) by (apply Z.div_pos; lia).
  assert (0 <= cp / 4096) by (apply Z.div_pos; lia).
  assert (0 <= cp / 262144) by (apply Z.div_pos; lia).
  destruct (Z.ltb_spec cp 128); [repeat constructor; lia|].
  destruct (Z.ltb_spec cp 2048).
  { assert (cp / 64 < 32) by (apply Z.div_lt_upper_bound; lia). repeat constructor; lia. }
  destruct (Z.ltb_spec cp 65536).
  { assert (cp / 4096 < 16) by (apply Z.div_lt_upper_bound; lia). repeat constructor; lia. }
  assert (cp / 262144 < 5) by (apply Z.div_lt_upper_bound; lia). repeat constructor; lia.
Qed.

Lemma encode_cp_safe cp : 0 <= cp < 1114112 -> forallb url_safe (encode_cp cp) = true.
Proof.
  intros H. unfold encode_cp. generalize (utf8_bytes_range cp H). generalize (utf8_bytes cp).
  intros l F. induction F as [|b l Hb _ IH]; [reflexivity|].
  cbn [flat_map]. rewrite forallb_app, pct_safe, IH by exact Hb. reflexivity.
Qed.

Lemma surrogate_pair_range u v :
  is_high_surrogate u = true -> is_low_surrogate v = true ->
  0 <= (u - 55296) * 1024 + (v - 56320) + 65536 < 1114112.
Proof.
  unfold is_high_surrogate, is_low_surrogate. rewrite !andb_true_iff, !Z.leb_le. lia.
Qed.

Lemma unreserved_not_surrogate u :
  unreserved u = true -> is_high_surrogate u = false /\ is_low_surrogate u = false.
Proof.
  unfold unreserved, uri_mark, is_high_surrogate, is_low_surrogate. simpl.
  intros H. rewrite !orb_true_iff, !andb_true_iff, !Z.leb_le, !Z.eqb_eq in H.
  split; apply not_true_is_false; rewrite andb_true_iff, !Z.leb_le; lia.
Qed.

Lemma ok_map_iff {A B} (x : jsres A) (f : A -> B) :
  (exists t, match x with Ok a => Ok (f a) | Throw e => Throw e end = Ok t) <->
  exists a, x = Ok a.
Proof. destruct x as [a|e]; split; intros [t H]; try discriminate; eexists; reflexivity. Qed.

(** ** Properties *)

(** [encodeURIComponent] of a string of code units succeeds exactly
    when the string is well-formed UTF-16; a lone surrogate is the
    URIError "URI malformed". *)
Theorem encode_uri_component_total s :
  str_wf s -> (exists t, encode_uri_component s = Ok t) <-> utf16_wf s = true.
Proof.
  induction s as [s IH] using length_ind. intros Hs.
  destruct s as [|u r]; [split; intros; [reflexivity | eexists; reflexivity]|].
  apply Forall_cons_iff in Hs as [Hu Hr]. simpl. destruct (unreserved u) eqn:U.
  - destruct (unreserved_not_surrogate u U) as [-> ->]. simpl.
    etransitivity; [apply ok_map_iff | apply (IH r ltac:(simpl; lia) Hr)].
  - destruct (is_low_surrogate u) eqn:L.
    + destruct (is_high_surrogate u) eqn:Hh;
        [unfold is_high_surrogate, is_low_surrogate in *;
         rewrite andb_true_iff, !Z.leb_le in Hh, L; lia|].
      simpl. split; [intros [t Ht]; discriminate | discriminate].
    + destruct (is_high_surrogate u) eqn:Hh.
      * destruct r as [|v r']; [split; [intros [t Ht]; discriminate | discriminate]|].
        apply Forall_cons_iff in Hr as [Hv Hr']. destruct (is_low_surrogate v) eqn:Lv; simpl;
          [|split; [intros [t Ht]; discriminate | discriminate]].
        etransitivity; [apply ok_map_iff | apply (IH r' ltac:(simpl; lia) Hr')].
      * simpl. etransitivity; [apply ok_map_iff | apply (IH r ltac:(simpl; lia) Hr)].
Qed.

(** What [encodeURIComponent] produces consists of unreserved
    characters and [%] escapes with hexadecimal digits only, so the
    encoded query cannot add a parameter ([&], [=]) or a fragment ([#])
    to the URL. *)
Theorem encode_uri_component_safe s t :
  str_wf s -> encode_uri_component s = Ok t -> forallb url_safe t = true.
Proof.
  revert t. induction s as [s IH] using length_ind. intros t Hs.
  destruct s as [|u r]; simpl; [intros H; injection H as <-; reflexivity|].
  apply Forall_cons_iff in Hs as [Hu Hr]. pose proof (unit_ok_range u Hu) as Ru.
  destruct (unreserved u) eqn:U.
  - destruct (encode_uri_component r) as [t'|] eqn:E; intros H; injection H as <- || discriminate.
    simpl. rewrite (IH r ltac:(simpl; lia) t' Hr E). unfold url_safe. now rewrite U.
  - destruct (is_low_surrogate u); [discriminate|].
    destruct (is_high_surrogate u) eqn:Hh.
    + destruct r as [|v r']; [discriminate|]. apply Forall_cons_iff in Hr as [Hv Hr'].
      destruct (is_low_surrogate v) eqn:Lv; [|discriminate].
      destruct (encode_uri_component r') as [t'|] eqn:E; intros H; injection H as <- || discriminate.
      rewrite forallb_app, encode_cp_safe by (apply surrogate_pair_range; assumption).
      exact (IH r' ltac:(simpl; lia) t' Hr' E).
    + destruct (encode_uri_component r) as [t'|] eqn:E; intros H; injection H as <- || discriminate.
      rewrite forallb_app, encode_cp_safe by lia. exact (IH r ltac:(simpl; lia) t' Hr E).
Qed.

Lemma encode_uri_component_total_witness :
  str_wf (lit "created:>2025-11-02") /\
  ((exists t, encode_uri_component (lit "created:>2025-11-02") = Ok t) <->
   utf16_wf (lit "created:>2025-11-02") = true).
Proof.
  assert (W : str_wf (lit "created:>2025-11-02")) by (repeat constructor).
  split; [exact W | exact (encode_uri_component_total _ W)].
Defined.

Lemma encode_uri_component_safe_witness :
  str_wf (lit "created:>2025-11-02") /\
  encode_uri_component (lit "created:>2025-11-02") = Ok (lit "created%3A%3E2025-11-02") /\
  forallb url_safe (lit "created%3A%3E2025-11-02") = true.
Proof.
  assert (W : str_wf (lit "created:>2025-11-02")) by (repeat constructor).
  assert (E : encode_uri_component (lit "created:>2025-11-02") = Ok (lit "created%3A%3E2025-11-02"))
    by (vm_compute; reflexivity).
  split; [exact W | split; [exact E | exact (encode_uri_component_safe _ _ W E)]].
Defined.

End Uri.
