(* ===== verification/Providers.v ===== *)
(** * The data providers and their dispatch: step 2 of the pipeline

    Lines 50-117 and 151-166 of [src/src/app/api/run_workflow/route.js]:
    [fetchWeather] (weatherapi.com), [fetchGithubTrending] (GitHub
    search), [fetchNews] (NewsAPI), [capitalize], and the [try] block of
    [POST] that picks one of them by [action] and turns any exception into
    ["API error: <message>"].

    A provider resolves with a JavaScript value, not always a string: on a
    non-2xx status weather and news return [j?.message || `...`], which is
    whatever JSON value the error body holds under [message].  Every
    property read, call and template conversion follows [JsValue], so the
    providers are modelled on every JSON answer, errors included. *)

From Stdlib Require Import String.
From Stdlib Require Import ZArith List Lia Bool.
From S2P Require Import Prelude JsString Effects JsValue Platform RunStore World DateTime Uri.
Import World.
Import ListNotations.

Open Scope Z_scope.

Module Providers.

(** ** [capitalize(s = "")] *)
Definition capitalize (s : option jval) : jsres jstr :=
  match s with
  | None => Ok []
  | Some (JStr t) => Ok (to_upper (char_at t 0) ++ slice_from t 1)
  | Some JNull => Throw (read_error (lit "null") (lit "charAt"))
  | Some _ => Throw (not_a_function (lit "s.charAt"))
  end.

(** ** [fetchWeather(location)] *)

(** [process.env.DEFAULT_CITY || "Delhi,India"] *)
Definition default_city (e : env) : jstr :=
  match DEFAULT_CITY e with Some (c :: r) => c :: r | _ => lit "Delhi,India" end.

(** [location && location.trim() !== "" ? location.trim() : DEFAULT_CITY] *)
Definition resolve_city (e : env) (location : option jval) : jsres jstr :=
  if truthy location then
    match location with
    | Some (JStr s) => if is_nil (trim s) then Ok (default_city e) else Ok (trim s)
    | _ => Throw (not_a_function (lit "location.trim"))
    end
  else Ok (default_city e).

Definition WEATHER_KEY_MISSING : jstr :=
  lit "Weather data unavailable (OPENWEATHER_API_KEY missing).".

(** The URL as the template builds it: key and city are not encoded. *)
Definition weather_url (key city : jstr) : jstr :=
  lit "http://api.weatherapi.com/v1/current.json?key=" ++ key ++ lit "&q=" ++ city ++
  lit "&aqi=no".

(** [`${capitalize(desc)} in ${name}, ${temp}°C`] from the JSON answer. *)
Definition weather_text (j : jval) (city : jstr) : jsres jstr :=
  let cur := opt_get (Some j) (lit "current") in
  let desc := coalesce (opt_get (opt_get cur (lit "condition")) (lit "text"))
                       (Some (JStr (lit "Weather"))) in
  let temp := math_round (coalesce (opt_get cur (lit "temp_c")) (Some (JNum (NFin 0 0)))) in
  let name := coalesce (opt_get (Some j) (lit "name")) (Some (JStr city)) in
  match capitalize desc with
  | Ok c => Ok (c ++ lit " in " ++ tmpl name ++ lit ", " ++ num_str temp ++ [DEGREE_SIGN; 67])
  | Throw e => Throw e
  end.

(** ** [fetchGithubTrending()] *)

Definition github_url (qe : jstr) : jstr :=
  lit "https://api.github.com/search/repositories?q=" ++ qe ++
  lit "&sort=stars&order=desc&per_page=5".

Definition github_headers (e : env) : list (jstr * jstr) :=
  if env_set (GITHUB_TOKEN e)
  then [(lit "Authorization", lit "Bearer " ++ tmpl (env_val (GITHUB_TOKEN e)))] else [].

(** [`${it.full_name} (${it.stargazers_count}★)`] *)
Definition repo_line (it : jval) : jsres jstr :=
  match read (Some it) (lit "full_name") with
  | Throw e => Throw e
  | Ok fn =>
      match read (Some it) (lit "stargazers_count") with
      | Throw e => Throw e
      | Ok sc => Ok (tmpl fn ++ lit " (" ++ tmpl sc ++ [BLACK_STAR; 41])
      end
  end.

Fixpoint repo_lines (l : list jval) : jsres (list jstr) :=
  match l with
  | [] => Ok []
  | it :: r =>
      match repo_line it with
      | Throw e => Throw e
      | Ok x => match repo_lines r with Ok xs => Ok (x :: xs) | Throw e => Throw e end
      end
  end.

Definition NO_TRENDING : jstr := lit "No trending repos found.".

(** From [const items = j.items || []] to the returned string. *)
Definition trending_text (j : jval) : jsres jstr :=
  match read (Some j) (lit "items") with
  | Throw e => Throw e
  | Ok raw =>
      let items := or_else raw (Some (JArr [])) in
      match read items (lit "length") with
      | Throw e => Throw e
      | Ok len =>
          if negb (truthy len) then Ok NO_TRENDING
          else match items with
               | Some (JArr l) =>
                   match repo_lines (firstn 3 l) with
                   | Ok top => Ok (lit "Trending: " ++ join (lit ", ") top)
                   | Throw e => Throw e
                   end
               | Some (JStr _) => Throw (not_a_function (lit "items.slice(...).map"))
               | _ => Throw (not_a_function (lit "items.slice"))
               end
      end
  end.

(** ** [fetchNews()] *)

Definition NEWS_KEY_MISSING : jstr := lit "News API key missing".
Definition NO_HEADLINES : jstr := lit "No top headlines found".

Definition news_url (key : jstr) : jstr :=
  lit "https://newsapi.org/v2/top-headlines?country=us&pageSize=3&apiKey=" ++ key.

(** From [const articles = j.articles || []] to the returned string. *)
Definition news_text (j : jval) : jsres jstr :=
  match read (Some j) (lit "articles") with
  | Throw e => Throw e
  | Ok raw =>
      let articles := or_else raw (Some (JArr [])) in
      match read articles (lit "length") with
      | Throw e => Throw e
      | Ok len =>
          if negb (truthy len) then Ok NO_HEADLINES
          else match read articles (lit "0") with
               | Throw e => Throw e
               | Ok top =>
                   match read top (lit "title") with
                   | Throw e => Throw e
                   | Ok title =>
                       match read top (lit "source") with
                       | Throw e => Throw e
                       | Ok src =>
                           Ok (tmpl title ++ [SPACE; EM_DASH; SPACE] ++
                               tmpl (coalesce (opt_get src (lit "name"))
                                              (Some (JStr (lit "source")))))
                       end
                   end
               end
      end
  end.

(** [j?.message || fallback] on an error answer. *)
Definition error_message (j : jval) (fallback : jstr) : option jval :=
  or_else (opt_get (Some j) (lit "message")) (Some (JStr fallback)).

(** ** The fetchers *)

Section WithPlatform.
Context {S : Type} `{Fetch S} `{Clock S}.
Local Open Scope monad_scope.

Definition fetchWeather (e : env) (location : option jval) : M S (option jval) :=
  city <- lift (resolve_city e location) ;;
  match WEATHER_API_KEY e with
  | Some ((_ :: _) as key) =>
      res <- fetch (get_request (weather_url key city) []) ;;
      if negb (res_ok res) then
        j <- recover (res_json res) (JObj []) ;;
        ret (error_message j (lit "Weather fetch failed with status " ++
                              num_str (NFin (rs_status res) 0)))
      else
        j <- res_json res ;;
        t <- lift (weather_text j city) ;;
        ret (Some (JStr t))
  | _ => ret (Some (JStr WEATHER_KEY_MISSING))
  end.

Definition fetchGithubTrending (e : env) : M S (option jval) :=
  now <- date_now ;;
  since <- lift (DateTime.github_since now (TZ e)) ;;
  qe <- lift (Uri.encode_uri_component (lit "created:>" ++ since)) ;;
  res <- fetch (get_request (github_url qe) (github_headers e)) ;;
  if negb (res_ok res) then
    text <- recover (res_text res) [] ;;
    ret (Some (JStr (lit "GitHub fetch failed: " ++ num_str (NFin (rs_status res) 0) ++
                     lit " " ++ text)))
  else
    j <- res_json res ;;
    t <- lift (trending_text j) ;;
    ret (Some (JStr t)).

Definition fetchNews (e : env) : M S (option jval) :=
  match NEWSAPI_KEY e with
  | Some ((_ :: _) as key) =>
      res <- fetch (get_request (news_url key) []) ;;
      if negb (res_ok res) then
        j <- recover (res_json res) (JObj []) ;;
        ret (error_message j (lit "News fetch failed: " ++ num_str (NFin (rs_status res) 0)))
      else
        j <- res_json res ;;
        t <- lift (news_text j) ;;
        ret (Some (JStr t))
  | _ => ret (Some (JStr NEWS_KEY_MISSING))
  end.

(** [Unknown action "${action}". Supported: weather, github, news.] *)
Definition unknown_action (action : option jval) : jstr :=
  lit "Unknown action " ++ [34] ++ tmpl action ++ [34] ++
  lit ". Supported: weather, github, news.".

(** Step 2 of [POST]: the dispatch on [action] inside its [try], the
    [catch] rendering ["API error: <message>"]. *)
Definition fetch_api_response (e : env) (action location : option jval)
  : M S (option jval) :=
  catch
    (if is_str action (lit "weather") then fetchWeather e location
     else if is_str action (lit "github") then fetchGithubTrending e
     else if is_str action (lit "news") then fetchNews e
     else ret (Some (JStr (unknown_action action))))
    (fun msg => ret (Some (JStr (lit "API error: " ++ msg)))).
End WithPlatform.

(** A weather key, and weatherapi.com's answer to an unknown city. *)
Definition env_weather : env :=
  mkEnv None (Some (lit "true")) None (Some (lit "k1")) None None (fixed_zone 0).

Definition weatherapi_error : response :=
  mkResponse 400 (Ok (JObj [(lit "error", JObj [(lit "code", JNum (NFin 1006 0));
                                              (lit "message", JStr (lit "No matching location found."))])]))
             (Ok []).

Definition world_weather400 : world :=
  mkWorld (w_runs world0) (w_fail world0) (fun _ => Ok weatherapi_error) (w_now world0) [].

(** Provider answers used by the examples. *)

Definition trending_answer : jval :=
  JObj [(lit "items", JArr [JObj [(lit "full_name", JStr (lit "a/b"));
                                  (lit "stargazers_count", JNum (NFin 12 0))]])].

Definition news_answer : jval :=
  JObj [(lit "articles", JArr [JObj [(lit "title", JStr (lit "Rain"));
                                     (lit "source", JObj [(lit "name", JStr (lit "AP"))])];
                               JObj [(lit "title", JStr (lit "Sun"))]])].

(** ** Lemmas *)

Lemma capitalize_str t : capitalize (Some (JStr t)) = Ok (to_upper (firstn 1 t) ++ skipn 1 t).
Proof. simpl. now rewrite char_at_0, slice_from_1. Qed.

Lemma resolve_city_str e s :
  resolve_city e (Some (JStr s)) = Ok (if is_nil (trim s) then default_city e else trim s).
Proof. unfold resolve_city. destruct s; simpl; [reflexivity|]. now destruct (is_nil _). Qed.

(** A falsy or string location resolves to a city. *)
Lemma resolve_city_ok e location :
  (truthy location = false \/ exists s, location = Some (JStr s)) ->
  exists c, resolve_city e location = Ok c.
Proof.
  intros [Hf | [s ->]]; [unfold resolve_city; rewrite Hf; eauto|].
  rewrite resolve_city_str. eauto.
Qed.

(** Step 2 of [POST] for a weather request without a key answers the
    unavailable text and leaves the state as it was. *)
Lemma fetch_api_weather_no_key {S} `{Fetch S} `{Clock S} e location (st : S) :
  env_set (WEATHER_API_KEY e) = false ->
  (truthy location = false \/ exists s, location = Some (JStr s)) ->
  fetch_api_response e (Some (JStr (lit "weather"))) location st =
    (Ok (Some (JStr WEATHER_KEY_MISSING)), st).
Proof.
  intros Hk Hl. unfold fetch_api_response, catch, fetchWeather, bind, lift. cbn [is_str].
  destruct (resolve_city_ok e location Hl) as [c ->].
  destruct (WEATHER_API_KEY e) as [[|k key]|]; try reflexivity. discriminate.
Qed.

(** ** Properties *)

(** [capitalize] on a string upper-cases its first code unit and
    keeps the rest ([to_upper] is exact on Latin-1). *)
Theorem capitalize_spec t :
  capitalize (Some (JStr t)) =
    Ok (match t with [] => [] | c :: r => upper_unit c ++ r end).
Proof. rewrite capitalize_str. destruct t; simpl; [reflexivity|]. now rewrite app_nil_r. Qed.

(** C18: without a weather key, [fetchWeather] answers the fixed
    "unavailable" text without any request and without changing the
    state, for an absent or falsy location and for every string
    location. *)
Theorem fetchWeather_no_key {S} `{Fetch S} `{Clock S} e location (st : S) :
  env_set (WEATHER_API_KEY e) = false ->
  (truthy location = false \/ exists s, location = Some (JStr s)) ->
  fetchWeather e location st = (Ok (Some (JStr WEATHER_KEY_MISSING)), st).
Proof.
  intros Hk Hl. unfold fetchWeather, bind, lift.
  destruct (resolve_city_ok e location Hl) as [c ->].
  destruct (WEATHER_API_KEY e) as [[|k key]|]; try reflexivity. discriminate.
Qed.

Lemma fetchWeather_no_key_witness :
  env_set (WEATHER_API_KEY env_mock) = false /\
  fetchWeather env_mock (Some (JStr (lit "Paris"))) world0 =
    (Ok (Some (JStr WEATHER_KEY_MISSING)), world0).
Proof. split; [reflexivity | apply fetchWeather_no_key; [reflexivity | right; eauto]]. Defined.

(** C28: a location that is truthy but not a string (a number, [true],
    an array or an object) makes [location.trim()] throw before the key
    is checked, so step 2 answers ["API error: location.trim is not a
    function"] whether or not a key is configured. *)
Theorem weather_nonstring_location {S} `{Fetch S} `{Clock S} e location (st : S) :
  truthy location = true -> (forall s, location <> Some (JStr s)) ->
  fetch_api_response e (Some (JStr (lit "weather"))) location st =
    (Ok (Some (JStr (lit "API error: location.trim is not a function"))), st).
Proof.
  intros Ht Hs. unfold fetch_api_response, catch. simpl.
  unfold fetchWeather, bind, lift, resolve_city. rewrite Ht.
  destruct location as [[| b | n | s | l | fs]|]; try discriminate;
    try (now destruct (Hs s eq_refl)); reflexivity.
Qed.

Lemma weather_nonstring_location_witness :
  truthy (Some (JNum (NFin 5 0))) = true /\
  fetch_api_response env_remote (Some (JStr (lit "weather"))) (Some (JNum (NFin 5 0))) world0 =
    (Ok (Some (JStr (lit "API error: location.trim is not a function"))), world0).
Proof.
  split; [reflexivity|].
  apply weather_nonstring_location; [reflexivity | intros s' E; discriminate].
Defined.

(** C29: on a non-2xx weather answer whose body has no top-level
    [message] (weatherapi.com's [{"error": {"code", "message"}}], which
    the URL targets, or a body that is not JSON), the provider's own
    message is never shown: [j?.message] reads the top level, so the
    answer is the generic status text, for every key, location and
    status. *)
Theorem weather_error_body_hidden {S} `{Fetch S} `{Clock S} e location key city (st st' : S) res :
  WEATHER_API_KEY e = Some key -> key <> [] -> resolve_city e location = Ok city ->
  fetch (get_request (weather_url key city) []) st = (Ok res, st') -> res_ok res = false ->
  (exists fs, rs_json res = Ok (JObj fs) /\ assoc_last (lit "message") fs = None) \/
  (exists m, rs_json res = Throw m) ->
  fetchWeather e location st =
    (Ok (Some (JStr (lit "Weather fetch failed with status " ++ num_str (NFin (rs_status res) 0)))), st').
Proof.
  intros Hk Hne Hc Hf Ho Hb. unfold fetchWeather, bind, lift. rewrite Hc, Hk.
  destruct key as [|k key]; [contradiction|]. rewrite Hf, Ho.
  unfold recover, catch, res_json, lift, error_message.
  destruct Hb as [[fs [-> Hm]] | [m ->]]; [|reflexivity].
  unfold opt_get, get. cbn beta iota. rewrite Hm. reflexivity.
Qed.

Lemma weather_error_body_hidden_witness :
  let rq := get_request (weather_url (lit "k1") (lit "Paris")) [] in
  WEATHER_API_KEY env_weather = Some (lit "k1") /\
  resolve_city env_weather (Some (JStr (lit "Paris"))) = Ok (lit "Paris") /\
  fetch rq world_weather400 = (Ok weatherapi_error, snd (fetch rq world_weather400)) /\
  fetchWeather env_weather (Some (JStr (lit "Paris"))) world_weather400 =
    (Ok (Some (JStr (lit "Weather fetch failed with status 400"))), snd (fetch rq world_weather400)).
Proof.
  cbv zeta. split; [reflexivity | split; [reflexivity | split; [reflexivity|]]].
  exact (weather_error_body_hidden env_weather (Some (JStr (lit "Paris"))) (lit "k1") (lit "Paris") world_weather400 _ weatherapi_error
           eq_refl ltac:(discriminate) eq_refl eq_refl eq_refl
           (or_introl (ex_intro _ _ (conj eq_refl eq_refl)))).
Defined.

(** When [items] is an array, the trending text lists its first
    three entries (fewer if there are fewer), each as
    ["full_name (stars★)"], joined by [", "]; an empty array gives
    ["No trending repos found."]. *)
Theorem trending_text_items j l :
  read (Some j) (lit "items") = Ok (Some (JArr l)) ->
  trending_text j =
    match l with
    | [] => Ok NO_TRENDING
    | _ => match repo_lines (firstn 3 l) with
           | Ok top => Ok (lit "Trending: " ++ join (lit ", ") top)
           | Throw e => Throw e
           end
    end.
Proof. intros H. unfold trending_text. rewrite H. destruct l; reflexivity. Qed.

Lemma trending_text_items_witness :
  trending_text trending_answer =
    Ok (lit "Trending: a/b (12" ++ [BLACK_STAR; 41]).
Proof.
  rewrite (trending_text_items trending_answer
             [JObj [(lit "full_name", JStr (lit "a/b"));
                    (lit "stargazers_count", JNum (NFin 12 0))]]); reflexivity.
Defined.

Lemma repo_lines_length l top : repo_lines l = Ok top -> length top = length l.
Proof.
  revert top. induction l as [|it r IH]; intros top; simpl; [intros H; now injection H as <-|].
  destruct (repo_line it); [|discriminate].
  destruct (repo_lines r) eqn:E; [|discriminate].
  intros H. injection H as <-. simpl. f_equal. now apply IH.
Qed.

(** without [items] (or with [null], [false], [""] or [[]] there)
    the trending text is ["No trending repos found."]. *)
Theorem trending_text_empty j :
  j <> JNull ->
  (get j (lit "items") = None \/ get j (lit "items") = Some JNull \/
   get j (lit "items") = Some (JBool false) \/ get j (lit "items") = Some (JStr []) \/
   get j (lit "items") = Some (JArr [])) ->
  trending_text j = Ok NO_TRENDING.
Proof.
  intros Hj Hi. unfold trending_text.
  assert (R : read (Some j) (lit "items") = Ok (get j (lit "items")))
    by (destruct j; [congruence | reflexivity ..]).
  rewrite R. destruct Hi as [-> | [-> | [-> | [-> | ->]]]]; reflexivity.
Qed.

Lemma trending_text_empty_witness :
  JObj [] <> JNull /\ trending_text (JObj []) = Ok NO_TRENDING.
Proof. split; [discriminate | apply trending_text_empty; [discriminate | left; reflexivity]]. Defined.

(** Without a news key the news fetcher answers ["News API key
    missing"] without any request and without changing the state. *)
Theorem fetchNews_no_key {S} `{Fetch S} `{Clock S} e (st : S) :
  env_set (NEWSAPI_KEY e) = false ->
  fetchNews e st = (Ok (Some (JStr NEWS_KEY_MISSING)), st).
Proof.
  intros Hk. unfold fetchNews. destruct (NEWSAPI_KEY e) as [[|k key]|];
    [reflexivity | discriminate | reflexivity].
Qed.

Lemma fetchNews_no_key_witness :
  env_set (NEWSAPI_KEY env_mock) = false /\
  fetchNews env_mock world0 = (Ok (Some (JStr NEWS_KEY_MISSING)), world0).
Proof. split; [reflexivity | apply fetchNews_no_key; reflexivity]. Defined.

(** C19: when [articles] is an array, the news text reports only its first
    article, as ["title — source name"] with the source defaulting to
    ["source"]; an empty array gives ["No top headlines found"], a [null]
    first article a TypeError. *)
Theorem news_text_articles j l :
  read (Some j) (lit "articles") = Ok (Some (JArr l)) ->
  news_text j =
    match l with
    | [] => Ok NO_HEADLINES
    | JNull :: _ => Throw (read_error (lit "null") (lit "title"))
    | a :: _ =>
        Ok (tmpl (get a (lit "title")) ++ [SPACE; EM_DASH; SPACE] ++
            tmpl (coalesce (opt_get (get a (lit "source")) (lit "name"))
                           (Some (JStr (lit "source")))))
    end.
Proof. intros Hj. unfold news_text. rewrite Hj. destruct l as [|[] rest]; reflexivity. Qed.

Lemma news_text_articles_witness :
  news_text news_answer = Ok (lit "Rain" ++ [SPACE; EM_DASH; SPACE] ++ lit "AP").
Proof.
  rewrite (news_text_articles news_answer
             [JObj [(lit "title", JStr (lit "Rain"));
                    (lit "source", JObj [(lit "name", JStr (lit "AP"))])];
              JObj [(lit "title", JStr (lit "Sun"))]]); reflexivity.
Defined.

(** step 2 never throws: whatever the action, the location, the
    environment and the answers of the network, the dispatch resolves
    with a value (a provider's exception becomes ["API error: ..."]). *)
Theorem fetch_api_response_total {S} `{Fetch S} `{Clock S} e action location :
  total (fetch_api_response e action location).
Proof.
  unfold fetch_api_response. apply catch_total. intros msg st. eexists _, _. reflexivity.
Qed.

(** An action other than the three strings is answered with
    [Unknown action "<action>". Supported: weather, github, news.]
    without any request. *)
Theorem unknown_action_answer {S} `{Fetch S} `{Clock S} e action location (st : S) :
  is_str action (lit "weather") = false -> is_str action (lit "github") = false ->
  is_str action (lit "news") = false ->
  fetch_api_response e action location st = (Ok (Some (JStr (unknown_action action))), st).
Proof. intros H1 H2 H3. unfold fetch_api_response, catch. now rewrite H1, H2, H3. Qed.

Lemma unknown_action_answer_witness :
  is_str (Some (JStr (lit "translate"))) (lit "weather") = false /\
  fetch_api_response env_mock (Some (JStr (lit "translate"))) None world0 =
    (Ok (Some (JStr (unknown_action (Some (JStr (lit "translate")))))), world0).
Proof. split; [reflexivity | apply unknown_action_answer; reflexivity]. Defined.

End Providers.
