(* ===== verification/Workflow.v ===== *)
(** * The orchestrator: [POST /api/run_workflow]

    Lines 119-188 of [src/src/app/api/run_workflow/route.js].  The
    handler reads the JSON body, rejects a request without a truthy
    [prompt] or [action] (400), connects to the database, creates the
    pending run, asks the generator (its exception becomes
    ["AI error: <message>"]), asks the provider (step 2 of [Providers]),
    composes the answer ([Composer.combine]), updates the run and answers
    200 with the three texts.  Any other exception is answered 500 with
    [err.message || "Server error"].

    [POST] is written against the interfaces [Fetch], [Clock] and
    [RunStore]; its theorems use the laws of [RunStoreLaws] and
    [PlatformFrame] only. *)

From Stdlib Require Import String.
From Stdlib Require Import ZArith List Lia Bool.
From stdpp Require Import gmap.
From S2P Require Import Prelude JsString Effects JsValue Platform Composer Generator.
From S2P Require Import DateTime Uri Providers RunStore World.
Import RunModel World.

Open Scope Z_scope.

Module Workflow.

(** [NextResponse.json(body, { status })] *)
Record http_response : Type := mkResponse {
  status : Z;
  body : jval
}.

Definition error_response (code : Z) (msg : jstr) : http_response :=
  mkResponse code (JObj [(lit "error", JStr msg)]).

Definition MISSING_FIELDS : jstr := lit "prompt and action are required".

(** [err.message || "Server error"] *)
Definition server_error (msg : jstr) : http_response :=
  error_response 500 (if is_nil msg then lit "Server error" else msg).

Definition ok_response (a b f : jstr) : http_response :=
  mkResponse 200 (JObj [(lit "ai_response", JStr a); (lit "api_response", JStr b);
                        (lit "final_result", JStr f)]).

(** [const { prompt, action, location } = body || {}]: the three
    properties of the body, [undefined] when the body is falsy. *)
Definition fields (body : jval) : option jval * option jval * option jval :=
  let b := or_else (Some body) (Some (JObj [])) in
  (opt_get b (lit "prompt"), opt_get b (lit "action"), opt_get b (lit "location")).

Section WithPlatform.
Context {S : Type} `{Fetch S} `{Clock S} `{RunStore S}.
Local Open Scope monad_scope.

(** The part of the handler inside [try], after validation. *)
Definition pipeline (e : env) (prompt action location : option jval) : M S http_response :=
  db_connect ;;
  now <- date_now ;;
  d <- lift (build_draft prompt action now) ;;
  i <- run_create d ;;
  ai_response <- catch (Generator.callOpenAI e prompt)
                       (fun msg => ret (lit "AI error: " ++ msg)) ;;
  api_response <- Providers.fetch_api_response e action location ;;
  r <- lift (Composer.combine ai_response api_response action) ;;
  let '(ai_trim, api_trim, final) := r in
  run_update i ai_trim api_trim final ;;
  ret (ok_response ai_trim api_trim final).

Definition POST (e : env) (req_body : jsres jval) : M S http_response :=
  catch
    (body <- lift req_body ;;
     let '(prompt, action, location) := fields body in
     if negb (truthy prompt) || negb (truthy action)
     then ret (error_response 400 MISSING_FIELDS)
     else pipeline e prompt action location)
    (fun msg => ret (server_error msg)).
End WithPlatform.

(** ** A concrete configuration for the scenarios of the specification *)

Definition body_paris : jval :=
  JObj [(lit "prompt", JStr (lit "today")); (lit "action", JStr (lit "weather"));
        (lit "location", JStr (lit "Paris"))].

Definition paris_answer : http_response :=
  ok_response (lit "Quick thought: today") Providers.WEATHER_KEY_MISSING
    (lit "Quick thought: today Weather data unavailable (OPENWEATHER_API_KEY missing). #weather").

Definition body_no_prompt : jval := JObj [(lit "action", JStr (lit "weather"))].

(** What a run of the pipeline does to the collection [m0]: nothing
    (it threw before [create] succeeded), one pending run (it threw
    after), or one finalised run whose fields are the answer. *)
Definition pipeline_outcome (m0 : gmap N WorkflowRun) (action : option jval)
  (r : jsres http_response) (m : gmap N WorkflowRun) : Prop :=
  (m = m0 /\ exists e, r = Throw e) \/
  (exists i d, m0 !! i = None /\ m = <[i := pending d i]> m0 /\ exists e, r = Throw e) \/
  (exists i d a b f ai api, m0 !! i = None /\
     m = <[i := finalize a b f (pending d i)]> m0 /\ r = Ok (ok_response a b f) /\
     Composer.combine ai api action = Ok (a, b, f)).

(** ** Frame lemmas: the generator and the providers leave the collection alone *)

Ltac solve_frame :=
  repeat (intros;
          match goal with
          | |- frame (match ?x with _ => _ end) => destruct x
          | |- frame (if ?b then _ else _) => destruct b
          | |- frame (fetch _) => apply fetch_frame
          | |- frame date_now => apply clock_frame
          | |- frame (bind _ _) => apply frame_bind
          | |- frame (catch _ _) => apply frame_catch
          | |- frame (recover _ _) => apply frame_catch
          | |- frame _ => solve [auto with upthrust]
          | |- frame _ => unfold Generator.callOpenAI, Providers.fetchWeather,
                            Providers.fetchGithubTrending, Providers.fetchNews,
                            Providers.fetch_api_response, res_json, res_text, recover
          end).

Section Frames.
Context {S : Type} `{RunStoreLaws S} `{Fetch S} `{Clock S} `{!PlatformFrame S}.

Lemma callOpenAI_frame e p : frame (catch (Generator.callOpenAI e p)
                                          (fun msg => ret (lit "AI error: " ++ msg))).
Proof. solve_frame. Qed.

Lemma fetch_api_response_frame e a l : frame (Providers.fetch_api_response e a l).
Proof. solve_frame. Qed.
End Frames.

(** ** Stepping through the handler with the store laws *)

Section Steps.
Context {S : Type} `{RunStoreLaws S}.
Variable P : jsres http_response * S -> Prop.

Lemma step_frame {A} (c : M S A) (k : A -> M S http_response) s :
  frame c -> store_wf s ->
  (forall e s1, store_runs s1 = store_runs s -> store_wf s1 -> P (Throw e, s1)) ->
  (forall a s1, store_runs s1 = store_runs s -> store_wf s1 -> P (k a s1)) ->
  P (bind c k s).
Proof.
  intros Hc Hs Ht Hk. destruct (Hc s Hs) as [E W]. unfold bind.
  destruct (c s) as [[a|e] s1]; simpl in *; auto.
Qed.

Lemma step_create d (k : N -> M S http_response) s :
  store_wf s ->
  (forall e s1, store_runs s1 = store_runs s -> store_wf s1 -> P (Throw e, s1)) ->
  (forall i s1, store_runs s !! i = None ->
     store_runs s1 = <[i := pending d i]> (store_runs s) -> store_wf s1 -> P (k i s1)) ->
  P (bind (run_create d) k s).
Proof.
  intros Hs Ht Hk. destruct (create_law d s Hs) as [W L]. unfold bind.
  destruct (run_create d s) as [[i|e] s1]; simpl in *; [destruct L|]; auto.
Qed.

Lemma step_update i a b f (k : unit -> M S http_response) s :
  store_wf s ->
  (forall e s1, store_runs s1 = store_runs s -> store_wf s1 -> P (Throw e, s1)) ->
  (forall s1, store_runs s1 = alter (finalize a b f) i (store_runs s) -> store_wf s1 ->
     P (k tt s1)) ->
  P (bind (run_update i a b f) k s).
Proof.
  intros Hs Ht Hk. destruct (update_law i a b f s Hs) as [W L]. unfold bind.
  destruct (run_update i a b f s) as [[[]|e] s1]; simpl in *; auto.
Qed.

Lemma connect_frame : frame db_connect.
Proof. intros s Hs. apply connect_law, Hs. Qed.
End Steps.

Lemma alter_insert_pending (m : gmap N WorkflowRun) i d a b f :
  alter (finalize a b f) i (<[i := pending d i]> m) = <[i := finalize a b f (pending d i)]> m.
Proof. rewrite alter_insert. now rewrite decide_True. Qed.

Lemma pipeline_spec {S} `{RunStoreLaws S} `{Fetch S} `{Clock S} `{!PlatformFrame S}
  e p a l (s : S) :
  store_wf s ->
  let '(r, s') := pipeline e p a l s in
  store_wf s' /\ pipeline_outcome (store_runs s) a r (store_runs s').
Proof.
  intros Hs.
  set (P := fun rs : jsres http_response * S =>
              let '(r, s') := rs in
              store_wf s' /\ pipeline_outcome (store_runs s) a r (store_runs s')).
  change (P (pipeline e p a l s)). unfold pipeline.
  assert (Hthrow : forall e s1, store_runs s1 = store_runs s -> store_wf s1 -> P (Throw e, s1))
    by (intros ? ? E W; split; [exact W | left; split; [exact E | eauto]]).
  apply step_frame; [apply connect_frame | exact Hs | exact Hthrow |].
  intros [] s1 E1 W1.
  apply step_frame; [apply clock_frame | exact W1 | intros; apply Hthrow; [congruence | assumption] |].
  intros now s2 E2 W2. unfold bind at 1, lift at 1.
  destruct (build_draft p a now) as [d|err]; [|apply Hthrow; [congruence | assumption]].
  apply step_create; [exact W2 | intros; apply Hthrow; [congruence | assumption] |].
  intros i s3 Hi E3 W3. rewrite E2, E1 in Hi, E3.
  assert (Hpend : forall e s4, store_runs s4 = store_runs s3 -> store_wf s4 -> P (Throw e, s4))
    by (intros ? ? E W; split; [exact W | right; left; exists i, d; rewrite E, E3;
        repeat split; eauto]).
  apply step_frame; [apply callOpenAI_frame | exact W3 | exact Hpend |].
  intros ai s4 E4 W4.
  apply step_frame; [apply fetch_api_response_frame | exact W4 | intros; apply Hpend; [congruence | assumption] |].
  intros api s5 E5 W5. unfold bind at 1, lift at 1.
  destruct (Composer.combine ai api a) as [[[ta tb] tf]|err] eqn:Hc;
    [|apply Hpend; [congruence | exact W5]].
  apply step_update; [exact W5 | intros; apply Hpend; [congruence | assumption] |].
  intros s6 E6 W6. split; [exact W6|]. right; right.
  exists i, d, ta, tb, tf, ai, api. rewrite E6, E5, E4, E3, alter_insert_pending.
  repeat split; auto.
Qed.

(** When the generator step and the provider step answer [ai] and [api]
    without touching the state, an answer of the pipeline is the 200 of
    the composition of [ai] and [api]. *)
Lemma pipeline_texts {S} `{Fetch S} `{Clock S} `{RunStore S} e p a l ai api (s s' : S) resp :
  (forall s0, catch (Generator.callOpenAI e p) (fun msg => ret (lit "AI error: " ++ msg)) s0 = (Ok ai, s0)) ->
  (forall s0, Providers.fetch_api_response e a l s0 = (Ok api, s0)) ->
  pipeline e p a l s = (Ok resp, s') ->
  exists ta tb tf, Composer.combine ai api a = Ok (ta, tb, tf) /\ resp = ok_response ta tb tf.
Proof.
  intros Hai Hapi. unfold pipeline, bind, lift.
  destruct (db_connect s) as [[[]|m] s1]; [|discriminate].
  destruct (date_now s1) as [[now|m] s2]; [|discriminate].
  destruct (build_draft p a now) as [d|m]; [|discriminate].
  destruct (run_create d s2) as [[i|m] s3]; [|discriminate].
  rewrite Hai, Hapi.
  destruct (Composer.combine ai api a) as [[[ta tb] tf]|m]; [|discriminate].
  destruct (run_update i ta tb tf s3) as [[[]|m] s4]; [|discriminate].
  intros E. injection E as <- _. eauto.
Qed.

(** ** Properties *)

(** C2: a request whose [prompt] or [action] is missing or falsy is
    answered 400 ["prompt and action are required"] before anything
    else happens: the state, and so the collection, is exactly as it
    was (no run is created). *)
Theorem POST_missing_fields {S} `{Fetch S} `{Clock S} `{RunStore S} e body (s : S) :
  (let '(p, a, _) := fields body in truthy p = false \/ truthy a = false) ->
  POST e (Ok body) s = (Ok (error_response 400 MISSING_FIELDS), s).
Proof.
  unfold POST, catch, bind, lift. destruct (fields body) as [[p a] l].
  intros [Hp | Ha]; [rewrite Hp | rewrite Ha, orb_true_r]; reflexivity.
Qed.

Lemma POST_missing_fields_witness :
  (let '(p, a, _) := fields body_no_prompt in truthy p = false \/ truthy a = false) /\
  POST env_mock (Ok body_no_prompt) world0 = (Ok (error_response 400 MISSING_FIELDS), world0).
Proof. split; [left; reflexivity | apply POST_missing_fields; left; reflexivity]. Defined.

(** C26: a body that is not JSON makes [req.json()] reject inside the
    [try]: the answer is 500 with the parser's message (["Server error"]
    if it is empty), not the 400 of a missing field, and nothing else
    happens. *)
Theorem POST_bad_json {S} `{Fetch S} `{Clock S} `{RunStore S} e msg (s : S) :
  POST e (Throw msg) s =
    (Ok (error_response 500 (if is_nil msg then lit "Server error" else msg)), s).
Proof. reflexivity. Qed.

(** C1: from a well-formed store, [POST] always answers (it never
    rejects), and afterwards the collection is either unchanged (answer
    400 or 500), or holds exactly one new run, under an id that was
    free, still pending with its three response fields empty (answer
    500: a failure after [create]), or finalised with exactly the three
    texts of the 200 answer; no other run is changed or removed. *)
Theorem POST_store {S} `{RunStoreLaws S} `{Fetch S} `{Clock S} `{!PlatformFrame S}
  e req (s : S) :
  store_wf s ->
  exists resp s', POST e req s = (Ok resp, s') /\ store_wf s' /\
    ((store_runs s' = store_runs s /\ (status resp = 400 \/ status resp = 500)) \/
     (exists i d, store_runs s !! i = None /\
        store_runs s' = <[i := pending d i]> (store_runs s) /\ status resp = 500) \/
     (exists i d a b f, store_runs s !! i = None /\
        store_runs s' = <[i := finalize a b f (pending d i)]> (store_runs s) /\
        resp = ok_response a b f)).
Proof.
  intros Hs. unfold POST, catch, bind at 1, lift at 1.
  destruct req as [body|msg]; [|eexists _, _; split; [reflexivity|]; split; [exact Hs|];
    left; split; [reflexivity | now right]].
  destruct (fields body) as [[p a] l].
  destruct (negb (truthy p) || negb (truthy a)).
  { eexists _, _. split; [reflexivity|]. split; [exact Hs|]. left. split; [reflexivity | now left]. }
  pose proof (pipeline_spec e p a l s Hs) as Hp.
  destruct (pipeline e p a l s) as [r s'].
  destruct Hp as [W [[E [m ->]] | [[i [d [Hi [E [m ->]]]]] | [i [d [ta [tb [tf [ai [api [Hi [E [-> _]]]]]]]]]]]]];
    eexists _, _; (split; [reflexivity | split; [exact W|]]).
  - left. split; [exact E | now right].
  - right; left. exists i, d. repeat split; assumption.
  - right; right. exists i, d, ta, tb, tf. repeat split; assumption.
Qed.

Lemma POST_store_witness :
  store_wf world0 /\
  exists resp s', POST env_mock (Ok body_paris) world0 = (Ok resp, s') /\ store_wf s' /\
    ((store_runs s' = store_runs world0 /\ (status resp = 400 \/ status resp = 500)) \/
     (exists i d, store_runs world0 !! i = None /\
        store_runs s' = <[i := pending d i]> (store_runs world0) /\ status resp = 500) \/
     (exists i d a b f, store_runs world0 !! i = None /\
        store_runs s' = <[i := finalize a b f (pending d i)]> (store_runs world0) /\
        resp = ok_response a b f)).
Proof. split; [vm_compute; exact (map_Forall_empty _) | apply POST_store; vm_compute;
  exact (map_Forall_empty _)]. Defined.

(** C3: a 200 answer of [POST] carries a final message that ends with
    the hashtag of the request's action and has no white space at
    either end. *)
Theorem POST_ok_hashtag {S} `{RunStoreLaws S} `{Fetch S} `{Clock S} `{!PlatformFrame S}
  e body (s s' : S) resp :
  store_wf s -> POST e (Ok body) s = (Ok resp, s') -> status resp = 200 ->
  let '(_, a, _) := fields body in
  exists ta tb f, resp = ok_response ta tb f /\
    (exists pre, f = pre ++ Composer.hashtag a) /\ trim f = f.
Proof.
  intros Hs. unfold POST, catch, bind at 1, lift at 1.
  destruct (fields body) as [[p a] l].
  destruct (negb (truthy p) || negb (truthy a)); [intros E; injection E as <- _; discriminate|].
  pose proof (pipeline_spec e p a l s Hs) as Hp.
  destruct (pipeline e p a l s) as [r s1].
  destruct Hp as [W [[E [m ->]] | [[i [d [Hi [E [m ->]]]]] | [i [d [ta [tb [tf [ai [api [Hi [E [-> Hc]]]]]]]]]]]]];
    intros R; injection R as <- _; [discriminate | discriminate|].
  intros _. exists ta, tb, tf. split; [reflexivity|]. exact (Composer.combine_final _ _ _ _ _ _ Hc).
Qed.

Lemma POST_ok_hashtag_witness :
  store_wf world0 /\
  (let '(_, a, _) := fields body_paris in
   exists ta tb f,
     ok_response (lit "Quick thought: today") Providers.WEATHER_KEY_MISSING
       (lit "Quick thought: today Weather data unavailable (OPENWEATHER_API_KEY missing). #weather")
     = ok_response ta tb f /\
     (exists pre, f = pre ++ Composer.hashtag a) /\ trim f = f).
Proof.
  split; [vm_compute; exact (map_Forall_empty _)|].
  apply (POST_ok_hashtag env_mock body_paris world0
           (snd (POST env_mock (Ok body_paris) world0))).
  - vm_compute. exact (map_Forall_empty _).
  - vm_compute. reflexivity.
  - reflexivity.
Defined.

(** C5: the configuration of the specification's scenario, for every
    request: with the mock generator and no weather key, every 200
    answer to a request whose action is ["weather"] and whose location is
    absent, falsy or a string carries the trimmed mock reply to its
    prompt, the unavailable text, and their composition with
    ["#weather"]; no request is sent. *)
Theorem POST_mock_weather {S} `{Fetch S} `{Clock S} `{RunStore S} e body p l (s s' : S) resp :
  Generator.use_mock e = true -> env_set (WEATHER_API_KEY e) = false ->
  fields body = (Some (JStr p), Some (JStr (lit "weather")), l) ->
  (truthy l = false \/ exists c, l = Some (JStr c)) ->
  POST e (Ok body) s = (Ok resp, s') -> status resp = 200 ->
  exists m, Generator.mock_reply (Some (JStr p)) = Ok m /\
    resp = ok_response (trim m) (trim Providers.WEATHER_KEY_MISSING)
             (Composer.final_result (trim m) (trim Providers.WEATHER_KEY_MISSING)
                (Composer.hashtag (Some (JStr (lit "weather"))))).
Proof.
  intros Hm Hk Hf Hl. unfold POST, catch at 1, bind at 1, lift at 1. rewrite Hf.
  destruct (negb (truthy (Some (JStr p))) || negb (truthy (Some (JStr (lit "weather")))));
    [intros E; injection E as <- _; discriminate|].
  set (m := lit "Quick thought: " ++ (if 80 <? Z.of_nat (length p) then firstn 77 p ++ lit "..." else p)).
  assert (Hai : forall s0, catch (Generator.callOpenAI e (Some (JStr p)))
                                 (fun msg => ret (lit "AI error: " ++ msg)) s0 = (Ok m, s0))
    by (intros s0; unfold catch; rewrite Generator.callOpenAI_mock, Generator.mock_reply_str by exact Hm;
        reflexivity).
  destruct (pipeline e _ _ l s) as [[r|err] s1] eqn:P; intros R; injection R as <- _; [|discriminate].
  destruct (pipeline_texts _ _ _ _ _ _ _ _ _ Hai (fun s0 => Providers.fetch_api_weather_no_key e l s0 Hk Hl) P)
    as (ta & tb & tf & Hc & ->).
  unfold Composer.combine in Hc. rewrite !Composer.trim_response_str in Hc. injection Hc as <- <- <-.
  intros _. exists m. split; [apply Generator.mock_reply_str | reflexivity].
Qed.

Lemma POST_mock_weather_witness :
  POST env_mock (Ok body_paris) world0 = (Ok paris_answer, snd (POST env_mock (Ok body_paris) world0)) /\
  exists m, Generator.mock_reply (Some (JStr (lit "today"))) = Ok m /\
    paris_answer = ok_response (trim m) (trim Providers.WEATHER_KEY_MISSING)
             (Composer.final_result (trim m) (trim Providers.WEATHER_KEY_MISSING)
                (Composer.hashtag (Some (JStr (lit "weather"))))).
Proof.
  assert (E : POST env_mock (Ok body_paris) world0 =
              (Ok paris_answer, snd (POST env_mock (Ok body_paris) world0))) by (vm_compute; reflexivity).
  split; [exact E|].
  apply (POST_mock_weather env_mock body_paris (lit "today") (Some (JStr (lit "Paris"))) world0 _ _
           eq_refl eq_refl eq_refl (or_intror (ex_intro _ _ eq_refl)) E eq_refl).
Defined.
End Workflow.
