(* ===== verification/History.v ===== *)
(** * The history query: [GET /api/history]

    [src/src/app/api/history/route.js]: connect, read the ten most recent
    runs ([find({}).sort({created_at: -1}).limit(10).select("-__v")
    .lean()]) and answer 200 [{ total: runs.length, runs }]; any exception
    is answered 500 [{ error: err.message || "Server error" }].  A lean
    document is serialised by [NextResponse.json]: the ObjectId as its 24
    hexadecimal digits, the Date by [toISOString].  The version key [__v]
    is not represented in [WorkflowRun], which is what [select("-__v")]
    leaves. *)

From Stdlib Require Import String.
From Stdlib Require Import ZArith List Lia Bool.
From stdpp Require Import gmap sorting.
From S2P Require Import Prelude JsString Effects JsValue Platform DateTime RunStore World.
From S2P Require Import Workflow.
Import RunModel World Workflow.

Open Scope Z_scope.

Module History.

(** A 24-digit lower-case hexadecimal ObjectId. *)
Fixpoint hex_digits (n : nat) (v : N) : jstr :=
  match n with
  | O => []
  | S k => hex_digits k (v / 16)%N ++
             [let d := Z.of_N (v mod 16)%N in if d <? 10 then 48 + d else 87 + d]
  end.

Definition object_id (i : N) : jstr := hex_digits 24 i.

Definition run_json (r : WorkflowRun) : jval :=
  JObj [(lit "_id", JStr (object_id (id r)));
        (lit "prompt", JStr (prompt r));
        (lit "action", JStr (action r));
        (lit "ai_response", JStr (ai_response r));
        (lit "api_response", JStr (api_response r));
        (lit "final_result", JStr (final_result r));
        (lit "created_at", JStr (DateTime.iso_string (created_at r)))].

Definition history_response (runs : list WorkflowRun) : http_response :=
  mkResponse 200 (JObj [(lit "total", JNum (NFin (Z.of_nat (length runs)) 0));
                        (lit "runs", JArr (map run_json runs))]).

Section WithStore.
Context {S : Type} `{RunStore S}.
Local Open Scope monad_scope.

Definition GET : M S http_response :=
  catch (db_connect ;;
         runs <- run_find_recent ;;
         ret (history_response runs))
        (fun msg => ret (server_error msg)).
End WithStore.

(** ** Lemmas *)

(** What [GET] does, against the store laws: it answers, changes no run,
    and answers 500 or the history of a list that meets [recent_spec]. *)
Lemma GET_result {S} `{RunStoreLaws S} (s : S) :
  store_wf s ->
  let '(r, s') := GET s in
  store_runs s' = store_runs s /\ store_wf s' /\
  match r with
  | Ok resp => status resp = 500 \/ exists l, resp = history_response l /\ recent_spec (store_runs s) l
  | Throw _ => False
  end.
Proof.
  intros Hs. unfold GET, catch, bind.
  destruct (connect_law s Hs) as [E1 W1].
  destruct (db_connect s) as [[[]|msg] s1]; simpl in *; [|auto].
  destruct (find_law s1 W1) as [W2 [E2 Hl]].
  destruct (run_find_recent s1) as [[l|msg] s2]; simpl in *;
    (split; [congruence | split; [exact W2|]]); [right; exists l; split; [reflexivity | now rewrite <- E1] | now left].
Qed.

(** ** Properties *)

(** From a well-formed store, [GET] always answers and changes no
    run; a 200 answer lists at most ten stored runs, without
    repetition, newest first, with [total] their number, and no stored
    run left out is newer than a listed one (if fewer than ten are
    listed, none is left out). *)
Theorem GET_spec {S} `{RunStoreLaws S} (s : S) :
  store_wf s ->
  exists resp s', GET s = (Ok resp, s') /\ store_runs s' = store_runs s /\ store_wf s' /\
    (status resp = 500 \/
     exists l, resp = history_response l /\ recent_spec (store_runs s) l).
Proof.
  intros Hs. pose proof (GET_result s Hs) as G. destruct (GET s) as [[resp|msg] s'];
    [|destruct G as (_ & _ & [])]. destruct G as (E & W & R). eauto 6.
Qed.

Lemma GET_spec_witness :
  store_wf world0 /\
  exists resp s', GET world0 = (Ok resp, s') /\ store_runs s' = store_runs world0 /\
    store_wf s' /\
    (status resp = 500 \/
     exists l, resp = history_response l /\ recent_spec (store_runs world0) l).
Proof. split; [vm_compute; exact (map_Forall_empty _) | apply GET_spec; vm_compute;
  exact (map_Forall_empty _)]. Defined.

End History.
