(* ===== verification/Next.v ===== *)
(** * Next.js between the page and the routes

    The app router answers [POST /api/run_workflow] with the [POST]
    exported by [src/src/app/api/run_workflow/route.js] and [GET
    /api/history] with the [GET] of [src/src/app/api/history/route.js]
    ([serve]).  The handler reads the request with [req.json()]
    (route.js line 122), [JSON.parse] of the text the page wrote with
    [JSON.stringify] ([req_json]).  Its answer [NextResponse.json(body,
    { status })] (route.js lines 125, 180, 186; history/route.js lines
    13, 16) is the text [JSON.stringify(body)] with the status
    ([next_json]), which the page's [fetch] receives and
    [response.json()] parses back.

    Other paths and methods are answered by Next.js itself (404, 405)
    and are not modelled: [serve] has no handler for them.

    The theorems: an answer whose strings are strings of code units
    reaches the page as the value the handler built ([next_json_read]),
    which holds of every answer of [POST] with such texts and of every
    history of at most ten such runs ([ok_response_ok],
    [history_response_ok]). *)

From Stdlib Require Import String.
From Stdlib Require Import ZArith List Lia Bool.
From stdpp Require Import gmap.
From S2P Require Import Prelude JsString Effects JsValue Json Platform RunStore World DateTime.
From S2P Require Import Workflow History.
Import RunModel World Workflow.

Open Scope Z_scope.

Module Next.

(** [NextResponse.json(body, { status })] as the page's [fetch] sees it. *)
Definition next_json (r : http_response) : response :=
  let text := Json.stringify (body r) in
  Platform.mkResponse (status r) (Json.parse text) (Ok text).

(** [await req.json()]: the page's body is [JSON.stringify(payload)]; a
    request without a body has the empty text. *)
Definition req_json (rq : request) : jsres jval :=
  match rq_body rq with
  | Some b => Json.parse (Json.stringify b)
  | None => Json.parse []
  end.

Section WithPlatform.
Context {S : Type} `{Fetch S} `{Clock S} `{RunStore S}.
Local Open Scope monad_scope.

(** The two routes of the app, by path and exported method. *)
Definition serve (e : env) (rq : request) : option (M S response) :=
  if jstr_eqb (rq_url rq) (lit "/api/run_workflow") && jstr_eqb (rq_method rq) (lit "POST")
  then Some (r <- POST e (req_json rq) ;; ret (next_json r))
  else if jstr_eqb (rq_url rq) (lit "/api/history") && jstr_eqb (rq_method rq) (lit "GET")
  then Some (r <- History.GET ;; ret (next_json r))
  else None.
End WithPlatform.

(** The strings of a run are strings of code units. *)
Definition run_ok (r : WorkflowRun) : bool :=
  forallb unit_ok (RunModel.prompt r ++ RunModel.action r ++ ai_response r ++
                   api_response r ++ final_result r).

(** ** Lemmas *)

Lemma next_json_read r :
  Json.json_ok (body r) = true -> rs_json (next_json r) = Ok (body r).
Proof. intros H. exact (Json.parse_stringify _ H). Qed.

Lemma uint_units_ok d : forallb unit_ok (uint_units d) = true.
Proof. induction d; cbn [uint_units forallb]; rewrite ?IHd; reflexivity. Qed.

Lemma int_to_jstr_ok n : forallb unit_ok (int_to_jstr n) = true.
Proof. unfold int_to_jstr. destruct (Z.to_int n); cbn [forallb]; rewrite uint_units_ok; reflexivity. Qed.

Lemma repeat_ok k : forallb unit_ok (repeat 48 k) = true.
Proof. induction k; cbn; auto. Qed.

Lemma pad_ok w n : forallb unit_ok (DateTime.pad w n) = true.
Proof. unfold DateTime.pad. rewrite forallb_app, repeat_ok, int_to_jstr_ok. reflexivity. Qed.

Lemma iso_string_ok t : forallb unit_ok (DateTime.iso_string t) = true.
Proof.
  unfold DateTime.iso_string. destruct (DateTime.civil_from_days _) as [[y mo] d].
  destruct ((0 <=? y) && (y <=? 9999)); [|destruct (y <? 0)];
    rewrite !forallb_app, !pad_ok; reflexivity.
Qed.

Lemma hex_digits_ok n v : forallb unit_ok (History.hex_digits n v) = true.
Proof.
  revert v. induction n as [|n IH]; intros v; [reflexivity|]. cbn [History.hex_digits].
  rewrite forallb_app, IH. cbn [forallb]. rewrite andb_true_r.
  pose proof (N.mod_lt v 16 ltac:(discriminate)) as Hm.
  assert (0 <= Z.of_N (v mod 16)%N < 16)
    by (split; [apply N2Z.is_nonneg | change 16 with (Z.of_N 16); apply N2Z.inj_lt, Hm]).
  unfold unit_ok. destruct (Z.of_N (v mod 16)%N <? 10); cbn [andb];
    apply andb_true_iff; rewrite Z.leb_le, Z.ltb_lt; lia.
Qed.

Lemma run_json_ok r : run_ok r = true -> Json.json_ok (History.run_json r) = true.
Proof.
  unfold run_ok. rewrite !forallb_app. intros H. repeat (apply andb_true_iff in H as [? H]).
  cbn [History.run_json Json.json_ok forallb fst snd]. unfold History.object_id.
  rewrite hex_digits_ok, iso_string_ok.
  repeat match goal with E : forallb unit_ok _ = true |- _ => rewrite E; clear E end. reflexivity.
Qed.

Lemma ok_response_ok a b f :
  forallb unit_ok (a ++ b ++ f) = true -> Json.json_ok (body (ok_response a b f)) = true.
Proof.
  rewrite !forallb_app. intros H. repeat (apply andb_true_iff in H as [? H]).
  cbn [ok_response body Json.json_ok forallb fst snd]. rewrite H, H0, H1. reflexivity.
Qed.

Lemma map_run_json_ok runs :
  forallb run_ok runs = true -> forallb Json.json_ok (map History.run_json runs) = true.
Proof.
  induction runs as [|r runs IH]; [reflexivity|]. cbn [forallb map].
  intros H. apply andb_true_iff in H as [Hr Hs]. rewrite run_json_ok, IH by assumption. reflexivity.
Qed.

Lemma history_response_ok runs :
  (length runs <= 10)%nat -> forallb run_ok runs = true ->
  Json.json_ok (body (History.history_response runs)) = true.
Proof.
  intros L Hr. cbn [History.history_response body Json.json_ok forallb fst snd].
  rewrite map_run_json_ok by exact Hr.
  replace (Z.abs (Z.of_nat (length runs)) <? 10 ^ 21) with true by (symmetry; apply Z.ltb_lt; lia).
  reflexivity.
Qed.

End Next.
