(* ===== verification/Concurrency.v ===== *)
(** * Concurrent requests on the shared collection

    Next.js runs the two route handlers of
    [src/src/app/api/run_workflow/route.js] ([POST], lines 119-188) and
    [src/src/app/api/history/route.js] ([GET], lines 5-19) as [async]
    functions: each runs synchronously up to an [await], and while it
    waits, any other request may run.  They share one thing: the
    collection behind [RunStore].

    A handler in flight is a [handler]: the point at which it waits and
    the values it holds there.  [segment] is the code between two
    [await]s: it takes the awaited value and runs to the next [await]
    (or to the answer, [Done]).  The generator and the provider are each
    one segment: their own [await]s only touch the network, which no
    other handler observes.  A server is the collection and the handlers
    in flight; an event starts a request or resumes one handler, in any
    order ([sstep], [sreachable]).

    The theorems: cutting a handler at its [await]s changes nothing when
    it runs alone ([segments_POST], [segments_GET]); under any
    interleaving each [POST] still owns its run, two handlers never own
    the same one, and a 200 answer is stored as it was sent
    ([concurrent_isolation], [concurrent_done_persisted]); every
    schedule without new requests ends, in at most [load] steps
    ([schedule_bound]), and some schedule always brings every request
    to its answer ([server_completes]).  The end of the file runs two
    workflows and a history query interleaved on [World].

    The run a handler created ([owned]) is ghost state: the code holds it
    as [initial], the model keeps it after the answer to state what the
    collection holds for it. *)

From Stdlib Require Import String.
From Stdlib Require Import ZArith List Lia Bool.
From stdpp Require Import gmap.
From S2P Require Import Prelude JsString Effects JsValue Platform RunStore World Composer.
From S2P Require Import Generator Providers Workflow History Indexed.
Import RunModel World Workflow.

Open Scope Z_scope.

Module Server.

(** Where a handler waits, with what it holds there. *)
Inductive handler : Type :=
  | PostBody (req_body : jsres jval)               (** [await req.json()] *)
  | PostConnect (p a l : option jval)              (** [await dbConnect()] *)
  | PostCreate (p a l : option jval) (now : Z)     (** [await WorkflowRun.create] *)
  | PostAI (p a l : option jval) (i : N) (d : draft) (** [await callOpenAI(prompt)] *)
  | PostAPI (a l : option jval) (i : N) (d : draft) (ai : jstr)
                                                   (** [await fetchWeather] and the like *)
  | PostUpdate (i : N) (d : draft) (ta tb tf : jstr)
                                                   (** [await findByIdAndUpdate] *)
  | GetConnect                                     (** [GET]: [await dbConnect()] *)
  | GetFind                                        (** [GET]: [await WorkflowRun.find] *)
  | Done (r : http_response) (o : option (N * WorkflowRun)).

(** The run the handler created, as the collection should hold it. *)
Definition owned (h : handler) : option (N * WorkflowRun) :=
  match h with
  | PostAI _ _ _ i d | PostAPI _ _ i d _ | PostUpdate i d _ _ _ => Some (i, pending d i)
  | Done _ o => o
  | _ => None
  end.

Definition is_done (h : handler) : bool :=
  match h with Done _ _ => true | _ => false end.

(** The number of segments a handler has left. *)
Definition weight (h : handler) : nat :=
  match h with
  | PostBody _ => 6
  | PostConnect _ _ _ => 5
  | PostCreate _ _ _ _ => 4
  | PostAI _ _ _ _ _ => 3
  | PostAPI _ _ _ _ _ => 2
  | PostUpdate _ _ _ _ _ => 1
  | GetConnect => 2
  | GetFind => 1
  | Done _ _ => 0
  end.

Section Segments.
Context {St : Type} `{Fetch St} `{Clock St} `{RunStore St}.
Variable e : env.
Local Open Scope monad_scope.

(** The [catch (err)] of both handlers, from a segment. *)
Definition fail (o : option (N * WorkflowRun)) (msg : jstr) : M St handler :=
  ret (Done (server_error msg) o).

Definition segment (h : handler) : M St handler :=
  match h with
  | PostBody b =>
      catch (body <- lift b ;;
             let '(p, a, l) := fields body in
             if negb (truthy p) || negb (truthy a)
             then ret (Done (error_response 400 MISSING_FIELDS) None)
             else ret (PostConnect p a l))
            (fail None)
  | PostConnect p a l =>
      catch (db_connect ;; now <- date_now ;; ret (PostCreate p a l now)) (fail None)
  | PostCreate p a l now =>
      catch (d <- lift (build_draft p a now) ;; i <- run_create d ;; ret (PostAI p a l i d))
            (fail None)
  | PostAI p a l i d =>
      catch (ai <- catch (Generator.callOpenAI e p) (fun msg => ret (lit "AI error: " ++ msg)) ;;
             ret (PostAPI a l i d ai))
            (fail (Some (i, pending d i)))
  | PostAPI a l i d ai =>
      catch (api <- Providers.fetch_api_response e a l ;;
             r <- lift (Composer.combine ai api a) ;;
             let '(ta, tb, tf) := r in ret (PostUpdate i d ta tb tf))
            (fail (Some (i, pending d i)))
  | PostUpdate i d ta tb tf =>
      catch (run_update i ta tb tf ;;
             ret (Done (ok_response ta tb tf) (Some (i, finalize ta tb tf (pending d i)))))
            (fail (Some (i, pending d i)))
  | GetConnect => catch (db_connect ;; ret GetFind) (fail None)
  | GetFind =>
      catch (runs <- run_find_recent ;; ret (Done (History.history_response runs) None))
            (fail None)
  | Done r o => ret (Done r o)
  end.

(** One handler alone, segment after segment, with [fuel] segments. *)
Fixpoint finish (fuel : nat) (h : handler) : M St http_response :=
  match h, fuel with
  | Done r _, _ => ret r
  | _, O => throw []
  | _, S n => h' <- segment h ;; finish n h'
  end.

(** A server: the collection and the handlers in flight, by arrival. *)
Record server : Type := mkServer { store : St; handlers : list handler }.

Inductive sevent : Type :=
  | ArrivePost (req_body : jsres jval)
  | ArriveGet
  | Resume (k : nat).

Definition sstep (c : server) (ev : sevent) : option server :=
  match ev with
  | ArrivePost b => Some (mkServer (store c) (handlers c ++ [PostBody b]))
  | ArriveGet => Some (mkServer (store c) (handlers c ++ [GetConnect]))
  | Resume k =>
      match handlers c !! k with
      | Some h =>
          if is_done h then None
          else match segment h (store c) with
               | (Ok h', s') => Some (mkServer s' (<[k := h']> (handlers c)))
               | (Throw _, _) => None
               end
      | None => None
      end
  end.

Fixpoint sexec (c : server) (evs : list sevent) : option server :=
  match evs with
  | [] => Some c
  | ev :: evs' => match sstep c ev with Some c' => sexec c' evs' | None => None end
  end.

Inductive sreachable (s0 : St) : server -> Prop :=
  | sreach_init : sreachable s0 (mkServer s0 [])
  | sreach_step c ev c' : sreachable s0 c -> sstep c ev = Some c' -> sreachable s0 c'.

(** The segments left to all handlers. *)
Definition load (c : server) : nat := sum_list_with weight (handlers c).

Definition is_resume (ev : sevent) : bool :=
  match ev with Resume _ => true | _ => false end.
End Segments.

(** ** Cutting at the [await]s changes nothing for one handler *)

Section Equivalence.
Context {St : Type} `{Fetch St} `{Clock St} `{RunStore St}.
Variable e : env.

Lemma finish_S n h (s : St) :
  is_done h = false -> finish e (S n) h s = bind (segment e h) (finish e n) s.
Proof. destruct h; reflexivity || discriminate. Qed.

Lemma finish_Done n r o (s : St) : finish e n (Done r o) s = (Ok r, s).
Proof. destruct n; reflexivity. Qed.

(** Run the segments and the handler side by side, splitting on every
    outcome of a call; a segment's own result is never split on. *)
Ltac run_both :=
  repeat first
    [ reflexivity
    | rewrite finish_Done
    | rewrite finish_S by reflexivity
    | progress unfold segment, fail, catch, bind, lift, ret, throw
    | progress cbn beta iota zeta
    | match goal with
      |- context [match ?t with _ => _ end] =>
          lazymatch type of t with
          | (jsres handler * _)%type => fail | _ => destruct t end
      end ].

(** Cut at its six [await]s and run alone, segment after segment,
    the [POST] handler does exactly what it does in one piece: the same
    answer, the same collection, the same requests on the network, for
    every body and every state; each segment's own [catch] gives the
    answer 500 the handler's one [catch] gives. *)
Theorem segments_POST b (s : St) : finish e 6 (PostBody b) s = POST e b s.
Proof. unfold POST, pipeline. run_both. Qed.

(** The same for [GET], cut at its two [await]s. *)
Theorem segments_GET (s : St) : finish e 2 GetConnect s = History.GET s.
Proof. unfold History.GET. run_both. Qed.
End Equivalence.

(** ** What a segment does to the collection *)

(** A 200 answer of a [POST] owns its run finalised with the three
    texts of the answer. *)
Definition answered_ok (h : handler) : Prop :=
  match h with
  | Done r (Some (i, x)) =>
      status r = 200 -> exists d a b f, r = ok_response a b f /\ x = finalize a b f (pending d i)
  | _ => True
  end.

(** The three things a segment can do to the collection: nothing, create
    the handler's run, or finalise it. *)
Definition seg_effect (h h' : handler) (m m' : gmap N WorkflowRun) : Prop :=
  (m' = m /\ owned h' = owned h) \/
  (owned h = None /\ exists i d, m !! i = None /\ m' = <[i := pending d i]> m /\
                                 owned h' = Some (i, pending d i)) \/
  (exists i x a b f, owned h = Some (i, x) /\ m' = alter (finalize a b f) i m /\
                     owned h' = Some (i, finalize a b f x)).

Section SegmentLaws.
Context {St : Type} `{RunStoreLaws St} `{Fetch St} `{Clock St} `{!PlatformFrame St}.
Variable e : env.

Lemma frame_case {A} (c : M St A) s :
  frame c -> store_wf s ->
  exists r s', c s = (r, s') /\ store_runs s' = store_runs s /\ store_wf s'.
Proof. intros Hc W. destruct (Hc s W) as [E W']. destruct (c s) as [r s']. eauto. Qed.

Lemma create_case d s :
  store_wf s ->
  exists r s', run_create d s = (r, s') /\ store_wf s' /\
    match r with
    | Ok i => store_runs s !! i = None /\ store_runs s' = <[i := pending d i]> (store_runs s)
    | Throw _ => store_runs s' = store_runs s
    end.
Proof. intros W. destruct (create_law d s W) as [W' L]. destruct (run_create d s). eauto. Qed.

Lemma update_case i a b f s :
  store_wf s ->
  exists r s', run_update i a b f s = (r, s') /\ store_wf s' /\
    match r with
    | Ok _ => store_runs s' = alter (finalize a b f) i (store_runs s)
    | Throw _ => store_runs s' = store_runs s
    end.
Proof. intros W. destruct (update_law i a b f s W) as [W' L]. destruct (run_update i a b f s). eauto. Qed.

Lemma find_frame : frame (@run_find_recent St _).
Proof. intros s W. destruct (find_law s W) as [W' [E _]]. split; assumption. Qed.

Lemma callOpenAI_frame_raw p : frame (Generator.callOpenAI e p).
Proof. solve_frame. Qed.

(** Split on the outcome of the next call, with what its law says. *)
Ltac seg_call :=
  match goal with
  | W : store_wf ?s |- context [run_create ?d ?s] =>
      destruct (create_case d s W) as (?r & ?s' & -> & ?W' & ?L)
  | W : store_wf ?s |- context [run_update ?i ?a ?b ?f ?s] =>
      destruct (update_case i a b f s W) as (?r & ?s' & -> & ?W' & ?L)
  | W : store_wf ?s |- context [match ?c ?s with _ => _ end] =>
      let Hc := fresh "Hc" in
      assert (Hc : frame c)
        by first [ apply connect_frame | apply clock_frame | apply find_frame
                 | apply callOpenAI_frame_raw | apply fetch_api_response_frame ];
      destruct (frame_case c s Hc W) as (?r & ?s' & -> & ?E & ?W'); clear Hc
  end.

Ltac seg_leaf :=
  repeat match goal with Hc : _ /\ _ |- _ => destruct Hc end;
  do 2 eexists; split; [reflexivity|]; split; [assumption|]; split; [cbn; lia|];
  split;
  [ cbn; try (intros Hs; discriminate Hs); try (intros _; do 4 eexists; split; reflexivity); exact I
  | unfold seg_effect; cbn;
    first
      [ left; split; [congruence | reflexivity]
      | right; left; split; [reflexivity|]; do 2 eexists;
        split; [eassumption | split; [eassumption | reflexivity]]
      | right; right; do 5 eexists; split; [reflexivity | split; [eassumption | reflexivity]] ] ].

(** Every segment answers (it never rejects), leaves fewer segments to
    go, and does one of the three things of [seg_effect]. *)
Lemma segment_spec h s :
  store_wf s -> is_done h = false ->
  exists h' s', segment e h s = (Ok h', s') /\ store_wf s' /\ (weight h' < weight h)%nat /\
                answered_ok h' /\ seg_effect h h' (store_runs s) (store_runs s').
Proof.
  intros W Hd. destruct h; try discriminate Hd;
    unfold segment, fail, catch, bind, lift, ret, throw;
    repeat first
      [ progress cbn beta iota zeta
      | seg_call
      | match goal with |- context [match ?t with _ => _ end] =>
          lazymatch type of t with (jsres _ * _)%type => fail | _ => destruct t end end ];
    seg_leaf.
Qed.
End SegmentLaws.

(** ** Schedules end *)

Section Termination.
Context {St : Type} `{Fetch St} `{Clock St} `{RunStore St}.
Variable e : env.

(** A segment never rejects: each ends in the handler's [catch]. *)
Lemma segment_total h : total (segment e h).
Proof. destruct h; cbn [segment]; try apply catch_total; intros; intros s; eexists _, _; reflexivity. Qed.

Lemma segment_returns h : is_done h = false -> returns (fun h' => (weight h' < weight h)%nat) (segment e h).
Proof.
  intros Hd. destruct h; try discriminate Hd; cbn [segment]; unfold fail;
    repeat first
      [ apply returns_ret; cbn; lia
      | apply returns_catch | apply returns_bind
      | match goal with
        | |- forall _, _ => intro
        | |- returns _ (match ?t with _ => _ end) => destruct t
        end ].
Qed.

Lemma sstep_resume_load (c c' : @server St) k :
  sstep e c (Resume k) = Some c' -> (load c' < load c)%nat.
Proof.
  cbn. destruct (handlers c !! k) as [h|] eqn:E; [|discriminate].
  destruct (is_done h) eqn:Hd; [discriminate|].
  destruct (segment e h (store c)) as [[h'|m] s'] eqn:Hs; [|discriminate].
  intros [= <-]. unfold load; cbn [handlers].
  pose proof (sum_insert weight (handlers c) k h h' E).
  pose proof (segment_returns h Hd _ _ _ Hs) as Hw. cbv beta in Hw. lia.
Qed.

Lemma sexec_reachable s0 (c c' : @server St) evs :
  sreachable e s0 c -> sexec e c evs = Some c' -> sreachable e s0 c'.
Proof.
  revert c. induction evs as [|ev evs IH]; intros c R; cbn; [now intros [= <-]|].
  destruct (sstep e c ev) as [c1|] eqn:E; [|discriminate]. apply IH. now apply sreach_step with c ev.
Qed.

Lemma load_done (c : @server St) : load c = 0%nat -> Forall (fun h => is_done h = true) (handlers c).
Proof.
  unfold load. induction (handlers c) as [|h hs IH]; cbn; [constructor|].
  intros E. constructor; [destruct h; cbn in *; congruence || lia | apply IH; lia].
Qed.

Lemma resume_exists (c : @server St) : (0 < load c)%nat -> exists k c', sstep e c (Resume k) = Some c'.
Proof.
  intros Hp. destruct (sum_pos weight (handlers c) Hp) as [k [h [E Hw]]].
  destruct (segment_total h (store c)) as [h' [s' Hs]].
  exists k, (mkServer s' (<[k := h']> (handlers c))). cbn. rewrite E.
  destruct h; cbn in Hw; try lia; cbn [is_done]; rewrite Hs; reflexivity.
Qed.
(** Every schedule that starts no new request is finite: it
    resumes handlers at most [load c] times, the number of segments the
    handlers in flight have left (six for a [POST] that has not read its
    body, two for a [GET] that has not connected). *)
Theorem schedule_bound (c c' : @server St) evs :
  sexec e c evs = Some c' -> forallb is_resume evs = true ->
  (length evs + load c' <= load c)%nat.
Proof.
  revert c. induction evs as [|ev evs IH]; intros c; cbn.
  - intros [= <-] _. lia.
  - destruct ev as [b| |k]; try discriminate.
    destruct (sstep e c (Resume k)) as [c1|] eqn:E; [|discriminate].
    intros Hx Hf. specialize (IH c1 Hx Hf). pose proof (sstep_resume_load c c1 k E). lia.
Qed.

(** No handler is ever stuck: from any server, resuming the
    unfinished handlers in some order finishes all of them.  With
    [schedule_bound], every schedule can be extended until every request
    has its answer, and none runs forever. *)
Theorem server_completes (c : @server St) :
  exists evs c', sexec e c evs = Some c' /\ forallb is_resume evs = true /\
                 Forall (fun h => is_done h = true) (handlers c').
Proof.
  remember (load c) as n eqn:En. revert c En.
  induction n as [n IH] using lt_wf_ind. intros c En. destruct n as [|n].
  - exists [], c. split; [reflexivity | split; [reflexivity | now apply load_done]].
  - destruct (resume_exists c ltac:(lia)) as [k [c1 E]].
    pose proof (sstep_resume_load c c1 k E) as Hl.
    destruct (IH (load c1) ltac:(lia) c1 eq_refl) as [evs [c' [Hx [Hf Hd]]]].
    exists (Resume k :: evs), c'. cbn [sexec forallb is_resume]. rewrite E. auto.
Qed.
End Termination.

(** ** Isolation under any interleaving *)

Section Isolation.
Context {St : Type} `{RunStoreLaws St} `{Fetch St} `{Clock St} `{!PlatformFrame St}.
Variable e : env.

(** Each handler's run is in the collection as the handler owns it. *)
Definition owners_stored (c : @server St) : Prop :=
  forall k h i x, handlers c !! k = Some h -> owned h = Some (i, x) ->
                  store_runs (store c) !! i = Some x.

(** No two handlers own the same run. *)
Definition owners_distinct (c : @server St) : Prop :=
  forall k1 k2 h1 h2 i x1 x2, handlers c !! k1 = Some h1 -> handlers c !! k2 = Some h2 ->
    owned h1 = Some (i, x1) -> owned h2 = Some (i, x2) -> k1 = k2.

Definition server_inv (c : @server St) : Prop :=
  store_wf (store c) /\ Forall answered_ok (handlers c) /\ owners_stored c /\ owners_distinct c.

Lemma lookup_insert_cases (l : list handler) k h' j h2 :
  <[k := h']> l !! j = Some h2 -> (j = k /\ h2 = h') \/ (j <> k /\ l !! j = Some h2).
Proof. rewrite list_lookup_insert_Some. intros [[-> [-> _]] | [Hne E]]; auto. Qed.

(** Distinctness carries over when every owner of the new list owned
    the same run id in the old one, at the same index. *)
Lemma distinct_transfer (c : @server St) s' l' :
  owners_distinct c ->
  (forall j h2 i x2, l' !! j = Some h2 -> owned h2 = Some (i, x2) ->
     exists h1 x1, handlers c !! j = Some h1 /\ owned h1 = Some (i, x1)) ->
  owners_distinct (mkServer s' l').
Proof.
  intros D T k1 k2 h1 h2 i x1 x2 E1 E2 O1 O2.
  destruct (T _ _ _ _ E1 O1) as (g1 & y1 & F1 & P1).
  destruct (T _ _ _ _ E2 O2) as (g2 & y2 & F2 & P2). exact (D _ _ _ _ _ _ _ F1 F2 P1 P2).
Qed.

Lemma inv_resume (c : @server St) k h h' s' :
  server_inv c -> handlers c !! k = Some h -> store_wf s' -> answered_ok h' ->
  seg_effect h h' (store_runs (store c)) (store_runs s') ->
  server_inv (mkServer s' (<[k := h']> (handlers c))).
Proof.
  intros (W & A & Hs & D) Ek W' A' Eff. split; [exact W'|]. split; [now apply Forall_insert|].
  destruct Eff as [[Em Eo] | [[Eo (i & d & Hi & Em & Eo')] | (i & x & a & b & f & Eo & Em & Eo')]];
    unfold owners_stored; cbn [store handlers]; rewrite Em.
  - split.
    + intros j h2 i x E O. apply lookup_insert_cases in E as [[-> ->] | [_ E]]; eauto.
      rewrite Eo in O. eauto.
    + apply (distinct_transfer c); [exact D|]. intros j h2 i x E O.
      apply lookup_insert_cases in E as [[-> ->] | [_ E]]; [rewrite Eo in O|]; eauto.
  - assert (Fresh : forall j h2 i' x2, handlers c !! j = Some h2 -> owned h2 = Some (i', x2) -> i' <> i)
      by (intros j h2 i' x2 E O ->; rewrite (Hs _ _ _ _ E O) in Hi; discriminate).
    split.
    + intros j h2 i' x E O. apply lookup_insert_cases in E as [[-> ->] | [_ E]].
      * rewrite Eo' in O. injection O as <- <-. apply lookup_insert_eq.
      * rewrite lookup_insert_ne by (apply not_eq_sym, (Fresh _ _ _ _ E O)). eauto.
    + intros k1 k2 h1 h2 i' x1 x2 E1 E2 O1 O2.
      apply lookup_insert_cases in E1 as [[-> ->] | [N1 E1]];
      apply lookup_insert_cases in E2 as [[-> ->] | [N2 E2]]; try reflexivity.
      * rewrite Eo' in O1. injection O1 as <- _. now destruct (Fresh _ _ _ _ E2 O2).
      * rewrite Eo' in O2. injection O2 as <- _. now destruct (Fresh _ _ _ _ E1 O1).
      * eauto.
  - pose proof (Hs _ _ _ _ Ek Eo) as Hx. split.
    + intros j h2 i' x' E O. apply lookup_insert_cases in E as [[-> ->] | [N E]].
      * rewrite Eo' in O. injection O as <- <-. rewrite lookup_alter_eq, Hx. reflexivity.
      * assert (i' <> i) by (intros ->; exact (N (D _ _ _ _ _ _ _ E Ek O Eo))).
        rewrite lookup_alter_ne by congruence. eauto.
    + apply (distinct_transfer c); [exact D|]. intros j h2 i' x2 E O.
      apply lookup_insert_cases in E as [[-> ->] | [_ E]]; [rewrite Eo' in O; injection O as <- _|]; eauto.
Qed.
Lemma inv_arrive (c : @server St) h0 :
  owned h0 = None -> server_inv c -> server_inv (mkServer (store c) (handlers c ++ [h0])).
Proof.
  intros O0 (W & A & Hs & D). split; [exact W|]. cbn [handlers store].
  split.
  { apply Forall_app. split; [exact A|]. constructor; [|constructor].
    destruct h0; try exact I. destruct o as [[]|]; [discriminate | exact I]. }
  assert (Old : forall j h2 i x, (handlers c ++ [h0]) !! j = Some h2 -> owned h2 = Some (i, x) ->
                               handlers c !! j = Some h2)
    by (intros j h2 i x E O; apply lookup_snoc_Some in E as [[_ E] | [_ <-]]; congruence).
  split; [intros j h2 i x E O; eauto|].
  apply (distinct_transfer c); [exact D|]. eauto.
Qed.

Lemma server_inv_step (c c' : @server St) ev :
  server_inv c -> sstep e c ev = Some c' -> server_inv c'.
Proof.
  intros I. destruct ev as [b| |k]; cbn.
  - intros [= <-]. now apply inv_arrive.
  - intros [= <-]. now apply inv_arrive.
  - destruct (handlers c !! k) as [h|] eqn:E; [|discriminate].
    destruct (is_done h) eqn:Hd; [discriminate|].
    destruct (segment_spec e h (store c) (proj1 I) Hd) as (h' & s' & -> & W' & _ & A' & Eff).
    intros [= <-]. exact (inv_resume c k h h' s' I E W' A' Eff).
Qed.

Lemma server_inv_reachable s0 (c : @server St) :
  store_wf s0 -> sreachable e s0 c -> server_inv c.
Proof.
  intros W R. induction R as [|c ev c' R IH E].
  - split; [exact W | split; [constructor|]]. split; [intros k h i x E | intros k1 k2 h1 h2 i x1 x2 E]; discriminate E.
  - exact (server_inv_step c c' ev IH E).
Qed.

(** C8: whatever the interleaving of requests, a [POST] that has
    created its run finds it in the collection as it left it (pending,
    or finalised by its own update), and no other handler owns that run:
    isolation comes from each run owning its own record, with [create]
    and [findByIdAndUpdate] atomic. *)
Theorem concurrent_isolation s0 (c : @server St) k h i x :
  store_wf s0 -> sreachable e s0 c -> handlers c !! k = Some h -> owned h = Some (i, x) ->
  store_runs (store c) !! i = Some x /\
  (forall k' h' x', handlers c !! k' = Some h' -> owned h' = Some (i, x') -> k' = k).
Proof.
  intros W R E O. destruct (server_inv_reachable s0 c W R) as (_ & _ & Hs & D).
  split; [exact (Hs _ _ _ _ E O)|]. intros k' h' x' E' O'. exact (D _ _ _ _ _ _ _ E' E O' O).
Qed.

(** C9: whatever the interleaving, a [POST] that answered 200 with the
    texts [a], [b] and [f] has its run in the collection finalised with
    exactly those texts, and other requests never undo it. *)
Theorem concurrent_done_persisted s0 (c : @server St) k r i x :
  store_wf s0 -> sreachable e s0 c -> handlers c !! k = Some (Done r (Some (i, x))) ->
  status r = 200 ->
  exists d a b f, r = ok_response a b f /\
                  store_runs (store c) !! i = Some (finalize a b f (pending d i)).
Proof.
  intros W R E S2. destruct (server_inv_reachable s0 c W R) as (_ & A & Hs & _).
  destruct (proj1 (Forall_lookup _ _) A _ _ E S2) as (d & a & b & f & -> & ->).
  exists d, a, b, f. split; [reflexivity | exact (Hs _ _ _ _ E eq_refl)].
Qed.
End Isolation.

(** ** Two workflows and a history query, interleaved *)

Definition body_news : jval :=
  JObj [(lit "prompt", JStr (lit "hi")); (lit "action", JStr (lit "news"))].

(** [POST] Paris weather, [POST] news and [GET] arrive in that order. *)
Definition demo_arrivals : list sevent :=
  [ArrivePost (Ok body_paris); ArrivePost (Ok body_news); ArriveGet].

(** Both workflows read their bodies, connect and create their runs in
    turn; then the history query runs to its answer. *)
Definition demo_first : list sevent :=
  [Resume 0; Resume 1; Resume 0; Resume 1; Resume 0; Resume 1; Resume 2; Resume 2].

(** The workflows finish, the news one first. *)
Definition demo_last : list sevent :=
  [Resume 0; Resume 1; Resume 0; Resume 1; Resume 1; Resume 0].

Definition demo_start : @server world := mkServer world0 [PostBody (Ok body_paris); PostBody (Ok body_news); GetConnect].

Definition demo_mid : @server world :=
  Eval vm_compute in
    match sexec env_mock demo_start demo_first with Some c => c | None => demo_start end.

Definition demo_end : @server world :=
  Eval vm_compute in
    match sexec env_mock demo_mid demo_last with Some c => c | None => demo_mid end.

Definition d_paris : draft := mkDraft (lit "today") (lit "weather") 1762650000000.
Definition d_news : draft := mkDraft (lit "hi") (lit "news") 1762650000000.

Definition paris_at_ai : handler :=
  PostAI (Some (JStr (lit "today"))) (Some (JStr (lit "weather"))) (Some (JStr (lit "Paris")))
         0 d_paris.

Lemma demo_mid_reachable : sreachable env_mock world0 demo_mid.
Proof.
  apply (sexec_reachable env_mock world0 (mkServer world0 []) demo_mid (demo_arrivals ++ demo_first));
    [constructor | vm_compute; reflexivity].
Qed.

Lemma demo_end_reachable : sreachable env_mock world0 demo_end.
Proof.
  apply (sexec_reachable env_mock world0 demo_mid demo_end demo_last);
    [exact demo_mid_reachable | vm_compute; reflexivity].
Qed.

Lemma world0_wf : store_wf world0.
Proof. vm_compute. exact (map_Forall_empty _). Qed.

Lemma concurrent_isolation_witness :
  store_wf world0 /\ sreachable env_mock world0 demo_mid /\
  handlers demo_mid !! 0%nat = Some paris_at_ai /\ owned paris_at_ai = Some (0%N, pending d_paris 0) /\
  store_runs (store demo_mid) !! 0%N = Some (pending d_paris 0) /\
  (forall k' h' x', handlers demo_mid !! k' = Some h' -> owned h' = Some (0%N, x') -> k' = 0%nat).
Proof.
  assert (E : handlers demo_mid !! 0%nat = Some paris_at_ai) by (vm_compute; reflexivity).
  split; [exact world0_wf | split; [exact demo_mid_reachable | split; [exact E | split; [reflexivity|]]]].
  exact (concurrent_isolation env_mock world0 demo_mid 0 paris_at_ai 0 (pending d_paris 0)
           world0_wf demo_mid_reachable E eq_refl).
Defined.

(** The Paris workflow's answer, as the demonstration ends. *)
Definition paris_ai : jstr := lit "Quick thought: today".
Definition paris_api : jstr := lit "Weather data unavailable (OPENWEATHER_API_KEY missing).".
Definition paris_final : jstr := paris_ai ++ [32] ++ paris_api ++ lit " #weather".

Lemma concurrent_done_persisted_witness :
  store_wf world0 /\ sreachable env_mock world0 demo_end /\
  handlers demo_end !! 0%nat =
    Some (Done (ok_response paris_ai paris_api paris_final)
               (Some (0%N, finalize paris_ai paris_api paris_final (pending d_paris 0)))) /\
  status (ok_response paris_ai paris_api paris_final) = 200 /\
  exists d a b f, ok_response paris_ai paris_api paris_final = ok_response a b f /\
                  store_runs (store demo_end) !! 0%N = Some (finalize a b f (pending d 0)).
Proof.
  assert (E : handlers demo_end !! 0%nat =
    Some (Done (ok_response paris_ai paris_api paris_final)
               (Some (0%N, finalize paris_ai paris_api paris_final (pending d_paris 0)))))
    by (vm_compute; reflexivity).
  split; [exact world0_wf | split; [exact demo_end_reachable | split; [exact E | split; [reflexivity|]]]].
  exact (concurrent_done_persisted env_mock world0 demo_end 0 _ 0 _ world0_wf demo_end_reachable E eq_refl).
Defined.

Lemma schedule_bound_witness :
  sexec env_mock demo_start (demo_first ++ demo_last) = Some demo_end /\
  forallb is_resume (demo_first ++ demo_last) = true /\
  (length (demo_first ++ demo_last) + load demo_end <= load demo_start)%nat.
Proof.
  assert (E : sexec env_mock demo_start (demo_first ++ demo_last) = Some demo_end)
    by (vm_compute; reflexivity).
  split; [exact E | split; [reflexivity|]].
  exact (schedule_bound env_mock demo_start demo_end _ E eq_refl).
Defined.

(** A history query that runs between a workflow's [create] and its
    update lists the run pending, its three response fields empty. *)
Example history_sees_pending :
  handlers demo_mid !! 2%nat =
    Some (Done (History.history_response [pending d_news 1; pending d_paris 0]) None).
Proof. vm_compute. reflexivity. Qed.

End Server.
