(* ===== verification/Page.v ===== *)
(** * The client page: [src/src/app/page.js]

    [WorkflowAutomation] is a React component with seven pieces of state
    ([useState], lines 7-13): the form fields [prompt], [action],
    [location], the last [result], the [history] list, the [loading] and
    [showHistory] flags.  The page changes state on user events (typing,
    choosing an action, the two buttons and Close) and when a promise it
    awaits settles.  Its two handlers are [async]: [handleSubmit] (lines
    23-68) awaits [fetch] and [response.json()], [fetchHistory] (lines
    70-83) likewise; between two awaits any other event may happen.

    The model is a transition system.  A [state] is the component's state
    [ui] and the list of promises in flight ([tasks]), each remembering
    where its handler resumes: after the [fetch] of a request, or after
    [response.json()] of a response.  An [event] is a user action or the
    settlement of one task (chosen by its position: promises settle in any
    order).  [step] runs the synchronous segment of code the event
    triggers, up to the next [await] or the end of the handler; it is
    [None] when the event cannot happen (a disabled button, an input that
    is not rendered, a task that does not exist).  [reachable] is the
    closure of [step] from the initial state.

    A state update of React is applied at once: the updates of one
    segment are batched and rendered together, and no handler reads the
    state after an [await], so batching changes nothing observable here.
    [render] is what the JSX shows (texts and flags, not styles or icons);
    it throws where rendering would throw. *)

From Stdlib Require Import String.
From Stdlib Require Import ZArith List Lia Bool.
From stdpp Require Import list.
From S2P Require Import Prelude JsString Effects JsValue Platform Indexed.

Open Scope Z_scope.

Module Page.

(** ** State *)

Record page : Type := mkPage {
  prompt : jstr;
  action : jstr;
  location : jstr;
  result : jval;               (** [null] until a first answer *)
  history : option jval;      (** [data.runs], possibly [undefined] *)
  loading : bool;
  showHistory : bool
}.

Definition init_page : page := mkPage [] (lit "weather") [] JNull (Some (JArr [])) false false.

(** A promise in flight and the point where its handler resumes. *)
Inductive task : Type :=
| SubmitFetch (rq : request)       (** [await fetch(`/api/run_workflow`, ...)] *)
| SubmitJson (r : response)        (** [await response.json()] in [handleSubmit] *)
| HistoryFetch (rq : request)      (** [await fetch(`/api/history`)] *)
| HistoryJson (r : response).      (** [await response.json()] in [fetchHistory] *)

Record state : Type := mkState { ui : page; tasks : list task }.

Definition init : state := mkState init_page [].

Inductive field : Type := FPrompt | FAction | FLocation.

Inductive event : Type :=
| Input (f : field) (v : jstr)         (** an [onChange] of the form *)
| ClickRun                             (** the Run Workflow button *)
| ClickViewHistory                     (** the View History button *)
| ClickClose                           (** Close of the history section *)
| Respond (n : nat) (r : jsres response)  (** the [fetch] of task [n] settles *)
| ReadBody (n : nat).                  (** [response.json()] of task [n] settles *)

(** ** The setters of [useState] *)

Definition set_prompt (v : jstr) (p : page) : page :=
  mkPage v (action p) (location p) (result p) (history p) (loading p) (showHistory p).
Definition set_action (v : jstr) (p : page) : page :=
  mkPage (prompt p) v (location p) (result p) (history p) (loading p) (showHistory p).
Definition set_location (v : jstr) (p : page) : page :=
  mkPage (prompt p) (action p) v (result p) (history p) (loading p) (showHistory p).
Definition set_result (v : jval) (p : page) : page :=
  mkPage (prompt p) (action p) (location p) v (history p) (loading p) (showHistory p).
Definition set_history (v : option jval) (p : page) : page :=
  mkPage (prompt p) (action p) (location p) (result p) v (loading p) (showHistory p).
Definition set_loading (v : bool) (p : page) : page :=
  mkPage (prompt p) (action p) (location p) (result p) (history p) v (showHistory p).
Definition set_showHistory (v : bool) (p : page) : page :=
  mkPage (prompt p) (action p) (location p) (result p) (history p) (loading p) v.

(** ** The handlers *)

(** The values of the [<select>] ([actionOptions], lines 15-19). *)
Definition action_values : list jstr := [lit "weather"; lit "github"; lit "news"].

(** [action === 'weather' || action === 'news'] (line 21) *)
Definition requiresLocation (p : page) : bool :=
  jstr_eqb (action p) (lit "weather") || jstr_eqb (action p) (lit "news").

(** The object handed to [JSON.stringify] (lines 30-38). *)
Definition payload (p : page) : jval :=
  JObj ([(lit "prompt", JStr (trim (prompt p))); (lit "action", JStr (action p))] ++
        if requiresLocation p && negb (is_nil (trim (location p)))
        then [(lit "location", JStr (trim (location p)))] else []).

Definition workflow_request (p : page) : request :=
  mkRequest (lit "/api/run_workflow") (lit "POST")
            [(lit "Content-Type", lit "application/json")] (Some (payload p)).

Definition history_request : request := get_request (lit "/api/history") [].

(** The object of the [catch] (lines 58-61). *)
Definition fail_result (msg : jstr) : jval :=
  JObj [(lit "error", JBool true);
        (lit "message", JStr (lit "Failed to run workflow: " ++ msg ++ lit "."))].

(** [new Error(`HTTP error! status: ${response.status}`)] (line 49) *)
Definition http_error (status : Z) : jstr :=
  lit "HTTP error! status: " ++ num_str (NFin status 0).

(** The [finally] block (lines 62-67). *)
Definition finally_reset (p : page) : page :=
  set_location [] (set_action (lit "weather") (set_prompt [] (set_loading false p))).

(** [handleSubmit] up to its first [await] (lines 23-46). *)
Definition handleSubmit (s : state) : state :=
  let p := ui s in
  if is_nil (trim (prompt p)) then s
  else mkState (set_result JNull (set_loading true p)) (tasks s ++ [SubmitFetch (workflow_request p)]).

(** [fetchHistory] up to its first [await] (lines 70-72). *)
Definition fetchHistory (s : state) : state :=
  mkState (ui s) (tasks s ++ [HistoryFetch history_request]).

(** The [catch] and [finally] of [handleSubmit] after an exception. *)
Definition submit_failed (msg : jstr) (p : page) : page :=
  finally_reset (set_result (fail_result msg) p).

(** [handleSubmit] after [await fetch(...)] settled (lines 48-52). *)
Definition submit_responded (r : jsres response) (n : nat) (s : state) : state :=
  match r with
  | Throw msg => mkState (submit_failed msg (ui s)) (delete n (tasks s))
  | Ok resp =>
      if res_ok resp then mkState (ui s) (<[n := SubmitJson resp]> (tasks s))
      else mkState (submit_failed (http_error (rs_status resp)) (ui s)) (delete n (tasks s))
  end.

(** [handleSubmit] after [await response.json()] settled (lines 52-67):
    [setResult(data)], [fetchHistory()] runs to its first [await], then
    the [finally]. *)
Definition submit_read (resp : response) (n : nat) (s : state) : state :=
  match rs_json resp with
  | Throw msg => mkState (submit_failed msg (ui s)) (delete n (tasks s))
  | Ok data =>
      mkState (finally_reset (set_result data (ui s)))
              (delete n (tasks s) ++ [HistoryFetch history_request])
  end.

(** [fetchHistory] after [await fetch(...)] settled (lines 73-82). *)
Definition history_responded (r : jsres response) (n : nat) (s : state) : state :=
  match r with
  | Ok resp =>
      if res_ok resp then mkState (ui s) (<[n := HistoryJson resp]> (tasks s))
      else mkState (set_showHistory true (ui s)) (delete n (tasks s))
  | Throw _ => mkState (set_showHistory true (ui s)) (delete n (tasks s))
  end.

(** [fetchHistory] after [await response.json()] settled (lines 74-82):
    [data.runs] may throw (caught), then [setShowHistory(true)]. *)
Definition history_read (resp : response) (n : nat) (s : state) : state :=
  let p := match rs_json resp with
           | Ok data =>
               match read (Some data) (lit "runs") with
               | Ok runs => set_history runs (ui s)
               | Throw _ => ui s
               end
           | Throw _ => ui s
           end in
  mkState (set_showHistory true p) (delete n (tasks s)).

(** One event. *)
Definition step (s : state) (ev : event) : option state :=
  let p := ui s in
  match ev with
  | Input f v =>
      (* the value of a text field is a string of code units *)
      if negb (forallb unit_ok v) then None else
      match f with
      | FPrompt => Some (mkState (set_prompt v p) (tasks s))
      | FAction =>
          if existsb (jstr_eqb v) action_values then Some (mkState (set_action v p) (tasks s))
          else None
      | FLocation =>
          if requiresLocation p then Some (mkState (set_location v p) (tasks s)) else None
      end
  | ClickRun =>
      (* [disabled={loading || !prompt.trim()}] *)
      if loading p || is_nil (trim (prompt p)) then None else Some (handleSubmit s)
  | ClickViewHistory => Some (fetchHistory s)
  | ClickClose => if showHistory p then Some (mkState (set_showHistory false p) (tasks s)) else None
  | Respond n r =>
      match tasks s !! n with
      | Some (SubmitFetch _) => Some (submit_responded r n s)
      | Some (HistoryFetch _) => Some (history_responded r n s)
      | _ => None
      end
  | ReadBody n =>
      match tasks s !! n with
      | Some (SubmitJson resp) => Some (submit_read resp n s)
      | Some (HistoryJson resp) => Some (history_read resp n s)
      | _ => None
      end
  end.

(** Running a list of events. *)
Fixpoint run (s : state) (evs : list event) : option state :=
  match evs with
  | [] => Some s
  | ev :: r => match step s ev with Some s' => run s' r | None => None end
  end.

Inductive reachable : state -> Prop :=
| reach_init : reachable init
| reach_step s ev s' : reachable s -> step s ev = Some s' -> reachable s'.

(** ** Rendering *)

(** The results panel (lines 200-246). *)
Inductive panel : Type :=
| PLoading                                  (** "Processing your workflow..." *)
| PError (message : option jval)            (** [result.error] truthy *)
| PResult (ai : option jval) (label : jstr) (api : option jval) (final : option jval)
| PEmpty.                                   (** "Run a workflow to see results here" *)

(** One entry of the history list (lines 271-287); [created_at] is shown
    through [toLocaleString], which depends on the browser's locale and
    is kept as the raw value. *)
Record item_view : Type := mkItem {
  iv_prompt : option jval;
  iv_action : option jval;
  iv_location : option (option jval);       (** shown only when truthy *)
  iv_final : option jval;
  iv_created : option jval
}.

Inductive history_view : Type :=
| HHidden                                   (** [showHistory] false *)
| HEmpty                                    (** "No workflow history available" *)
| HItems (items : list item_view).

Record view : Type := mkView {
  run_disabled : bool;
  run_label : jstr;
  location_field : option (jstr * jstr);    (** label and placeholder *)
  results : panel;
  history_section : history_view
}.

(** The heading of the provider's answer (lines 225-226). *)
Definition api_label (action : jstr) : jstr :=
  if jstr_eqb action (lit "weather") then lit "Weather Data"
  else if jstr_eqb action (lit "github") then lit "GitHub Trending"
  else lit "Latest News".

Definition location_view (p : page) : option (jstr * jstr) :=
  if requiresLocation p then
    Some (lit "Location " ++
            (if jstr_eqb (action p) (lit "weather") then lit "(optional)"
             else lit "(optional - defaults to global news)"),
          if jstr_eqb (action p) (lit "weather") then lit "e.g., Delhi, London, New York"
          else lit "e.g., US, UK, India")
  else None.

Definition panel_view (p : page) : panel :=
  if loading p then PLoading
  else if truthy (Some (result p)) then
    let r := Some (result p) in
    if truthy (opt_get r (lit "error")) then PError (opt_get r (lit "message"))
    else PResult (opt_get r (lit "ai_response")) (api_label (action p))
                 (opt_get r (lit "api_response")) (opt_get r (lit "final_result"))
  else PEmpty.

(** [key={item.id || index}] reads [item.id] first: a [null] item throws
    there; the other reads are then property reads of an object. *)
Definition item_of (it : jval) : jsres item_view :=
  match read (Some it) (lit "id") with
  | Throw e => Throw e
  | Ok _ =>
      let loc := get it (lit "location") in
      Ok (mkItem (get it (lit "prompt")) (get it (lit "action"))
                 (if truthy loc then Some loc else None)
                 (get it (lit "final_result")) (get it (lit "created_at")))
  end.

Fixpoint items_of (l : list jval) : jsres (list item_view) :=
  match l with
  | [] => Ok []
  | it :: r =>
      match item_of it with
      | Throw e => Throw e
      | Ok v => match items_of r with Ok vs => Ok (v :: vs) | Throw e => Throw e end
      end
  end.

(** [history.length === 0 ? ... : history.map(...)] (lines 266-290). *)
Definition history_view_of (h : option jval) : jsres history_view :=
  match read h (lit "length") with
  | Throw e => Throw e
  | Ok len =>
      match len with
      | Some (JNum (NFin 0 _)) => Ok HEmpty
      | _ => match h with
             | Some (JArr l) => match items_of l with Ok vs => Ok (HItems vs) | Throw e => Throw e end
             | _ => Throw (not_a_function (lit "history.map"))
             end
      end
  end.

Definition render (p : page) : jsres view :=
  let disabled := loading p || is_nil (trim (prompt p)) in
  let hv := if showHistory p then history_view_of (history p) else Ok HHidden in
  match hv with
  | Throw e => Throw e
  | Ok hv =>
      Ok (mkView disabled (if loading p then lit "Running Workflow..." else lit "Run Workflow")
                 (location_view p) (panel_view p) hv)
  end.


(** ** Fixtures for the scenarios *)

(** A 200 answer of the workflow route. *)
Definition answer_200 : response :=
  mkResponse 200 (Ok (JObj [(lit "ai_response", JStr (lit "Quick thought: today"));
                            (lit "api_response", JStr (lit "Trending: a/b (12"));
                            (lit "final_result", JStr (lit "Quick thought: today #opensource"))]))
             (Ok []).

Definition answer_500 : response :=
  mkResponse 500 (Ok (JObj [(lit "error", JStr (lit "Server error"))])) (Ok []).

(** Two answers of the history route, an older and a newer one. *)
Definition history_answer (prompts : list jstr) : response :=
  mkResponse 200 (Ok (JObj [(lit "runs", JArr (map (fun p => JObj [(lit "prompt", JStr p)]) prompts))]))
             (Ok []).

(** A 200 answer without [runs]. *)
Definition history_answer_bare : response := mkResponse 200 (Ok (JObj [])) (Ok []).

(** Typing "today", choosing GitHub and running. *)
Definition run_github : list event :=
  [Input FPrompt (lit "today"); Input FAction (lit "github"); ClickRun].

Definition state_of (evs : list event) : state :=
  match run init evs with Some s => s | None => init end.

(** ** Invariant and measure *)

(** Tasks that belong to a [handleSubmit] in flight. *)
Definition submit_weight (t : task) : nat :=
  match t with SubmitFetch _ | SubmitJson _ => 1 | _ => 0 end%nat.

Definition submissions (l : list task) : nat := sum_list_with submit_weight l.

(** A request to the workflow route is the one [handleSubmit] built from
    a page whose trimmed prompt is not empty and whose action is one of
    the options. *)
(** The text fields hold strings of code units. *)
Definition text_wf (p : page) : Prop := str_wf (prompt p) /\ str_wf (location p).

Definition req_ok (t : task) : Prop :=
  match t with
  | SubmitFetch rq => exists p, rq = workflow_request p /\ is_nil (trim (prompt p)) = false /\
                        existsb (jstr_eqb (action p)) action_values = true /\ text_wf p
  | HistoryFetch rq => rq = history_request
  | _ => True
  end.

(** The invariant of the reachable states: one submission in flight
    exactly when [loading], the action is an option of the select,
    every workflow request in flight is well formed, and so are the
    text fields. *)
Definition page_inv (s : state) : Prop :=
  submissions (tasks s) = (if loading (ui s) then 1 else 0)%nat /\
  existsb (jstr_eqb (action (ui s))) action_values = true /\
  Forall req_ok (tasks s) /\ text_wf (ui s).

(** The number of settlements a task still waits for, counting the
    history request a successful submission starts. *)
Definition task_weight (t : task) : nat :=
  match t with SubmitFetch _ => 4 | SubmitJson _ => 3 | HistoryFetch _ => 2 | HistoryJson _ => 1 end%nat.

Definition weight (l : list task) : nat := sum_list_with task_weight l.

(** The event that settles the first task in flight, the network
    answering each request with [net]. *)
Definition settle_first (net : request -> jsres response) (s : state) : option event :=
  match tasks s with
  | [] => None
  | (SubmitFetch rq | HistoryFetch rq) :: _ => Some (Respond 0 (net rq))
  | _ :: _ => Some (ReadBody 0)
  end.

(** Let the promises settle, first task first, at most [fuel] times. *)
Fixpoint drain (fuel : nat) (net : request -> jsres response) (s : state) : state :=
  match fuel with
  | O => s
  | S k =>
      match settle_first net s with
      | None => s
      | Some ev => match step s ev with Some s' => drain k net s' | None => s end
      end
  end.

(** ** Counting tasks *)

Local Open Scope nat_scope.


(** Closing the goals on the task list of a step. *)
Ltac tasks_ok Hr :=
  repeat first [ exact Hr | exact I | exact eq_refl | apply Forall_delete | apply Forall_insert
               | apply Forall_app; split | apply Forall_cons; split | apply Forall_nil ].

(** [finally] leaves an option of the select. *)
Lemma finally_action p : action (finally_reset p) = lit "weather".
Proof. reflexivity. Qed.

Lemma text_wf_reset p : text_wf (finally_reset p).
Proof. split; constructor. Qed.

Lemma page_inv_step s ev s' : page_inv s -> step s ev = Some s' -> page_inv s'.
Proof.
  intros (Hc & Ha & Hr & Ht) Hs. destruct s as [p l]. unfold page_inv in *. unfold step in Hs.
  cbn [ui tasks] in *.
  unfold submissions in *.
  destruct ev as [f v | | | | n r | n].
  - destruct (forallb unit_ok v) eqn:U; [|discriminate]. cbn [negb] in Hs.
    pose proof (forallb_str_wf v U) as Hv. destruct Ht as [Hp Hl].
    destruct f.
    + injection Hs as <-. repeat split; auto.
    + destruct (existsb (jstr_eqb v) action_values) eqn:E; [|discriminate].
      injection Hs as <-. repeat split; auto.
    + destruct (requiresLocation p); [|discriminate]. injection Hs as <-. repeat split; auto.
  - destruct (loading p) eqn:L; [discriminate|].
    destruct (is_nil (trim (prompt p))) eqn:P; [discriminate|].
    injection Hs as <-. unfold handleSubmit; simpl. rewrite P; simpl.
    rewrite sum_app_single. split; [simpl in *; lia|]. split; [exact Ha|].
    split; [tasks_ok Hr; exists p; auto | exact Ht].
  - injection Hs as <-. simpl. rewrite sum_app_single. split; [simpl; lia|]. split; [exact Ha|].
    split; [tasks_ok Hr | exact Ht].
  - destruct (showHistory p); [|discriminate]. injection Hs as <-. auto.
  - destruct (l !! n) as [[rq|resp|rq|resp]|] eqn:E; try discriminate; injection Hs as <-;
      pose proof (sum_delete submit_weight l n _ E) as D;
      [unfold submit_responded | unfold history_responded];
      destruct r as [resp|msg]; try destruct (res_ok resp); simpl;
      try match goal with
          | |- context [<[n := ?t]> l] => pose proof (sum_insert submit_weight l n _ t E)
          end;
      simpl in *; (split; [destruct (loading p); lia | split; [assumption || reflexivity |
                    split; [tasks_ok Hr | exact Ht || apply text_wf_reset]]]).
  - destruct (l !! n) as [[rq|resp|rq|resp]|] eqn:E; try discriminate; injection Hs as <-;
      pose proof (sum_delete submit_weight l n _ E) as D;
      [unfold submit_read | unfold history_read];
      destruct (rs_json resp) as [data|msg]; try destruct (read (Some data) (lit "runs")); simpl;
      try rewrite sum_app_single; simpl in *;
      (split; [destruct (loading p); lia | split; [assumption || reflexivity |
                    split; [tasks_ok Hr | exact Ht || apply text_wf_reset]]]).
Qed.

Lemma page_inv_init : page_inv init.
Proof. split; [reflexivity | split; [reflexivity | split; [constructor | split; constructor]]]. Qed.

Lemma page_inv_reachable s : reachable s -> page_inv s.
Proof.
  induction 1 as [|s ev s' _ IH Hs]; [exact page_inv_init | exact (page_inv_step _ _ _ IH Hs)].
Qed.

Lemma run_reachable s evs s' : reachable s -> run s evs = Some s' -> reachable s'.
Proof.
  revert s. induction evs as [|ev evs IH]; intros s Hs; simpl; [congruence|].
  destruct (step s ev) as [s1|] eqn:E; [|discriminate]. apply IH. exact (reach_step _ _ _ Hs E).
Qed.

Lemma state_of_reachable evs : run init evs <> None -> reachable (state_of evs).
Proof.
  unfold state_of. destruct (run init evs) as [s|] eqn:E; [|contradiction].
  intros _. exact (run_reachable init evs s reach_init E).
Qed.

(** Settling the first task is always possible and lowers the weight. *)
Lemma settle_first_step net s ev :
  settle_first net s = Some ev ->
  exists s', step s ev = Some s' /\ weight (tasks s') < weight (tasks s).
Proof.
  destruct s as [p [|t l]]; unfold settle_first; simpl; [discriminate|].
  destruct t as [rq|resp|rq|resp]; intros H; injection H as <-; eexists; (split; [reflexivity|]);
    unfold submit_responded, submit_read, history_responded, history_read, weight.
  - destruct (net rq) as [resp|msg]; [destruct (res_ok resp)|]; simpl; lia.
  - destruct (rs_json resp); simpl; [rewrite sum_app_single; simpl|]; lia.
  - destruct (net rq) as [resp|msg]; [destruct (res_ok resp)|]; simpl; lia.
  - simpl. lia.
Qed.

Lemma drain_empty fuel net s :
  page_inv s -> weight (tasks s) <= fuel -> page_inv (drain fuel net s) /\ tasks (drain fuel net s) = [].
Proof.
  revert s. induction fuel as [|k IH]; intros s Hi Hw; simpl.
  - unfold weight in Hw. destruct (tasks s) as [|t l]; [auto|].
    destruct t; simpl in Hw; lia.
  - destruct (settle_first net s) as [ev|] eqn:Hev.
    + destruct (settle_first_step net s ev Hev) as [s' [Hs Hlt]]. rewrite Hs.
      apply IH; [exact (page_inv_step _ _ _ Hi Hs) | lia].
    + split; [exact Hi|]. unfold settle_first in Hev.
      destruct (tasks s) as [|[] l]; [reflexivity | discriminate ..].
Qed.

(** A page with no task in flight is not loading. *)
Lemma page_inv_idle s : page_inv s -> tasks s = [] -> loading (ui s) = false.
Proof.
  intros [Hc _] E. rewrite E in Hc. simpl in Hc. destruct (loading (ui s)); [discriminate | reflexivity].
Qed.

(** [handleSubmit]'s [finally] after a successful [response.json()]. *)
Lemma step_submit_read s n r s' :
  tasks s !! n = Some (SubmitJson r) -> step s (ReadBody n) = Some s' -> s' = submit_read r n s.
Proof. intros E. unfold step. rewrite E. congruence. Qed.

(** A 2xx answer to a request in flight waits for its body. *)
Lemma respond_ok s n t resp :
  tasks s !! n = Some t -> res_ok resp = true ->
  (forall rq, t = SubmitFetch rq -> step s (Respond n (Ok resp)) = Some (mkState (ui s) (<[n := SubmitJson resp]> (tasks s)))) /\
  (forall rq, t = HistoryFetch rq -> step s (Respond n (Ok resp)) = Some (mkState (ui s) (<[n := HistoryJson resp]> (tasks s)))).
Proof.
  intros E O. split; intros rq ->; unfold step; rewrite E;
    [unfold submit_responded | unfold history_responded]; rewrite O; reflexivity.
Qed.

Lemma lookup_insert_here {A} (l : list A) n x y : l !! n = Some x -> <[n := y]> l !! n = Some y.
Proof. intros E. apply list_lookup_insert_eq. eapply lookup_lt_Some, E. Qed.

Lemma run_cons s ev evs s1 : step s ev = Some s1 -> run s (ev :: evs) = run s1 evs.
Proof. intros E. cbn [run]. now rewrite E. Qed.

Lemma step_history_read s n resp :
  tasks s !! n = Some (HistoryJson resp) -> step s (ReadBody n) = Some (history_read resp n s).
Proof. intros E. unfold step. now rewrite E. Qed.

(** A history request answered 200 whose body is read: [data.runs]
    becomes the history and the section is shown. *)
Lemma history_ok_read s n rq resp data runs :
  tasks s !! n = Some (HistoryFetch rq) -> res_ok resp = true ->
  rs_json resp = Ok data -> read (Some data) (lit "runs") = Ok runs ->
  run s [Respond n (Ok resp); ReadBody n] =
    Some (mkState (set_showHistory true (set_history runs (ui s)))
                  (delete n (<[n := HistoryJson resp]> (tasks s)))).
Proof.
  intros E O J R. rewrite (run_cons _ _ _ _ (proj2 (respond_ok s n _ resp E O) _ eq_refl)).
  rewrite (run_cons _ _ _ _ (step_history_read (mkState _ _) n resp (lookup_insert_here _ _ _ _ E))).
  unfold history_read. cbn [ui tasks]. now rewrite J, R.
Qed.

Lemma run_app s evs1 evs2 :
  run s (evs1 ++ evs2) = match run s evs1 with Some s' => run s' evs2 | None => None end.
Proof. revert s. induction evs1 as [|ev evs1 IH]; intros s; [reflexivity|]. cbn. destruct (step s ev); auto. Qed.

(** ** Properties *)

(** C10: in every reachable state of the page, at most one submission is
    in flight, and exactly one while [loading] is set: the Run button is
    disabled during a run, so runs never overlap. *)
Theorem single_submission s :
  reachable s -> submissions (tasks s) = (if loading (ui s) then 1 else 0).
Proof. intros H. apply (page_inv_reachable s H). Qed.

(** C23: the selected action is always one of the three options. *)
Theorem action_is_option s :
  reachable s -> In (action (ui s)) action_values.
Proof.
  intros H. destruct (page_inv_reachable s H) as [_ [Ha _]].
  apply existsb_exists in Ha as [x [Hx Hxe]]. apply jstr_eqb_spec in Hxe. now subst.
Qed.

(** C11: whatever the network answers, letting the promises in flight
    settle (at most [weight] settlements) leaves the page with nothing in
    flight and not loading. *)
Theorem drain_settles s net :
  reachable s ->
  tasks (drain (weight (tasks s)) net s) = [] /\ loading (ui (drain (weight (tasks s)) net s)) = false.
Proof.
  intros H. destruct (drain_empty (weight (tasks s)) net s (page_inv_reachable s H) (le_n _)) as [Hi He].
  split; [exact He | exact (page_inv_idle _ Hi He)].
Qed.

(** What [submit_read] leaves after an answer without [error]. *)
Lemma submit_read_ok s n r data :
  rs_json r = Ok data -> truthy (Some data) = true ->
  truthy (opt_get (Some data) (lit "error")) = false ->
  action (ui (submit_read r n s)) = lit "weather" /\ prompt (ui (submit_read r n s)) = [] /\
  location (ui (submit_read r n s)) = [] /\
  panel_view (ui (submit_read r n s)) =
    PResult (opt_get (Some data) (lit "ai_response")) (lit "Weather Data")
            (opt_get (Some data) (lit "api_response")) (opt_get (Some data) (lit "final_result")).
Proof.
  intros J T F. unfold submit_read. rewrite J.
  unfold panel_view, finally_reset, set_location, set_action, set_prompt, set_loading, set_result.
  cbn [loading result action prompt location ui]. rewrite T, F. auto.
Qed.

(** C21: after a successful run the form is reset (empty prompt and
    location, action ["weather"], not loading), so the heading of the
    provider's answer reads ["Weather Data"] whatever action was run. *)
Theorem submit_success_label s n r data s' :
  tasks s !! n = Some (SubmitJson r) -> rs_json r = Ok data ->
  truthy (Some data) = true -> truthy (opt_get (Some data) (lit "error")) = false ->
  step s (ReadBody n) = Some s' ->
  action (ui s') = lit "weather" /\ prompt (ui s') = [] /\ location (ui s') = [] /\
  panel_view (ui s') =
    PResult (opt_get (Some data) (lit "ai_response")) (lit "Weather Data")
            (opt_get (Some data) (lit "api_response")) (opt_get (Some data) (lit "final_result")).
Proof. intros E J T F Hs. rewrite (step_submit_read _ _ _ _ E Hs). exact (submit_read_ok s n r data J T F). Qed.

(** C22: a non-2xx answer to a submission is shown as the error
    ["Failed to run workflow: HTTP error! status: <status>."]. *)
Theorem submit_http_error s n rq resp s' :
  tasks s !! n = Some (SubmitFetch rq) -> res_ok resp = false ->
  step s (Respond n (Ok resp)) = Some s' ->
  panel_view (ui s') =
    PError (Some (JStr (lit "Failed to run workflow: " ++ http_error (rs_status resp) ++ lit "."))).
Proof.
  intros E O. unfold step. rewrite E. intros H. injection H as <-.
  unfold submit_responded. rewrite O. reflexivity.
Qed.

Lemma single_submission_witness :
  reachable (state_of run_github) /\
  submissions (tasks (state_of run_github)) = (if loading (ui (state_of run_github)) then 1 else 0).
Proof.
  assert (R : reachable (state_of run_github)) by (apply state_of_reachable; discriminate).
  split; [exact R | exact (single_submission _ R)].
Defined.

Lemma action_is_option_witness :
  reachable (state_of run_github) /\ In (action (ui (state_of run_github))) action_values.
Proof.
  assert (R : reachable (state_of run_github)) by (apply state_of_reachable; discriminate).
  split; [exact R | exact (action_is_option _ R)].
Defined.

Lemma drain_settles_witness :
  reachable (state_of run_github) /\
  tasks (drain (weight (tasks (state_of run_github))) (fun _ => Ok answer_200) (state_of run_github)) = [] /\
  loading (ui (drain (weight (tasks (state_of run_github))) (fun _ => Ok answer_200)
                     (state_of run_github))) = false.
Proof.
  assert (R : reachable (state_of run_github)) by (apply state_of_reachable; discriminate).
  split; [exact R | exact (drain_settles _ _ R)].
Defined.

Lemma submit_success_label_witness :
  let s := state_of (run_github ++ [Respond 0 (Ok answer_200)]) in
  let data := JObj [(lit "ai_response", JStr (lit "Quick thought: today"));
                    (lit "api_response", JStr (lit "Trending: a/b (12"));
                    (lit "final_result", JStr (lit "Quick thought: today #opensource"))] in
  tasks s !! 0%nat = Some (SubmitJson answer_200) /\
  action (ui (submit_read answer_200 0 s)) = lit "weather" /\
  panel_view (ui (submit_read answer_200 0 s)) =
    PResult (opt_get (Some data) (lit "ai_response")) (lit "Weather Data")
            (opt_get (Some data) (lit "api_response")) (opt_get (Some data) (lit "final_result")).
Proof.
  intros s data. assert (E : tasks s !! 0%nat = Some (SubmitJson answer_200)) by reflexivity.
  split; [exact E|].
  destruct (submit_success_label s 0 answer_200 data (submit_read answer_200 0 s) E eq_refl
              eq_refl eq_refl eq_refl) as [A [_ [_ P]]].
  split; [exact A | exact P].
Defined.

Lemma submit_http_error_witness :
  let s := state_of run_github in
  tasks s !! 0%nat = Some (SubmitFetch (workflow_request (ui (state_of [Input FPrompt (lit "today");
                                                                     Input FAction (lit "github")])))) /\
  panel_view (ui (submit_responded (Ok answer_500) 0 s)) =
    PError (Some (JStr (lit "Failed to run workflow: " ++ http_error 500 ++ lit "."))).
Proof.
  intros s. split; [reflexivity|].
  exact (submit_http_error s 0 _ answer_500 _ eq_refl eq_refl eq_refl).
Defined.

(** C24: two history requests in flight are not ordered: from any
    state with history requests [n] and [m], [n] sent first, when the
    later one is answered and read first, the earlier one's answer then
    overwrites it, and the page shows the older list [hn] whatever the
    newer one [hm] is: [fetchHistory] does not discard a stale answer. *)
Theorem history_race s n m rqn rqm rn rm dn dm hn hm :
  (n < m)%nat -> tasks s !! n = Some (HistoryFetch rqn) -> tasks s !! m = Some (HistoryFetch rqm) ->
  res_ok rn = true -> rs_json rn = Ok dn -> read (Some dn) (lit "runs") = Ok hn ->
  res_ok rm = true -> rs_json rm = Ok dm -> read (Some dm) (lit "runs") = Ok hm ->
  exists s', run s [Respond m (Ok rm); ReadBody m; Respond n (Ok rn); ReadBody n] = Some s' /\
    history (ui s') = hn /\ showHistory (ui s') = true.
Proof.
  intros Hlt En Em On Jn Rn Om Jm Rm.
  change [Respond m (Ok rm); ReadBody m; Respond n (Ok rn); ReadBody n]
    with ([Respond m (Ok rm); ReadBody m] ++ [Respond n (Ok rn); ReadBody n]).
  rewrite run_app, (history_ok_read s m _ _ _ _ Em Om Jm Rm).
  assert (L : tasks (mkState (set_showHistory true (set_history hm (ui s)))
                             (delete m (<[m := HistoryJson rm]> (tasks s)))) !! n = Some (HistoryFetch rqn))
    by (cbn [tasks]; rewrite list_lookup_delete_lt, list_lookup_insert_ne by lia; exact En).
  cbv iota. rewrite (history_ok_read _ n rqn rn dn hn L On Jn Rn).
  eexists. split; [reflexivity | split; reflexivity].
Qed.

Lemma history_race_witness :
  let s := state_of [ClickViewHistory; ClickViewHistory] in
  (0 < 1)%nat /\ tasks s !! 0%nat = Some (HistoryFetch history_request) /\
  tasks s !! 1%nat = Some (HistoryFetch history_request) /\
  exists s', run s [Respond 1 (Ok (history_answer [lit "new"; lit "old"])); ReadBody 1;
                    Respond 0 (Ok (history_answer [lit "old"])); ReadBody 0] = Some s' /\
    history (ui s') = Some (JArr [JObj [(lit "prompt", JStr (lit "old"))]]) /\ showHistory (ui s') = true.
Proof.
  cbv zeta. split; [lia | split; [reflexivity | split; [reflexivity|]]].
  exact (history_race (state_of [ClickViewHistory; ClickViewHistory]) 0 1 history_request history_request
           (history_answer [lit "old"]) (history_answer [lit "new"; lit "old"]) _ _ _ _ ltac:(lia) eq_refl eq_refl eq_refl eq_refl eq_refl
           eq_refl eq_refl eq_refl).
Defined.

(** C25: from any state with a history request in flight, a 200 answer
    whose body has no [runs] sets [history] to [undefined] and shows the
    section, and rendering the page then throws: [history.length] is
    read on [undefined]. *)
Theorem history_missing_runs_crash s n rq resp data :
  tasks s !! n = Some (HistoryFetch rq) -> res_ok resp = true ->
  rs_json resp = Ok data -> read (Some data) (lit "runs") = Ok None ->
  exists s', run s [Respond n (Ok resp); ReadBody n] = Some s' /\
    history (ui s') = None /\
    render (ui s') = Throw (lit "Cannot read properties of undefined (reading 'length')").
Proof.
  intros E O J R. rewrite (history_ok_read s n rq resp data None E O J R).
  eexists. split; [reflexivity | split; reflexivity].
Qed.

Lemma history_missing_runs_crash_witness :
  tasks (state_of [ClickViewHistory]) !! 0%nat = Some (HistoryFetch history_request) /\
  exists s', run (state_of [ClickViewHistory]) [Respond 0 (Ok history_answer_bare); ReadBody 0] = Some s' /\
    history (ui s') = None /\
    render (ui s') = Throw (lit "Cannot read properties of undefined (reading 'length')").
Proof.
  split; [reflexivity|].
  exact (history_missing_runs_crash (state_of [ClickViewHistory]) 0 history_request history_answer_bare _ eq_refl eq_refl eq_refl eq_refl).
Defined.

End Page.
