(* ===== verification/System.v ===== *)
(** * The page and the routes together

    The page talks to the two route handlers.  A submission sends
    [JSON.stringify(payload)] to [POST /api/run_workflow], whose
    [req.json()] is [JSON.parse] of that text ([Json]); [View
    History] and every successful submission ask [GET /api/history] and
    show [data.runs].  Requests and answers go through Next.js
    ([Next.serve], [Next.req_json], [Next.next_json]).  This file states
    what the composition guarantees: the requests the page can send reach
    the route intact and pass its validation; a 200 answer to a
    submission comes with one new run finalised with its texts, which
    the page then shows ([submission_shows_stored]); a history request
    changes nothing, and the page then shows the ten most recent runs
    ([history_shows_recent]), without a location; the location the page
    sends with a news request has no effect. *)

From Stdlib Require Import String.
From Stdlib Require Import ZArith List Lia Bool.
From stdpp Require Import gmap.
From S2P Require Import Prelude JsString Effects JsValue Json Platform RunStore World DateTime.
From S2P Require Import Providers Workflow History Next Page.
Import RunModel World Workflow Page.

Open Scope Z_scope.

Module System.

(** The shape of a history entry as the page shows a stored run. *)
Definition run_item (r : WorkflowRun) : item_view :=
  mkItem (Some (JStr (RunModel.prompt r))) (Some (JStr (RunModel.action r))) None
         (Some (JStr (final_result r))) (Some (JStr (DateTime.iso_string (created_at r)))).

(** ** Lemmas *)

Lemma payload_fields p :
  Workflow.fields (payload p) =
    (Some (JStr (trim (Page.prompt p))), Some (JStr (Page.action p)),
     if requiresLocation p && negb (is_nil (trim (Page.location p)))
     then Some (JStr (trim (Page.location p))) else None).
Proof.
  unfold Workflow.fields, payload. simpl.
  destruct (requiresLocation p && negb (is_nil (trim (Page.location p)))); reflexivity.
Qed.

(** A workflow request in flight carries the payload of a page with a
    prompt, one of the three actions and well-formed text. *)
Lemma submit_request_ok s n rq :
  reachable s -> tasks s !! n = Some (SubmitFetch rq) ->
  exists p, rq_body rq = Some (payload p) /\ is_nil (trim (Page.prompt p)) = false /\
            In (Page.action p) action_values /\ text_wf p.
Proof.
  intros R E. destruct (page_inv_reachable s R) as [_ [_ [Hr _]]].
  destruct (proj1 (Forall_lookup req_ok (tasks s)) Hr n _ E) as [p [-> [Hp [Ha Ht]]]].
  exists p. split; [reflexivity | split; [exact Hp|]]. split; [|exact Ht].
  apply existsb_exists in Ha as [x [Hx Hxe]]. apply jstr_eqb_spec in Hxe. now subst.
Qed.

(** The payload is an object of strings. *)
Lemma payload_strings p :
  payload p = Json.strings_obj
    ([(lit "prompt", trim (Page.prompt p)); (lit "action", Page.action p)] ++
     if requiresLocation p && negb (is_nil (trim (Page.location p)))
     then [(lit "location", trim (Page.location p))] else []).
Proof. unfold payload, Json.strings_obj. destruct (_ && _); reflexivity. Qed.

Lemma action_value_wf a : In a action_values -> str_wf a.
Proof. intros [<- | [<- | [<- | []]]]; repeat constructor. Qed.

(** [JSON.parse(JSON.stringify(payload))] is the payload. *)
Lemma payload_roundtrip p :
  In (Page.action p) action_values -> text_wf p ->
  Json.parse (Json.stringify (payload p)) = Ok (payload p).
Proof.
  intros Ha [Hp Hl]. rewrite payload_strings. apply Json.parse_stringify_strings.
  apply Forall_app. split.
  - repeat constructor; simpl; auto using str_wf_trim, action_value_wf.
  - destruct (_ && _); repeat constructor; simpl; auto using str_wf_trim.
Qed.

Lemma action_value_nonempty a : In a action_values -> is_nil a = false.
Proof. intros [<- | [<- | [<- | []]]]; reflexivity. Qed.

(** A body that passes the validation runs the pipeline. *)
Lemma POST_valid {S} `{Fetch S} `{Clock S} `{RunStore S} e b p a l (st : S) :
  Workflow.fields b = (p, a, l) -> truthy p = true -> truthy a = true ->
  POST e (Ok b) st = catch (pipeline e p a l) (fun msg => ret (server_error msg)) st.
Proof. intros F P A. unfold POST, catch, bind, lift. rewrite F, P, A. reflexivity. Qed.

Lemma pipeline_status {S} `{RunStoreLaws S} `{Fetch S} `{Clock S} `{!PlatformFrame S}
  e p a l (st : S) :
  store_wf st ->
  (exists msg st', pipeline e p a l st = (Throw msg, st')) \/
  (exists x y z st', pipeline e p a l st = (Ok (ok_response x y z), st')).
Proof.
  intros W. pose proof (pipeline_spec e p a l st W) as Hp.
  destruct (pipeline e p a l st) as [r st'].
  destruct Hp as [_ [[_ [m ->]] | [[i [d [_ [_ [m ->]]]]] | [i [d [x [y [z [_ [_ [_ [_ [-> _]]]]]]]]]]]]];
    eauto 6.
Qed.

(** The route the page's workflow request reaches. *)
Lemma serve_workflow {S} `{Fetch S} `{Clock S} `{RunStore S} e p :
  Next.serve e (workflow_request p) =
    Some (bind (POST e (Next.req_json (workflow_request p))) (fun r => ret (Next.next_json r)) : M S _).
Proof. reflexivity. Qed.

Lemma in_action_values a : existsb (jstr_eqb a) action_values = true -> In a action_values.
Proof. intros H. apply existsb_exists in H as [x [Hx Hxe]]. apply jstr_eqb_spec in Hxe. now subst. Qed.

Lemma some_exists {A} (x : A) (P : A -> Prop) : P x -> exists c, Some x = Some c /\ P c.
Proof. eauto. Qed.

(** ** Properties *)

(** Every workflow request the page can have in flight reaches the
    route intact ([JSON.parse] of the text [JSON.stringify] sent gives
    back the payload) and passes its validation: [POST] answers it 200
    or 500, never 400. *)
Theorem page_requests_valid {S} `{RunStoreLaws S} `{Fetch S} `{Clock S} `{!PlatformFrame S}
  s n rq b e (st : S) :
  reachable s -> tasks s !! n = Some (SubmitFetch rq) -> rq_body rq = Some b -> store_wf st ->
  Json.parse (Json.stringify b) = Ok b /\
  exists resp st', POST e (Json.parse (Json.stringify b)) st = (Ok resp, st') /\
                   (status resp = 200 \/ status resp = 500).
Proof.
  intros R E B W. destruct (submit_request_ok s n rq R E) as [p [Hb [Hp [Ha Ht]]]].
  rewrite Hb in B. injection B as <-. rewrite payload_roundtrip by assumption.
  split; [reflexivity|].
  rewrite (POST_valid _ _ _ _ _ _ (payload_fields p))
    by (simpl; rewrite ?Hp, ?(action_value_nonempty _ Ha); reflexivity).
  unfold catch.
  destruct (pipeline_status e (Some (JStr (trim (Page.prompt p)))) (Some (JStr (Page.action p)))
              (if requiresLocation p && negb (is_nil (trim (Page.location p)))
               then Some (JStr (trim (Page.location p))) else None) st W)
    as [[msg [st' ->]] | [x [y [z [st' ->]]]]]; eexists _, _; split; [reflexivity | now right
                                                                   | reflexivity | now left].
Qed.

Lemma page_requests_valid_witness :
  reachable (state_of run_github) /\
  tasks (state_of run_github) !! 0%nat =
    Some (SubmitFetch (workflow_request (ui (state_of [Input FPrompt (lit "today");
                                                       Input FAction (lit "github")])))) /\
  store_wf world0 /\
  (let b := payload (ui (state_of [Input FPrompt (lit "today"); Input FAction (lit "github")])) in
   Json.parse (Json.stringify b) = Ok b /\
   exists resp st', POST env_mock (Json.parse (Json.stringify b)) world0 = (Ok resp, st') /\
                    (status resp = 200 \/ status resp = 500)).
Proof.
  assert (R : reachable (state_of run_github)) by (apply state_of_reachable; discriminate).
  assert (W : store_wf world0) by (vm_compute; exact (map_Forall_empty _)).
  split; [exact R | split; [reflexivity | split; [exact W|]]].
  exact (page_requests_valid (state_of run_github) 0 _ _ env_mock world0 R eq_refl eq_refl W).
Defined.

(** The page's rendering of an array of stored runs. *)
Lemma history_view_runs l :
  history_view_of (Some (JArr (map History.run_json l))) =
    Ok (if is_nil l then HEmpty else HItems (map run_item l)).
Proof.
  destruct l as [|r l]; [reflexivity|].
  unfold history_view_of. simpl. f_equal. f_equal.
  induction l as [|r' l IH]; [reflexivity|]. simpl in *.
  destruct (items_of (map History.run_json l)); [|discriminate].
  injection IH as ->. reflexivity.
Qed.

(** The location the page sends with a news request changes nothing:
    [fetchNews] takes no argument. *)
Theorem news_ignores_location {S} `{Fetch S} `{Clock S} e l1 l2 :
  Providers.fetch_api_response e (Some (JStr (lit "news"))) l1 =
  Providers.fetch_api_response e (Some (JStr (lit "news"))) l2.
Proof. reflexivity. Qed.

(** C6: a workflow request the page has in flight reaches [POST] through
    the router and comes back as a response: 200 or 500, never 400.  A
    200 answer comes with one new run in the collection, finalised with
    the three texts [a], [b], [f] of the answer, and once the page has
    read it, its result panel shows exactly those texts (strings of code
    units survive [JSON.stringify] and [response.json()]): what the page
    shows is what was stored. *)
Theorem submission_shows_stored {S} `{RunStoreLaws S} `{Fetch S} `{Clock S} `{!PlatformFrame S}
  s n rq e (st : S) :
  reachable s -> tasks s !! n = Some (SubmitFetch rq) -> store_wf st ->
  exists c, Next.serve e rq = Some c /\ exists resp st', c st = (Ok resp, st') /\
    (rs_status resp = 200 \/ rs_status resp = 500) /\
    (rs_status resp = 200 ->
     exists i d a b f, store_runs st !! i = None /\
       store_runs st' = <[i := finalize a b f (pending d i)]> (store_runs st) /\
       (forallb unit_ok (a ++ b ++ f) = true ->
        forall s1 s2, step s (Respond n (Ok resp)) = Some s1 -> step s1 (ReadBody n) = Some s2 ->
        panel_view (ui s2) = PResult (Some (JStr a)) (lit "Weather Data") (Some (JStr b)) (Some (JStr f)))).
Proof.
  intros R E W. destruct (page_inv_reachable s R) as [_ [_ [Hr _]]].
  destruct (proj1 (Forall_lookup req_ok (tasks s)) Hr n _ E) as [p [-> [Hp [Ha Ht]]]].
  apply in_action_values in Ha.
  rewrite serve_workflow. apply some_exists.
  assert (Q : Next.req_json (workflow_request p) = Ok (payload p)) by exact (payload_roundtrip p Ha Ht).
  unfold bind at 1. rewrite Q.
  rewrite (POST_valid _ _ _ _ _ _ (payload_fields p))
    by (simpl; rewrite ?Hp, ?(action_value_nonempty _ Ha); reflexivity).
  set (l := if requiresLocation p && negb (is_nil (trim (Page.location p)))
            then Some (JStr (trim (Page.location p))) else None).
  pose proof (pipeline_spec e (Some (JStr (trim (Page.prompt p)))) (Some (JStr (Page.action p))) l st W) as Hs.
  unfold catch. destruct (pipeline _ _ _ _ st) as [r st'].
  destruct Hs as [_ [[_ [m ->]] | [[i [d [_ [_ [m ->]]]]] | (i & d & a & b & f & ai & api & Hi & Es & -> & _)]]].
  1,2: eexists _, _; split; [reflexivity|]; split; [right; reflexivity | intros H'; discriminate H'].
  eexists _, _. split; [reflexivity|]. split; [left; reflexivity|]. intros _.
  exists i, d, a, b, f. split; [exact Hi|]. split; [exact Es|]. intros U s1 s2 T1 T2.
  rewrite (proj1 (respond_ok s n _ (Next.next_json (ok_response a b f)) E eq_refl) _ eq_refl) in T1. injection T1 as <-.
  rewrite (step_submit_read (mkState _ _) n _ _ (lookup_insert_here _ _ _ _ E) T2).
  destruct (submit_read_ok (mkState (ui s) (<[n := SubmitJson (Next.next_json (ok_response a b f))]> (tasks s)))
              n _ _ (Next.next_json_read _ (Next.ok_response_ok a b f U)) eq_refl eq_refl) as (_ & _ & _ & ->).
  reflexivity.
Qed.

(** C7: a history request the page has in flight reaches [GET] through
    the router; the collection is unchanged; a 200 answer carries a
    list of runs meeting [recent_spec] (the ten most recent, newest
    first), and once the page has read it, the history is shown and
    lists exactly those runs, entry by entry. *)
Theorem history_shows_recent {S} `{RunStoreLaws S} `{Fetch S} `{Clock S}
  s n rq e (st : S) :
  reachable s -> tasks s !! n = Some (HistoryFetch rq) -> store_wf st ->
  exists c, Next.serve e rq = Some c /\ exists resp st', c st = (Ok resp, st') /\
    store_runs st' = store_runs st /\
    (rs_status resp = 200 ->
     exists runs, recent_spec (store_runs st) runs /\
       (forallb Next.run_ok runs = true ->
        forall s1 s2, step s (Respond n (Ok resp)) = Some s1 -> step s1 (ReadBody n) = Some s2 ->
        showHistory (ui s2) = true /\
        history_view_of (history (ui s2)) = Ok (if is_nil runs then HEmpty else HItems (map run_item runs)))).
Proof.
  intros R E W. destruct (page_inv_reachable s R) as [_ [_ [Hr _]]].
  pose proof (proj1 (Forall_lookup req_ok (tasks s)) Hr n _ E) as Hq. cbn in Hq. subst rq.
  change (Next.serve e history_request) with
    (Some (bind History.GET (fun r => ret (Next.next_json r)) : M S _)).
  apply some_exists.
  pose proof (History.GET_result st W) as G. unfold bind at 1.
  destruct (History.GET st) as [[resp|m] st']; [|destruct G as (_ & _ & [])].
  destruct G as (Es & _ & [S5 | (runs & -> & Hrec)]).
  - eexists _, _. split; [reflexivity|]. split; [exact Es|]. intros H'. cbn in H'. congruence.
  - eexists _, _. split; [reflexivity|]. split; [exact Es|]. intros _.
    exists runs. split; [exact Hrec|]. intros U s1 s2 T1 T2.
    rewrite (proj2 (respond_ok s n _ (Next.next_json (History.history_response runs)) E eq_refl) _ eq_refl) in T1. injection T1 as <-.
    unfold step in T2. cbn [tasks] in T2. rewrite (lookup_insert_here _ _ _ _ E) in T2. injection T2 as <-.
    unfold history_read. rewrite Next.next_json_read
      by (apply Next.history_response_ok; [apply Hrec | exact U]).
    cbn. split; [reflexivity | apply history_view_runs].
Qed.

Lemma submission_shows_stored_witness :
  reachable (state_of run_github) /\
  tasks (state_of run_github) !! 0%nat =
    Some (SubmitFetch (workflow_request (ui (state_of [Input FPrompt (lit "today");
                                                       Input FAction (lit "github")])))) /\
  store_wf world0 /\
  exists c, Next.serve env_mock (workflow_request (ui (state_of [Input FPrompt (lit "today");
                                                                 Input FAction (lit "github")]))) = Some c /\
  exists resp st', c world0 = (Ok resp, st') /\ (rs_status resp = 200 \/ rs_status resp = 500).
Proof.
  assert (R : reachable (state_of run_github)) by (apply state_of_reachable; discriminate).
  assert (W : store_wf world0) by (vm_compute; exact (map_Forall_empty _)).
  split; [exact R | split; [reflexivity | split; [exact W|]]].
  destruct (submission_shows_stored (state_of run_github) 0 _ env_mock world0 R eq_refl W)
    as (c & Hc & resp & st' & Hr & Hs & _).
  exists c. split; [exact Hc|]. exists resp, st'. split; [exact Hr | exact Hs].
Defined.

Lemma history_shows_recent_witness :
  reachable (state_of [ClickViewHistory]) /\
  tasks (state_of [ClickViewHistory]) !! 0%nat = Some (HistoryFetch history_request) /\
  store_wf world0 /\
  exists c, Next.serve env_mock history_request = Some c /\
  exists resp st', c world0 = (Ok resp, st') /\ store_runs st' = store_runs world0.
Proof.
  assert (R : reachable (state_of [ClickViewHistory])) by (apply state_of_reachable; discriminate).
  assert (W : store_wf world0) by (vm_compute; exact (map_Forall_empty _)).
  split; [exact R | split; [reflexivity | split; [exact W|]]].
  destruct (history_shows_recent (state_of [ClickViewHistory]) 0 _ env_mock world0 R eq_refl W)
    as (c & Hc & resp & st' & Hr & Hs & _).
  exists c. split; [exact Hc|]. exists resp, st'. split; [exact Hr | exact Hs].
Defined.

End System.
